(** * pystreamout: the Streamer monitoring lifecycle

    A shallow embedding of [pystreamout/pystreamout.py].  The [Streamer]
    object, the [Event] and [Thread] objects it allocates and the streams it
    is handed live in one explicit store, the [world].  Every method is a
    function on worlds; the body of [__flush], which runs on a background
    thread, is cut into atomic steps at its shared-state accesses, and an
    execution of the program is a schedule: a list of [action]s interleaving
    the caller, the workers and the owner of the streams. *)

From Stdlib Require Import ZArith NArith Strings.Byte String Ascii Bool Lia.
From stdpp Require Import base option list.

Open Scope Z_scope.

(** ** Bytes and text *)

(** [bytes.decode()] with its defaults: strict UTF-8.  Text is kept in its
    UTF-8 encoding, so decoding succeeds exactly on well-formed input and
    keeps the bytes. *)
Module Utf8.

Definition within (lo hi : N) (b : byte) : bool :=
  ((lo <=? Byte.to_N b) && (Byte.to_N b <=? hi))%N.

Definition continuation : byte -> bool := within 128 191.

(** The admissible range of the second byte depends on the lead byte:
    no overlong forms, no surrogates, nothing above U+10FFFF. *)
Definition second3 (lead : byte) : byte -> bool :=
  if within 224 224 lead then within 160 191
  else if within 237 237 lead then within 128 159
  else continuation.

Definition second4 (lead : byte) : byte -> bool :=
  if within 240 240 lead then within 144 191
  else if within 244 244 lead then within 128 143
  else continuation.

Fixpoint wellformed (bs : list byte) : bool :=
  match bs with
  | [] => true
  | b0 :: r0 =>
    if within 0 127 b0 then wellformed r0
    else
      match r0 with
      | [] => false
      | b1 :: r1 =>
        if within 194 223 b0 then continuation b1 && wellformed r1
        else
          match r1 with
          | [] => false
          | b2 :: r2 =>
            if within 224 239 b0
            then second3 b0 b1 && continuation b2 && wellformed r2
            else
              match r2 with
              | [] => false
              | b3 :: r3 =>
                within 240 244 b0 && second4 b0 b1 && continuation b2
                && continuation b3 && wellformed r3
              end
          end
      end
  end.

(** [None] stands for [UnicodeDecodeError]. *)
Definition decode (bs : list byte) : option string :=
  if wellformed bs then Some (string_of_list_byte bs) else None.

End Utf8.

(** ** Exceptions, streams, output *)

(** The exceptions that reach the code of [Streamer].  [OtherError] is any
    exception class that is neither a [ValueError] nor [StopIteration].  A
    [StopIteration] out of [readline] is no error to the read loop: the
    iterator [iter(stream.readline, b"")] takes it as its own end, so the
    [for] ends as it does on an empty read, and a stream delivers it as one
    (see [MockStream.as_read]). *)
Inductive exn :=
| ValueError
| UnicodeDecodeError       (* a subclass of ValueError *)
| AttributeError
| OtherError.

Definition isinstance_ValueError (e : exn) : bool :=
  match e with
  | ValueError | UnicodeDecodeError => true
  | AttributeError | OtherError => false
  end.

(** What one call of [stream.readline()] does: it returns bytes ([b""] at the
    end of a burst) or raises. *)
Inductive read_result :=
| Line (b : list byte)
| ReadRaises (e : exn).

(** The caller's stream object.  [binaryio] is [isinstance(stream, BinaryIO)],
    [closed] the [closed] attribute, [feed] the results of the [readline]
    calls to come; past the feed every read is empty. *)
Record stream := Stream {
  binaryio : bool;
  closed : bool;
  feed : list read_result
}.

Definition readline (s : stream) : read_result * stream :=
  match feed s with
  | [] => (Line [], s)
  | r :: rest => (r, Stream (binaryio s) (closed s) rest)
  end.

Definition close (s : stream) : stream := Stream (binaryio s) true (feed s).

(** The keys of [Streamer._messages]. *)
Inductive message :=
| output_thread_is_none
| streamer_closed_early
| finished
| already_monitoring
| stream_none
| stop_but_not_monitoring.

Definition _messages (m : message) : string :=
  match m with
  | output_thread_is_none => "
            Streamer :: Nothing is being monitored.
            Pass a stream to be monitored to the Streamer constructor or to the monitor instance method
            "
  | streamer_closed_early => "Streamer :: The stream closed while being read from"
  | finished => "Streamer :: done"
  | already_monitoring => "Streamer :: Already monitoring"
  | stream_none => "Streamer :: The given stream to monitor is None"
  | stop_but_not_monitoring => "Streamer :: stop called but not monitoring"
  end%string.

(** An argument of the builtin [print]: a decoded line of the stream, or one
    of the diagnostics. *)
Inductive printed :=
| Content (text : string)
| Diag (m : message).

Definition newline : string := String "010"%char EmptyString.

(** What [print] writes to standard output. *)
Definition render (p : printed) : string :=
  match p with
  | Content text => text ++ newline
  | Diag m => _messages m ++ newline
  end%string.

Inductive actor :=
| Caller
| Worker (t : nat).

(** Observable events: a [print], or a [time.sleep(0)]. *)
Inductive event :=
| Printed (a : actor) (p : printed)
| Slept (a : actor).

(** ** Control state *)

(** The points of [__flush] between two atomic steps: the guard of line 63,
    the head of the [while], the head of the [for] (with the local
    [buffer_size]), and the final [_cleanup()]. *)
Inductive flush_pc :=
| AtGuard
| AtWhile
| AtFor (buffer_size : Z)
| AtCleanup.

Inductive thread_state :=
| Running (pc : flush_pc)
| Finished
| Died (e : exn).

(** A [Thread(target=self.__flush, args=(stream,))] object. *)
Record thread := Thread {
  daemon : bool;
  args : option nat;
  tstate : thread_state
}.

(** Where the (single) caller of the instance is: between two calls, blocked
    in the [join()] of [stop], inside a direct call of [__flush], or unwound
    by an exception. *)
Inductive caller_state :=
| Idle
| InStopJoin (t : nat)
| InFlush (stream : option nat) (pc : flush_pc)
| CallerRaised (e : exn).

(** ** The store *)

Record world := World {
  _output_thread : option nat;   (* self._output_thread: index into threads *)
  _exit : option nat;            (* self._exit: index into events *)
  verbose : bool;                (* self.verbose *)
  events : list bool;            (* the Event objects: their flag *)
  threads : list thread;         (* the Thread objects *)
  streams : list stream;         (* the caller's stream objects *)
  caller : caller_state;
  trace : list event
}.

Definition set_caller (c : caller_state) (w : world) : world :=
  World (_output_thread w) (_exit w) (verbose w) (events w) (threads w)
        (streams w) c (trace w).

Definition set_events (es : list bool) (w : world) : world :=
  World (_output_thread w) (_exit w) (verbose w) es (threads w)
        (streams w) (caller w) (trace w).

Definition set_threads (ts : list thread) (w : world) : world :=
  World (_output_thread w) (_exit w) (verbose w) (events w) ts
        (streams w) (caller w) (trace w).

Definition set_streams (ss : list stream) (w : world) : world :=
  World (_output_thread w) (_exit w) (verbose w) (events w) (threads w)
        ss (caller w) (trace w).

Definition emit (e : event) (w : world) : world :=
  World (_output_thread w) (_exit w) (verbose w) (events w) (threads w)
        (streams w) (caller w) (trace w ++ [e]).

(** [Event.is_set()] *)
Definition is_set (e : nat) (w : world) : bool :=
  match events w !! e with
  | Some flag => flag
  | None => false
  end.

(** [Thread.is_alive()] *)
Definition is_alive (t : nat) (w : world) : bool :=
  match threads w !! t with
  | Some (Thread _ _ (Running _)) => true
  | _ => false
  end.

(** ** The methods of [Streamer] *)

Inductive result (A : Type) :=
| Ok (a : A)
| Raised (e : exn).
Arguments Ok {A} a.
Arguments Raised {A} e.

(** The values [is_monitoring] can return. *)
Inductive pyvalue :=
| PyNone
| PyBool (b : bool).

Definition truthy (v : pyvalue) : bool :=
  match v with
  | PyNone => false
  | PyBool b => b
  end.

(** [Streamer.print]: the builtin [print], gated by [verbose]. *)
Definition self_print (a : actor) (m : message) (w : world) : world :=
  if verbose w then emit (Printed a (Diag m)) w else w.

(** [Streamer.is_monitoring]: the value of
    [self._output_thread and self._output_thread.is_alive() and not self._exit.is_set()].
    A thread object is truthy; [None.is_set()] raises. *)
Definition is_monitoring (w : world) : result pyvalue * world :=
  match _output_thread w with
  | None => (Ok PyNone, w)
  | Some t =>
    if is_alive t w then
      match _exit w with
      | Some e => (Ok (PyBool (negb (is_set e w))), w)
      | None => (Raised AttributeError, w)
      end
    else (Ok (PyBool false), w)
  end.

(** [Streamer._cleanup] *)
Definition _cleanup (a : actor) (w : world) : world :=
  self_print a finished w.

(** [Streamer.monitor] *)
Definition monitor (stream : option nat) (w : world) : result unit * world :=
  match is_monitoring w with
  | (Raised e, w1) => (Raised e, w1)
  | (Ok v, w1) =>
    if truthy v then (Ok tt, self_print Caller already_monitoring w1)
    else
      match stream with
      | None => (Ok tt, self_print Caller stream_none w1)
      | Some _ =>
        let e := length (events w1) in
        let t := length (threads w1) in
        (Ok tt,
         World (Some t) (Some e) (verbose w1)
               (events w1 ++ [false])
               (threads w1 ++ [Thread true stream (Running AtGuard)])
               (streams w1) (caller w1) (trace w1))
      end
  end.

(** [Streamer.__init__] over a given environment of streams. *)
Definition __init__ (env : list stream) (stream : option nat) (verb : bool)
  : result unit * world :=
  let w := World None None verb [] [] env Idle [] in
  match stream with
  | Some _ => monitor stream w
  | None => (Ok tt, w)
  end.

(** [Streamer.stop] up to its [join()]: either it has returned, or it waits
    for thread [t]. *)
Inductive stop_progress :=
| StopReturned
| StopJoins (t : nat).

Definition stop (w : world) : result stop_progress * world :=
  match is_monitoring w with
  | (Raised e, w1) => (Raised e, w1)
  | (Ok v, w1) =>
    if truthy v then
      match _exit w1, _output_thread w1 with
      | Some e, Some t =>
        (Ok (StopJoins t),
         emit (Slept Caller) (set_events (<[e := true]> (events w1)) w1))
      | _, _ => (Raised AttributeError, w1)
      end
    else (Ok StopReturned, self_print Caller stop_but_not_monitoring w1)
  end.

(** The condition of the [while] of [__flush].  An argument that denotes no
    stream object is some other object: not a [BinaryIO]. *)
Definition while_cond (stream : option nat) (w : world) : bool :=
  match _exit w with
  | None => false
  | Some e =>
    negb (is_set e w) &&
    match stream with
    | None => false
    | Some sid =>
      match streams w !! sid with
      | Some st => binaryio st && negb (closed st)
      | None => false
      end
    end
  end.

Inductive flush_outcome :=
| Goto (pc : flush_pc)
| Return
| Uncaught (e : exn).

(** One atomic step of [__flush(stream)] run by actor [a]. *)
Definition __flush (a : actor) (stream : option nat) (pc : flush_pc) (w : world)
  : flush_outcome * world :=
  match pc with
  | AtGuard =>
    match _output_thread w with
    | None => (Goto AtCleanup, self_print a output_thread_is_none w)
    | Some _ => (Goto AtWhile, w)
    end
  | AtWhile =>
    if while_cond stream w then (Goto (AtFor 0), w) else (Goto AtCleanup, w)
  | AtFor buffer_size =>
    match stream ≫= (fun sid => (fun st => (sid, st)) <$> streams w !! sid) with
    | None => (Uncaught AttributeError, w)
    | Some (sid, st) =>
      let (r, st') := readline st in
      let w1 := set_streams (<[sid := st']> (streams w)) w in
      match r with
      | Line [] => (Goto AtWhile, w1)
      | Line line =>
        match Utf8.decode line with
        | Some text =>
          let w2 := emit (Printed a (Content text)) w1 in
          if buffer_size mod 10 =? 0
          then (Goto (AtFor buffer_size), emit (Slept a) w2)
          else (Goto (AtFor buffer_size), w2)
        | None => (Goto AtCleanup, self_print a streamer_closed_early w1)
        end
      | ReadRaises e =>
        if isinstance_ValueError e
        then (Goto AtCleanup, self_print a streamer_closed_early w1)
        else (Uncaught e, w1)
      end
    end
  | AtCleanup => (Return, _cleanup a w)
  end.

(** ** Executions *)

(** What can happen next: the caller calls a method or returns from the
    [join] of [stop], an activation of [__flush] takes one step, or the owner
    of a stream closes it. *)
Inductive action :=
| Call_monitor (stream : option nat)
| Call_stop
| Return_stop                       (* the join() of stop completes *)
| Call_flush (stream : option nat)  (* __flush invoked directly *)
| Step_caller                       (* the caller advances in __flush *)
| Step_worker (t : nat)
| Env_close (sid : nat).            (* the owner closes a stream *)

#[global] Instance action_eq_dec : EqDecision action.
Proof. solve_decision. Defined.

Definition set_tstate (t : nat) (s : thread_state) (w : world) : world :=
  match threads w !! t with
  | Some th => set_threads (<[t := Thread (daemon th) (args th) s]> (threads w)) w
  | None => w
  end.

(** Where a thread, or a caller inside a direct call, is after a step of
    [__flush]. *)
Definition thread_after (o : flush_outcome) : thread_state :=
  match o with
  | Goto pc => Running pc
  | Return => Finished
  | Uncaught e => Died e
  end.

Definition caller_after (s : option nat) (o : flush_outcome) : caller_state :=
  match o with
  | Goto pc => InFlush s pc
  | Return => Idle
  | Uncaught e => CallerRaised e
  end.

(** [step act w] is the world after [act]; it is [None] when [act] cannot
    happen in [w]: the caller is busy, [join] still waits for a live thread,
    the thread is not running, or there is no such stream. *)
Definition step (act : action) (w : world) : option world :=
  match act, caller w with
  | Call_monitor s, Idle =>
    match monitor s w with
    | (Ok _, w') => Some w'
    | (Raised e, w') => Some (set_caller (CallerRaised e) w')
    end
  | Call_stop, Idle =>
    match stop w with
    | (Ok StopReturned, w') => Some w'
    | (Ok (StopJoins t), w') => Some (set_caller (InStopJoin t) w')
    | (Raised e, w') => Some (set_caller (CallerRaised e) w')
    end
  | Return_stop, InStopJoin t =>
    if is_alive t w then None else Some (set_caller Idle w)
  | Call_flush s, Idle => Some (set_caller (InFlush s AtGuard) w)
  | Step_caller, InFlush s pc =>
    let (o, w') := __flush Caller s pc w in
    Some (set_caller (caller_after s o) w')
  | Step_worker t, _ =>
    match threads w !! t with
    | Some (Thread _ s (Running pc)) =>
      let (o, w') := __flush (Worker t) s pc w in
      Some (set_tstate t (thread_after o) w')
    | _ => None
    end
  | Env_close sid, _ =>
    match streams w !! sid with
    | Some st => Some (set_streams (<[sid := close st]> (streams w)) w)
    | None => None
    end
  | _, _ => None
  end.

(** The world a schedule leads to, when each of its actions can happen. *)
Fixpoint run (sched : list action) (w : world) : option world :=
  match sched with
  | [] => Some w
  | act :: rest =>
    match step act w with
    | Some w' => run rest w'
    | None => None
    end
  end.

(** A world is reachable when some schedule leads to it from a freshly
    constructed instance. *)
Definition reachable (w : world) : Prop :=
  exists env stream verb sched, run sched (__init__ env stream verb).2 = Some w.

(** ** Projections of the trace *)

(** Everything passed to [print], in order. *)
Definition stdout_lines (tr : list event) : list printed :=
  omap (fun e => match e with Printed _ p => Some p | Slept _ => None end) tr.

(** The decoded lines of streams that were printed, in order. *)
Definition content_lines (tr : list event) : list string :=
  omap (fun e => match e with Printed _ (Content s) => Some s | _ => None end) tr.

Definition actor_eqb (a b : actor) : bool :=
  match a, b with
  | Caller, Caller => true
  | Worker t, Worker u => Nat.eqb t u
  | _, _ => false
  end.

Definition event_actor (e : event) : actor :=
  match e with
  | Printed a _ => a
  | Slept a => a
  end.

(** The events of one actor. *)
Definition by_actor (a : actor) (tr : list event) : list event :=
  omap (fun e => if actor_eqb (event_actor e) a then Some e else None) tr.

(** The diagnostics a call of [Streamer.print] writes for each of [ms]. *)
Definition logged (verb : bool) (a : actor) (ms : list message) : list event :=
  if verb then map (fun m => Printed a (Diag m)) ms else [].

Definition is_background (act : action) : bool :=
  match act with
  | Step_worker _ | Env_close _ => true
  | _ => false
  end.

Definition is_monitor_call (act : action) : bool :=
  match act with
  | Call_monitor _ => true
  | _ => false
  end.

(** ** The invariant of reachable worlds *)

Record wf (w : world) : Prop := {
  wf_handle : forall t, _output_thread w = Some t ->
    (t < length (threads w))%nat /\
    exists e, _exit w = Some e /\ (e < length (events w))%nat;
  wf_alive : forall t, is_alive t w = true -> _output_thread w = Some t;
  wf_join : forall t, caller w = InStopJoin t ->
    _output_thread w = Some t /\ exists e, _exit w = Some e /\ is_set e w = true;
  wf_unset : (forall t, caller w <> InStopJoin t) ->
    forall t e, is_alive t w = true -> _exit w = Some e -> is_set e w = false
}.

(** ** States and event sequences the theorems speak of *)

(** The events of worker [t] so far. *)
Definition worker_events (t : nat) (w : world) : list event :=
  by_actor (Worker t) (trace w).

(** Who acts in a step. *)
Definition actor_of (act : action) : actor :=
  match act with
  | Step_worker t => Worker t
  | _ => Caller
  end.

(** The texts a reader prints when it goes through the feed [fd] read by
    read: empty reads print nothing, and the first read that raises or does
    not decode is the last. *)
Fixpoint feed_texts (fd : list read_result) : list string :=
  match fd with
  | [] => []
  | Line [] :: rest => feed_texts rest
  | Line line :: rest =>
    match Utf8.decode line with
    | Some text => text :: feed_texts rest
    | None => []
    end
  | ReadRaises _ :: _ => []
  end.

Definition is_direct_flush (act : action) : bool :=
  match act with
  | Call_flush _ | Step_caller => true
  | _ => false
  end.

(** Worker [t] is the only reader of stream [sid]: what it has printed,
    followed by what the rest of the feed holds, is [total]; once it has left
    the read loop, what it has printed is a prefix of [total]. *)
Definition sole_reader (t sid : nat) (total : list string) (w : world) : Prop :=
  wf w /\
  match caller w with InFlush _ _ => False | _ => True end /\
  exists d ts, threads w !! t = Some (Thread d (Some sid) ts) /\
    match ts with
    | Running AtCleanup | Finished | Died _ =>
      exists suffix, content_lines (worker_events t w) ++ suffix = total
    | Running _ =>
      exists st, streams w !! sid = Some st /\
        content_lines (worker_events t w) ++ feed_texts (feed st) = total
    end.

(** The state an instance is left in by a [stop] that has joined its worker:
    no thread runs, the exit signal is set, and the caller is neither inside
    [stop] nor inside a burst of a direct [__flush]. *)
Record quiescent (w : world) : Prop := {
  q_dead : forall t, is_alive t w = false;
  q_handle : exists t, _output_thread w = Some t;
  q_exit : exists e, _exit w = Some e /\ is_set e w = true;
  q_caller : match caller w with
             | InStopJoin _ | InFlush _ (AtFor _) => False
             | _ => True
             end
}.

(** Every activation of [__flush] that is inside a burst has
    [buffer_size = 0]. *)
Definition counters_zero (w : world) : Prop :=
  (forall t d s bs,
     threads w !! t = Some (Thread d s (Running (AtFor bs))) -> bs = 0) /\
  (forall s bs, caller w = InFlush s (AtFor bs) -> bs = 0).

(** The events of a worker that prints the lines [ls]: after each [print]
    comes a [time.sleep(0)]. *)
Definition burst_events (t : nat) (ls : list (list byte)) : list event :=
  flat_map (fun l => [Printed (Worker t) (Content (string_of_list_byte l));
                      Slept (Worker t)]) ls.

(** A line the read loop prints: not the end marker, and decodable. *)
Definition printable (l : list byte) : Prop :=
  l <> [] /\ Utf8.wellformed l = true.

(** The call changed nothing but the trace, to which it added the
    diagnostics [ms] if the instance is verbose and nothing otherwise. *)
Definition only_logs (ms : list message) (w w' : world) : Prop :=
  _output_thread w' = _output_thread w /\ _exit w' = _exit w /\
  verbose w' = verbose w /\ events w' = events w /\ threads w' = threads w /\
  streams w' = streams w /\ caller w' = caller w /\
  trace w' = trace w ++ logged (verbose w) Caller ms.

(** ** Further notions: diagnostics, bursts *)

Definition is_diag (e : event) : bool :=
  match e with
  | Printed _ (Diag _) => true
  | _ => false
  end.

(** The reads that deliver the bursts [bs]: the lines of each burst, then an
    empty read. *)
Definition burst_feed (bs : list (list (list byte))) : list read_result :=
  concat (map (fun b => map Line b ++ [Line []]) bs).

(** The steps a worker takes through the bursts [bs]: for each burst the
    loop condition, one read per line, and the empty read. *)
Definition burst_steps (bs : list (list (list byte))) : nat :=
  sum_list_with (fun b => S (S (length b))) bs.

(** ** Example worlds *)

(** The world a schedule leads to ([w] itself when it cannot run). *)
Definition after (sched : list action) (w : world) : world :=
  default w (run sched w).

Definition ascii_line (s : string) : read_result := Line (list_byte_of_string s).

(** An open [BinaryIO] stream holding one burst of four lines, as in the
    test suite. *)
Definition abcd : stream :=
  Stream true false
         [ascii_line "a"; ascii_line "b"; ascii_line "c"; ascii_line "d"; Line []].

(** [Streamer(verbose=True)] over the stream [abcd], nothing monitored yet. *)
Definition unstarted : world := (__init__ [abcd] None true).2.

(** [Streamer(stream=abcd, verbose=True)] *)
Definition started : world := (__init__ [abcd] (Some 0%nat) true).2.

(** ... its worker in the middle of the burst *)
Definition midburst : world :=
  after [Step_worker 0; Step_worker 0; Step_worker 0] started.

(** [stop] called on [midburst]; the worker then finishes the burst, sees the
    exit signal at the loop condition and cleans up. *)
Definition stopping : world :=
  after (Call_stop :: repeat (Step_worker 0) 6) midburst.

(** The test [test_stream_close]: every read raises. *)
Definition raising : stream := Stream true false [ReadRaises ValueError].

Definition reading_raising : world :=
  after [Step_worker 0; Step_worker 0] (__init__ [raising] (Some 0%nat) true).2.

(** A [BinaryIO] stream at its end that stays open: every read is empty. *)
Definition at_eof : stream := Stream true false [].

Definition reading_eof : world :=
  after [Step_worker 0; Step_worker 0] (__init__ [at_eof] (Some 0%nat) true).2.

(** What [subprocess.Popen(...).stdout] is like: it has [readline] and
    [closed] and lines to deliver, but its class does not derive from
    [typing.BinaryIO]. *)
Definition pipe : stream :=
  Stream false false [ascii_line "a"; ascii_line "b"; Line []].

Definition started_on_pipe : world := (__init__ [pipe] (Some 0%nat) true).2.


(** A [BinaryIO] stream that already reports closed. *)
Definition shut : stream :=
  Stream true true [ascii_line "a"; ascii_line "b"; Line []].

(** Two streams, the first monitored from the start. *)
Definition two_streams : world := (__init__ [abcd; abcd] (Some 0%nat) true).2.

(** ... and the worker of the first has run until the stream was closed. *)
Definition first_done : world :=
  after (repeat (Step_worker 0) 7 ++ [Env_close 0] ++ repeat (Step_worker 0) 2)
        two_streams.

(** ** The mock stream of the test suite *)

(** [tests/mocks/MockStream.py]: a [BinaryIO] fed with bursts of chunks.
    [delay_duration], [set_delay] and the [time.sleep] of [__next__] only
    delay the caller and are left out. *)
Module MockStream.

Record t := Mock {
  mock_data : list (list (list byte));
  mock_data_index : nat;
  readline_index : nat;
  should_close : bool;
  mock_current_data : option (list (list byte));      (* None: not set yet *)
  mock_current_data_iter : option (list (list byte))  (* what is left to yield *)
}.

(** What a call of [readline] does. *)
Inductive outcome :=
| Returns (b : list byte)
| Raises (e : exn)
| StopIteration.

(** [MockStream.__next__] *)
Definition __next__ (m : t) : t :=
  match mock_data m !! mock_data_index m with
  | Some burst =>                (* mock_data_index < len(mock_data) *)
    Mock (mock_data m) (S (mock_data_index m)) (readline_index m)
         (should_close m) (Some burst) (Some burst)
  | None =>
    Mock (mock_data m) (mock_data_index m) (readline_index m)
         true (mock_current_data m) (mock_current_data_iter m)
  end.

(** [MockStream.set_data] *)
Definition set_data (data : option (list (list (list byte)))) (m : t) : t :=
  let m1 := Mock (default [] data) (mock_data_index m) (readline_index m)
                 (should_close m) (mock_current_data m)
                 (mock_current_data_iter m) in
  if (0 <? length (mock_data m1))%nat then __next__ m1 else m1.

(** [MockStream.__init__] *)
Definition __init__ (data : option (list (list (list byte)))) : t :=
  let m := Mock [] 0 0 false None None in
  match data with
  | Some _ => set_data data m
  | None => m
  end.

(** [MockStream.readline] *)
Definition readline (m : t) : outcome * t :=
  if (0 <? length (mock_data m))%nat then
    match mock_current_data m with
    | None => (Raises AttributeError, m)
    | Some current =>
      if (0 <? length current)%nat then
        match mock_current_data_iter m with
        | None => (Raises AttributeError, m)
        | Some [] => (StopIteration, m)
        | Some (next_value :: rest) =>
          let m1 := Mock (mock_data m) (mock_data_index m) (readline_index m)
                         (should_close m) (mock_current_data m) (Some rest) in
          match next_value with
          | [] => (Returns next_value, __next__ m1)
          | _ :: _ => (Returns next_value, m1)
          end
        end
      else (Raises ValueError, m)
    end
  else (Raises ValueError, m).

(** [n] successive calls of [readline]. *)
Fixpoint readlines (n : nat) (m : t) : list outcome * t :=
  match n with
  | O => ([], m)
  | S k =>
    let (o, m1) := readline m in
    let (os, m2) := readlines k m1 in
    (o :: os, m2)
  end.

(** What [for line in iter(stream.readline, b"")] makes of a call: a
    [StopIteration] out of the callable ends the iteration, as the sentinel
    does. *)
Definition as_read (o : outcome) : read_result :=
  match o with
  | Returns b => Line b
  | Raises e => ReadRaises e
  | StopIteration => Line []
  end.

(** A burst as the tests write them: non-empty chunks, then [b""]. *)
Definition proper_burst (b : list (list byte)) : Prop :=
  exists ls, b = ls ++ [[]] /\ Forall (fun l => l <> []) ls.

(** The chunks the mock has yet to deliver. *)
Definition remaining (m : t) : list (list byte) :=
  default [] (mock_current_data_iter m)
  ++ concat (drop (mock_data_index m) (mock_data m)).

(** The mock as a stream object of the worlds. *)
Definition to_stream (is_closed : bool) (m : t) : stream :=
  Stream true is_closed (map Line (remaining m)).

(** The states a mock built from proper bursts goes through. *)
Record ready (m : t) : Prop := {
  ready_data : mock_data m <> [];
  ready_current : exists cur, mock_current_data m = Some cur /\ cur <> [];
  ready_iter : exists it, mock_current_data_iter m = Some it /\
    (proper_burst it \/
     (it = [] /\ (length (mock_data m) <= mock_data_index m)%nat));
  ready_later : Forall proper_burst (drop (mock_data_index m) (mock_data m));
  ready_close : should_close m = true <-> remaining m = []
}.

End MockStream.

(** ** Further example worlds *)

(** [Streamer(stream=abcd)], silent, its worker in the middle of the burst. *)
Definition quiet_midburst : world :=
  after [Step_worker 0; Step_worker 0; Step_worker 0]
        (__init__ [abcd] (Some 0%nat) false).2.

(** A stream whose first read fails with an I/O error. *)
Definition broken : stream :=
  Stream true false [ReadRaises OtherError; ascii_line "a"; Line []].

Definition reading_broken : world :=
  after [Step_worker 0; Step_worker 0] (__init__ [broken] (Some 0%nat) true).2.


(** Two bursts, as in [test_non_blocking]. *)
Definition two_bursts : list (list (list byte)) :=
  [map list_byte_of_string ["a"; "b"]%string; map list_byte_of_string ["c"]%string].

Definition at_loop_head : world :=
  after [Step_worker 0]
        (__init__ [Stream true false (burst_feed two_bursts)] (Some 0%nat) true).2.

(** [stop] has just set the exit signal of [midburst]. *)
Definition stop_requested : world := after [Call_stop] midburst.

(** ** Frame properties of the steps *)

Lemma self_print_frame a m w :
  let w' := self_print a m w in
  _output_thread w' = _output_thread w /\ _exit w' = _exit w /\
  verbose w' = verbose w /\ events w' = events w /\ threads w' = threads w /\
  streams w' = streams w /\ caller w' = caller w /\
  trace w' = trace w ++ logged (verbose w) a [m].
Proof.
  unfold self_print, logged. destruct (verbose w) eqn:V; simpl; rewrite ?V;
    rewrite ?app_nil_r; tauto.
Qed.

Lemma self_print_trace a m w :
  trace (self_print a m w) = trace w ++ logged (verbose w) a [m].
Proof. apply self_print_frame. Qed.

(** [__flush] touches nothing of the instance: only the streams and the
    trace change. *)
Lemma flush_frame a s pc w o w' :
  __flush a s pc w = (o, w') ->
  _output_thread w' = _output_thread w /\ _exit w' = _exit w /\
  verbose w' = verbose w /\ events w' = events w /\ threads w' = threads w /\
  caller w' = caller w.
Proof.
  unfold __flush, _cleanup. intros H.
  repeat match type of H with
  | (match ?x with _ => _ end) = _ => destruct x eqn:?
  | (if ?x then _ else _) = _ => destruct x eqn:?
  | (let (_, _) := ?x in _) = _ => destruct x eqn:?
  end;
  inversion H; subst; clear H;
  repeat match goal with
  | |- context [self_print ?a ?m ?w] =>
    let F := fresh in
    pose proof (self_print_frame a m w) as F; simpl in F;
    destruct F as (-> & -> & -> & -> & -> & _ & -> & _)
  end; simpl; tauto.
Qed.

Lemma is_alive_set_tstate t u s w :
  is_alive u (set_tstate t s w) =
  if decide (t = u)
  then match threads w !! t with
       | Some _ => match s with Running _ => true | _ => false end
       | None => false
       end
  else is_alive u w.
Proof.
  unfold set_tstate, is_alive.
  destruct (threads w !! t) as [th|] eqn:E; simpl.
  - destruct (decide (t = u)) as [->|N].
    + rewrite list_lookup_insert_eq by (eapply lookup_lt_Some; eauto).
      destruct s; reflexivity.
    + rewrite list_lookup_insert_ne by done. reflexivity.
  - destruct (decide (t = u)) as [->|N]; [now rewrite E | reflexivity].
Qed.

Lemma set_tstate_frame t s w :
  let w' := set_tstate t s w in
  _output_thread w' = _output_thread w /\ _exit w' = _exit w /\
  verbose w' = verbose w /\ events w' = events w /\
  length (threads w') = length (threads w) /\
  streams w' = streams w /\ caller w' = caller w /\ trace w' = trace w.
Proof.
  unfold set_tstate. destruct (threads w !! t); simpl; rewrite ?length_insert; tauto.
Qed.

Lemma is_alive_ext w w' t :
  threads w' = threads w -> is_alive t w' = is_alive t w.
Proof. unfold is_alive. now intros ->. Qed.

Lemma is_monitoring_pure w : (is_monitoring w).2 = w.
Proof.
  unfold is_monitoring.
  destruct (_output_thread w); [|reflexivity].
  destruct (is_alive _ w); [|reflexivity].
  destruct (_exit w); reflexivity.
Qed.

Lemma is_monitoring_wf w :
  wf w -> exists v, is_monitoring w = (Ok v, w).
Proof.
  intros W. unfold is_monitoring.
  destruct (_output_thread w) as [t|] eqn:T; [|eauto].
  destruct (is_alive t w); [|eauto].
  destruct (wf_handle w W t T) as (_ & e & -> & _). eauto.
Qed.

(** In a well-formed world whose caller is not inside [stop], a live worker
    means [is_monitoring] answers [True]. *)
Lemma alive_is_monitoring w t :
  wf w -> (forall u, caller w <> InStopJoin u) -> is_alive t w = true ->
  is_monitoring w = (Ok (PyBool true), w).
Proof.
  intros W C A. unfold is_monitoring.
  rewrite (wf_alive w W t A), A.
  destruct (wf_handle w W t (wf_alive w W t A)) as (_ & e & E & _).
  rewrite E, (wf_unset w W C t e A E). reflexivity.
Qed.

Lemma wf_ext w w' :
  _output_thread w' = _output_thread w -> _exit w' = _exit w ->
  events w' = events w -> threads w' = threads w -> caller w' = caller w ->
  wf w -> wf w'.
Proof.
  intros HT HE HEv HTh HC W.
  split; unfold is_alive, is_set; rewrite ?HT, ?HE, ?HEv, ?HTh, ?HC; apply W.
Qed.

Lemma init_wf env verb : wf (World None None verb [] [] env Idle []).
Proof.
  split; simpl; discriminate.
Qed.

Lemma monitor_wf s w r w' :
  wf w -> caller w = Idle -> monitor s w = (r, w') -> r = Ok tt /\ wf w'.
Proof.
  intros W C. unfold monitor.
  destruct (is_monitoring_wf w W) as (v & M). rewrite M.
  destruct (truthy v) eqn:TV.
  { intros [= <- <-]. split; [reflexivity|].
    pose proof (self_print_frame Caller already_monitoring w) as F; simpl in F.
    eapply wf_ext; [..|exact W]; tauto. }
  destruct s as [sid|].
  2:{ intros [= <- <-]. split; [reflexivity|].
      pose proof (self_print_frame Caller stream_none w) as F; simpl in F.
      eapply wf_ext; [..|exact W]; tauto. }
  intros [= <- <-]. split; [reflexivity|].
  assert (NA : forall t, is_alive t w = false).
  { intros t. destruct (is_alive t w) eqn:A; [|reflexivity].
    assert (NJ : forall u, caller w <> InStopJoin u) by (rewrite C; discriminate).
    pose proof (alive_is_monitoring w t W NJ A) as M'.
    rewrite M in M'. injection M' as ->. discriminate. }
  split; simpl.
  - intros t [= <-]. rewrite !length_app. simpl. split; [lia|].
    eexists. split; [reflexivity|lia].
  - intros t. unfold is_alive. simpl.
    destruct (decide (t < length (threads w))%nat) as [L|L].
    + rewrite lookup_app_l by done. intros A.
      specialize (NA t). unfold is_alive in NA. congruence.
    + destruct (decide (t = length (threads w))) as [->|N]; [reflexivity|].
      rewrite lookup_ge_None_2; [discriminate|].
      rewrite length_app. simpl. lia.
  - rewrite C. discriminate.
  - intros _ t e _ [= <-]. unfold is_set. simpl.
    rewrite lookup_app_r by lia. rewrite Nat.sub_diag. reflexivity.
Qed.

Lemma stop_wf w r w' :
  wf w -> caller w = Idle -> stop w = (r, w') ->
  (r = Ok StopReturned /\ wf w') \/
  (exists t, r = Ok (StopJoins t) /\ wf (set_caller (InStopJoin t) w')).
Proof.
  intros W C. unfold stop.
  destruct (is_monitoring_wf w W) as (v & M). rewrite M.
  destruct (truthy v) eqn:TV.
  2:{ intros [= <- <-]. left. split; [reflexivity|].
      pose proof (self_print_frame Caller stop_but_not_monitoring w) as F; simpl in F.
      eapply wf_ext; [..|exact W]; tauto. }
  assert (exists t, _output_thread w = Some t) as (t & T).
  { unfold is_monitoring in M. destruct (_output_thread w); [eauto|].
    injection M as <-. discriminate. }
  destruct (wf_handle w W t T) as (Lt & e & E & Le).
  rewrite E, T. intros [= <- <-]. right. exists t. split; [reflexivity|].
  split; simpl.
  - intros t' T'. rewrite length_insert. apply (wf_handle w W t' T').
  - apply W.
  - intros t' [= <-]. split; [exact T|]. exists e. split; [exact E|].
    unfold is_set. simpl. now rewrite list_lookup_insert_eq.
  - intros NJ. now destruct (NJ t).
Qed.

Lemma flush_wf a s pc w o w' :
  wf w -> __flush a s pc w = (o, w') -> wf w'.
Proof.
  intros W H. apply flush_frame in H. eapply wf_ext; [..|exact W]; tauto.
Qed.

Lemma set_caller_wf c w :
  wf w -> (forall t, caller w <> InStopJoin t) -> (forall t, c <> InStopJoin t) ->
  wf (set_caller c w).
Proof.
  intros W NJ NC. split; simpl.
  - apply W.
  - apply W.
  - intros t ->. now destruct (NC t).
  - intros _. apply (wf_unset w W NJ).
Qed.

(** A worker moving on in [__flush], or leaving it, keeps the invariant:
    no thread comes to life. *)
Lemma set_tstate_wf t s w :
  wf w -> is_alive t w = true -> wf (set_tstate t s w).
Proof.
  intros W A.
  pose proof (set_tstate_frame t s w) as F; simpl in F.
  destruct F as (FT & FE & _ & FEv & FL & _ & FC & _).
  assert (M : forall u, is_alive u (set_tstate t s w) = true -> is_alive u w = true).
  { intros u. rewrite is_alive_set_tstate.
    destruct (decide (t = u)) as [<-|]; [now rewrite A | done]. }
  split.
  - rewrite FT, FE, FEv, FL. apply W.
  - intros u Hu. rewrite FT. apply W, M, Hu.
  - rewrite FT, FE, FC. unfold is_set. rewrite FEv. apply W.
  - rewrite FE, FC. unfold is_set. rewrite FEv.
    intros NJ u e Hu. apply (wf_unset w W NJ u e), M, Hu.
Qed.

Lemma step_wf act w w' : wf w -> step act w = Some w' -> wf w'.
Proof.
  intros W. unfold step.
  destruct act as [s| | |s| |t|sid].
  - destruct (caller w) eqn:C; try discriminate.
    destruct (monitor s w) as [r w1] eqn:M.
    destruct (monitor_wf s w r w1 W C M) as (-> & W1). now intros [= <-].
  - destruct (caller w) eqn:C; try discriminate.
    destruct (stop w) as [r w1] eqn:S.
    destruct (stop_wf w r w1 W C S) as [(-> & W1)|(t & -> & W1)]; now intros [= <-].
  - destruct (caller w) as [|t| |] eqn:C; try discriminate.
    destruct (is_alive t w) eqn:A; [discriminate|]. intros [= <-].
    split; simpl; try apply W; [discriminate|].
    intros _ u e Hu. change (is_alive u w = true) in Hu.
    destruct (wf_join w W t C) as (T & _).
    rewrite (wf_alive w W u Hu) in T. injection T as ->. congruence.
  - destruct (caller w) eqn:C; try discriminate. intros [= <-].
    apply set_caller_wf; [exact W|rewrite C|]; discriminate.
  - destruct (caller w) as [| |s pc|] eqn:C; try discriminate.
    destruct (__flush Caller s pc w) as [o w1] eqn:F.
    pose proof (flush_wf _ _ _ _ _ _ W F) as W1.
    assert (C1 : forall t, caller w1 <> InStopJoin t).
    { apply flush_frame in F. destruct F as (_ & _ & _ & _ & _ & ->).
      rewrite C. discriminate. }
    intros [= <-]. apply set_caller_wf; auto. destruct o; discriminate.
  - assert (forall o w1 st pc, __flush (Worker t) o pc w = (st, w1) ->
                               is_alive t w = true -> is_alive t w1 = true /\ wf w1) as K.
    { intros o w1 st pc F A. split; [|eapply flush_wf; eauto].
      apply flush_frame in F. rewrite <- A. apply is_alive_ext. tauto. }
    destruct (threads w !! t) as [[d s [pc| |]]|] eqn:T; try discriminate.
    assert (A : is_alive t w = true) by (unfold is_alive; now rewrite T).
    destruct (__flush (Worker t) s pc w) as [o w1] eqn:F.
    destruct (K _ _ _ _ F A) as (A1 & W1).
    intros [= <-]. now apply set_tstate_wf.
  - destruct (streams w !! sid); [|discriminate]. intros [= <-].
    eapply wf_ext; [..|exact W]; reflexivity.
Qed.

Lemma run_wf sched : forall w w', wf w -> run sched w = Some w' -> wf w'.
Proof.
  induction sched as [|act rest IH]; simpl; intros w w' W.
  - now intros [= <-].
  - destruct (step act w) as [w1|] eqn:S; [|discriminate].
    apply IH. eapply step_wf; eauto.
Qed.

Lemma reachable_wf w : reachable w -> wf w.
Proof.
  intros (env & s & verb & sched & R).
  eapply run_wf; [|exact R].
  unfold __init__. destruct s as [sid|]; [|apply init_wf].
  destruct (monitor (Some sid) _) as [r w0] eqn:M.
  now apply (monitor_wf _ _ _ _ (init_wf env verb) eq_refl M).
Qed.

Lemma run_app s1 : forall s2 w,
  run (s1 ++ s2) w = match run s1 w with Some w1 => run s2 w1 | None => None end.
Proof.
  induction s1 as [|a s1 IH]; simpl; intros s2 w; [reflexivity|].
  destruct (step a w); [apply IH|reflexivity].
Qed.

Lemma reachable_run sched w w' :
  reachable w -> run sched w = Some w' -> reachable w'.
Proof.
  intros (env & s & verb & s0 & R) H.
  exists env, s, verb, (s0 ++ sched). now rewrite run_app, R.
Qed.

(** Background steps (workers, the owner of the streams) leave the fields of
    the instance, the events and the caller where they are. *)
Lemma background_frame act w w' :
  is_background act = true -> step act w = Some w' ->
  _output_thread w' = _output_thread w /\ _exit w' = _exit w /\
  verbose w' = verbose w /\ events w' = events w /\ caller w' = caller w /\
  length (threads w') = length (threads w).
Proof.
  destruct act as [| | | | |t|sid]; try discriminate; intros _; unfold step.
  - destruct (threads w !! t) as [[d s [pc| |]]|] eqn:T; try discriminate.
    destruct (__flush (Worker t) s pc w) as [o w1] eqn:F.
    apply flush_frame in F. destruct F as (F1 & F2 & F3 & F4 & F5 & F6).
    intros [= <-].
    pose proof (set_tstate_frame t (thread_after o) w1) as G; cbv zeta in G.
    rewrite F5 in G; intuition congruence.
  - destruct (streams w !! sid); [|discriminate]. intros [= <-]. simpl. tauto.
Qed.

Lemma background_run sched : forall w w',
  forallb is_background sched = true -> run sched w = Some w' ->
  _output_thread w' = _output_thread w /\ _exit w' = _exit w /\
  verbose w' = verbose w /\ events w' = events w /\ caller w' = caller w /\
  length (threads w') = length (threads w).
Proof.
  induction sched as [|act rest IH]; simpl; intros w w' B.
  - intros [= <-]. tauto.
  - apply andb_prop in B as [B1 B2].
    destruct (step act w) as [w1|] eqn:S; [|discriminate]. intros R.
    destruct (background_frame _ _ _ B1 S) as (<- & <- & <- & <- & <- & <-).
    now apply IH.
Qed.

Lemma content_lines_app tr1 tr2 :
  content_lines (tr1 ++ tr2) = content_lines tr1 ++ content_lines tr2.
Proof. apply omap_app. Qed.

Lemma content_lines_logged verb a ms : content_lines (logged verb a ms) = [].
Proof.
  unfold logged. destruct verb; [|reflexivity].
  induction ms; [reflexivity|assumption].
Qed.

Lemma content_lines_self_print a m w :
  content_lines (trace (self_print a m w)) = content_lines (trace w).
Proof.
  rewrite self_print_trace, content_lines_app, content_lines_logged.
  apply app_nil_r.
Qed.

Lemma quiescent_ext w w' :
  _output_thread w' = _output_thread w -> _exit w' = _exit w ->
  events w' = events w -> threads w' = threads w -> caller w' = caller w ->
  quiescent w -> quiescent w'.
Proof.
  intros HT HE HEv HTh HC Q.
  split; unfold is_alive, is_set; rewrite ?HT, ?HE, ?HEv, ?HTh, ?HC; apply Q.
Qed.

Lemma quiescent_is_monitoring w :
  quiescent w -> is_monitoring w = (Ok (PyBool false), w).
Proof.
  intros Q. unfold is_monitoring.
  destruct (q_handle w Q) as (t & ->). now rewrite (q_dead w Q t).
Qed.

Lemma quiescent_while_cond s w : quiescent w -> while_cond s w = false.
Proof.
  intros Q. unfold while_cond. destruct (q_exit w Q) as (e & -> & ->). reflexivity.
Qed.

Lemma quiescent_set_caller c w :
  quiescent w ->
  match c with InStopJoin _ | InFlush _ (AtFor _) => False | _ => True end ->
  quiescent (set_caller c w).
Proof. intros Q C. split; simpl; try apply Q. exact C. Qed.

(** Without a call of [monitor], a quiescent instance stays quiescent and
    prints no line of any stream. *)
Lemma quiescent_step act w w' :
  quiescent w -> is_monitor_call act = false -> step act w = Some w' ->
  quiescent w' /\ content_lines (trace w') = content_lines (trace w).
Proof.
  intros Q NM. pose proof (q_caller w Q) as QC. unfold step.
  destruct act as [s| | |s| |t|sid]; try discriminate.
  - destruct (caller w) eqn:C; try discriminate.
    unfold stop. rewrite (quiescent_is_monitoring w Q). simpl.
    intros [= <-].
    pose proof (self_print_frame Caller stop_but_not_monitoring w) as F; simpl in F.
    split; [eapply quiescent_ext; [..|exact Q]; tauto|].
    apply content_lines_self_print.
  - destruct (caller w) eqn:C; try discriminate. contradiction.
  - destruct (caller w) eqn:C; try discriminate. intros [= <-].
    split; [|reflexivity]. now apply quiescent_set_caller.
  - destruct (caller w) as [| |s pc|] eqn:C; try discriminate.
    destruct pc as [| |bs|]; [| | contradiction |]; simpl.
    + destruct (q_handle w Q) as (t & T). rewrite T. intros [= <-].
      split; [|reflexivity]. now apply quiescent_set_caller.
    + rewrite (quiescent_while_cond s w Q). intros [= <-].
      split; [|reflexivity]. now apply quiescent_set_caller.
    + unfold _cleanup. intros [= <-].
      pose proof (self_print_frame Caller finished w) as F; cbv zeta in F.
      split; [|apply content_lines_self_print].
      apply quiescent_set_caller; [|exact I].
      eapply quiescent_ext; [..|exact Q]; tauto.
  - pose proof (q_dead w Q t) as D. unfold is_alive in D.
    destruct (threads w !! t) as [[d s [pc| |]]|]; discriminate.
  - destruct (streams w !! sid); [|discriminate]. intros [= <-].
    split; [|reflexivity]. eapply quiescent_ext; [..|exact Q]; reflexivity.
Qed.

Lemma quiescent_run sched : forall w w',
  quiescent w -> forallb (fun a => negb (is_monitor_call a)) sched = true ->
  run sched w = Some w' ->
  quiescent w' /\ content_lines (trace w') = content_lines (trace w).
Proof.
  induction sched as [|act rest IH]; simpl; intros w w' Q NM.
  - intros [= <-]. tauto.
  - apply andb_prop in NM as [N1 N2]. apply negb_true_iff in N1.
    destruct (step act w) as [w1|] eqn:S; [|discriminate]. intros R.
    destruct (quiescent_step _ _ _ Q N1 S) as (Q1 & <-).
    now apply IH.
Qed.

(** ** C9: [is_monitoring] *)

(** C9 (as amended): on every reachable instance [is_monitoring] returns
    without raising and without changing anything; the value is truthy exactly
    when a worker was created, is alive and the exit signal is not set; it is
    [None] (not [False]) while no worker was ever created, and [False] once
    the worker is no longer alive or the exit signal is set. *)
Theorem is_monitoring_value (w : world) :
  reachable w ->
  exists v, is_monitoring w = (Ok v, w) /\
    (truthy v = true <->
     exists t e, _output_thread w = Some t /\ is_alive t w = true /\
                 _exit w = Some e /\ is_set e w = false) /\
    (_output_thread w = None -> v = PyNone) /\
    (forall t, _output_thread w = Some t ->
       is_alive t w = false \/ (exists e, _exit w = Some e /\ is_set e w = true) ->
       v = PyBool false).
Proof.
  intros R. pose proof (reachable_wf w R) as W.
  destruct (is_monitoring_wf w W) as (v & M). exists v. split; [exact M|].
  unfold is_monitoring in M.
  destruct (_output_thread w) as [t|] eqn:T.
  - destruct (wf_handle w W t T) as (_ & e & E & _). rewrite E in M.
    destruct (is_alive t w) eqn:A; injection M as <-; simpl.
    + repeat split.
      * intros N. exists t, e. now rewrite negb_true_iff in N.
      * intros (t' & e' & _ & _ & E' & S'). rewrite E in E'.
        injection E' as <-. now rewrite S'.
      * discriminate.
      * intros t' [= <-] [?|(e' & E' & S')]; [congruence|].
        rewrite E in E'. injection E' as <-. now rewrite S'.
    + repeat split; try discriminate.
      intros (t' & e' & [= <-] & ? & _). congruence.
  - injection M as <-. simpl. repeat split; try discriminate.
    intros (t' & e' & ? & _). discriminate.
Qed.

Lemma is_monitoring_value_witness :
  reachable midburst /\
  exists v, is_monitoring midburst = (Ok v, midburst) /\
    (truthy v = true <->
     exists t e, _output_thread midburst = Some t /\ is_alive t midburst = true /\
                 _exit midburst = Some e /\ is_set e midburst = false) /\
    (_output_thread midburst = None -> v = PyNone) /\
    (forall t, _output_thread midburst = Some t ->
       is_alive t midburst = false \/
       (exists e, _exit midburst = Some e /\ is_set e midburst = true) ->
       v = PyBool false).
Proof.
  assert (R : reachable midburst).
  { exists [abcd], (Some 0%nat), true, [Step_worker 0; Step_worker 0; Step_worker 0].
    reflexivity. }
  split; [exact R|]. apply (is_monitoring_value midburst R).
Defined.

(** C9 (as stated) fails on an instance that never monitored: the value
    returned is [None], not the boolean [False]. *)
Lemma is_monitoring_unstarted_is_None :
  let w := (__init__ [] None false).2 in
  _output_thread w = None /\
  (is_monitoring w).1 = Ok PyNone /\
  (is_monitoring w).1 <> Ok (PyBool false).
Proof. repeat split. discriminate. Qed.

(** ** C7: re-arming a stopped instance *)

(** C7: on an instance whose worker is no longer alive, or whose exit signal
    is set, [monitor] with a stream returns at once, having allocated one
    fresh unset [Event] and one new daemon [Thread] for [__flush(stream)]
    which it made the instance's exit signal and worker; nothing was read
    from any stream or printed. *)
Theorem monitor_rearms (w : world) (t sid : nat) :
  _output_thread w = Some t ->
  is_alive t w = false \/ (exists e, _exit w = Some e /\ is_set e w = true) ->
  exists w',
    monitor (Some sid) w = (Ok tt, w') /\
    (caller w = Idle -> step (Call_monitor (Some sid)) w = Some w' /\ caller w' = Idle) /\
    events w' = events w ++ [false] /\
    _exit w' = Some (length (events w)) /\
    is_set (length (events w)) w' = false /\
    threads w' = threads w ++ [Thread true (Some sid) (Running AtGuard)] /\
    _output_thread w' = Some (length (threads w)) /\
    is_alive (length (threads w)) w' = true /\
    streams w' = streams w /\ trace w' = trace w /\ verbose w' = verbose w.
Proof.
  intros T S.
  assert (M : exists v, is_monitoring w = (Ok v, w) /\ truthy v = false).
  { unfold is_monitoring. rewrite T.
    destruct S as [->|(e & -> & ->)]; [eauto|].
    destruct (is_alive t w); eauto. }
  destruct M as (v & M & TV).
  eexists. split; [unfold monitor; rewrite M, TV; reflexivity|].
  split.
  { intros C. unfold step, monitor. rewrite M, TV, C. split; reflexivity. }
  simpl. repeat split.
  - unfold is_set. simpl. rewrite lookup_app_r by lia.
    now rewrite Nat.sub_diag.
  - unfold is_alive. simpl. rewrite lookup_app_r by lia.
    now rewrite Nat.sub_diag.
Qed.

Lemma monitor_rearms_witness :
  let w := after (repeat (Step_worker 0) 7 ++ [Env_close 0]
                  ++ repeat (Step_worker 0) 2) started in
  _output_thread w = Some 0%nat /\
  (is_alive 0 w = false \/ (exists e, _exit w = Some e /\ is_set e w = true)) /\
  exists w',
    monitor (Some 0%nat) w = (Ok tt, w') /\
    (caller w = Idle -> step (Call_monitor (Some 0%nat)) w = Some w' /\ caller w' = Idle) /\
    events w' = events w ++ [false] /\
    _exit w' = Some (length (events w)) /\
    is_set (length (events w)) w' = false /\
    threads w' = threads w ++ [Thread true (Some 0%nat) (Running AtGuard)] /\
    _output_thread w' = Some (length (threads w)) /\
    is_alive (length (threads w)) w' = true /\
    streams w' = streams w /\ trace w' = trace w /\ verbose w' = verbose w.
Proof.
  intros w.
  assert (T : _output_thread w = Some 0%nat) by reflexivity.
  assert (S : is_alive 0 w = false \/ (exists e, _exit w = Some e /\ is_set e w = true))
    by (left; reflexivity).
  split; [exact T|]. split; [exact S|].
  exact (monitor_rearms w 0 0 T S).
Defined.

(** ** What a step of one actor leaves to the others *)

Lemma by_actor_app a tr1 tr2 :
  by_actor a (tr1 ++ tr2) = by_actor a tr1 ++ by_actor a tr2.
Proof. apply omap_app. Qed.

Lemma actor_eqb_refl a : actor_eqb a a = true.
Proof. destruct a; simpl; [reflexivity|apply Nat.eqb_refl]. Qed.

Lemma actor_eqb_neq a b : a <> b -> actor_eqb a b = false.
Proof.
  destruct a as [|t], b as [|u]; simpl; try reflexivity; [congruence|].
  intros N. apply Nat.eqb_neq. congruence.
Qed.

Lemma by_actor_logged_same verb a ms :
  by_actor a (logged verb a ms) = logged verb a ms.
Proof.
  unfold logged. destruct verb; [|reflexivity].
  induction ms as [|m ms IH]; [reflexivity|].
  simpl. unfold by_actor in *. simpl. rewrite actor_eqb_refl. simpl. now rewrite IH.
Qed.

Lemma by_actor_logged_other verb a b ms :
  a <> b -> by_actor b (logged verb a ms) = [].
Proof.
  intros N. unfold logged. destruct verb; [|reflexivity].
  induction ms as [|m ms IH]; [reflexivity|].
  simpl. unfold by_actor in *. simpl. now rewrite (actor_eqb_neq a b N).
Qed.

(** The events of a step of [__flush] are all events of the actor running it. *)
Lemma flush_trace a s pc w o w' :
  __flush a s pc w = (o, w') ->
  exists evs, trace w' = trace w ++ evs /\ by_actor a evs = evs /\
              forall b, a <> b -> by_actor b evs = [].
Proof.
  unfold __flush, _cleanup. intros H.
  repeat match type of H with
  | (match ?x with _ => _ end) = _ => destruct x eqn:?
  | (if ?x then _ else _) = _ => destruct x eqn:?
  | (let (_, _) := ?x in _) = _ => destruct x eqn:?
  end;
  inversion H; subst; clear H;
  try (rewrite self_print_trace; eexists; split; [reflexivity|];
       split; [apply by_actor_logged_same|intros; now apply by_actor_logged_other]);
  try (exists []; split; [simpl; now rewrite app_nil_r|split; [reflexivity|reflexivity]]).
  - eexists. split; [simpl; rewrite <- app_assoc; reflexivity|].
    unfold by_actor. simpl. rewrite actor_eqb_refl.
    split; [reflexivity|]. intros b N. now rewrite (actor_eqb_neq a b N).
  - eexists. split; [reflexivity|].
    unfold by_actor. simpl. rewrite actor_eqb_refl.
    split; [reflexivity|]. intros b N. now rewrite (actor_eqb_neq a b N).
Qed.

Lemma lookup_set_tstate_ne t u s w :
  t <> u -> threads (set_tstate t s w) !! u = threads w !! u.
Proof.
  intros N. unfold set_tstate. destruct (threads w !! t); [|reflexivity].
  simpl. now rewrite list_lookup_insert_ne.
Qed.

Lemma lookup_set_tstate_eq t s w th :
  threads w !! t = Some th ->
  threads (set_tstate t s w) !! t = Some (Thread (daemon th) (args th) s).
Proof.
  intros T. unfold set_tstate. rewrite T. simpl.
  apply list_lookup_insert_eq. eapply lookup_lt_Some; eauto.
Qed.

Lemma is_monitoring_eq w r w' : is_monitoring w = (r, w') -> w' = w.
Proof. intros M. pose proof (is_monitoring_pure w) as P. now rewrite M in P. Qed.

(** The four ways through [monitor]. *)
Lemma monitor_cases s w r w' :
  monitor s w = (r, w') ->
  (exists e, r = Raised e /\ w' = w) \/
  (r = Ok tt /\ w' = self_print Caller already_monitoring w) \/
  (r = Ok tt /\ s = None /\ w' = self_print Caller stream_none w) \/
  (r = Ok tt /\ s <> None /\
   w' = World (Some (length (threads w))) (Some (length (events w))) (verbose w)
              (events w ++ [false])
              (threads w ++ [Thread true s (Running AtGuard)])
              (streams w) (caller w) (trace w)).
Proof.
  unfold monitor. destruct (is_monitoring w) as [r0 w0] eqn:M.
  apply is_monitoring_eq in M as ->.
  destruct r0 as [v|e]; [|intros [= <- <-]; left; eauto].
  destruct (truthy v); [intros [= <- <-]; right; left; auto|].
  destruct s; intros [= <- <-]; [|right; right; left; auto].
  right. right. right. repeat split. discriminate.
Qed.

(** The three ways through [stop], up to its [join()]. *)
Lemma stop_cases w r w' :
  stop w = (r, w') ->
  (exists e, r = Raised e /\ w' = w) \/
  (r = Ok StopReturned /\ w' = self_print Caller stop_but_not_monitoring w) \/
  (exists t e, r = Ok (StopJoins t) /\ _output_thread w = Some t /\ _exit w = Some e /\
     w' = emit (Slept Caller) (set_events (<[e := true]> (events w)) w)).
Proof.
  unfold stop. destruct (is_monitoring w) as [r0 w0] eqn:M.
  apply is_monitoring_eq in M as ->.
  destruct r0 as [v|e]; [|intros [= <- <-]; left; eauto].
  destruct (truthy v); [|intros [= <- <-]; right; left; auto].
  destruct (_exit w) as [e|], (_output_thread w) as [t|]; intros [= <- <-];
    try (left; eauto; fail).
  right. right. exists t, e. auto.
Qed.

Lemma flush_verbose a s pc w o w' :
  __flush a s pc w = (o, w') -> verbose w' = verbose w.
Proof. intros F. apply flush_frame in F. tauto. Qed.

Lemma set_tstate_verbose t s w : verbose (set_tstate t s w) = verbose w.
Proof. apply set_tstate_frame. Qed.

Lemma self_print_verbose a m w : verbose (self_print a m w) = verbose w.
Proof. apply self_print_frame. Qed.

Lemma step_verbose act w w' : step act w = Some w' -> verbose w' = verbose w.
Proof.
  unfold step. destruct act as [s| | |s| |t|sid].
  - destruct (caller w); try discriminate.
    destruct (monitor s w) as [r w1] eqn:M.
    assert (verbose w1 = verbose w) as V.
    { apply monitor_cases in M as [(e & _ & ->)|[(_ & ->)|[(_ & _ & ->)|(_ & _ & ->)]]];
        auto using self_print_verbose. }
    destruct r; now intros [= <-].
  - destruct (caller w); try discriminate.
    destruct (stop w) as [r w1] eqn:S.
    assert (verbose w1 = verbose w) as V.
    { apply stop_cases in S as [(e & _ & ->)|[(_ & ->)|(t & e & _ & _ & _ & ->)]];
        auto using self_print_verbose. }
    destruct r as [[|t]|e]; now intros [= <-].
  - destruct (caller w); try discriminate.
    destruct (is_alive _ w); [discriminate|]. now intros [= <-].
  - destruct (caller w); try discriminate. now intros [= <-].
  - destruct (caller w) as [| |s pc|]; try discriminate.
    destruct (__flush Caller s pc w) as [o w1] eqn:F.
    apply flush_verbose in F. now intros [= <-].
  - destruct (threads w !! t) as [[d s [pc| |]]|]; try discriminate.
    destruct (__flush (Worker t) s pc w) as [o w1] eqn:F.
    apply flush_verbose in F.
    intros [= <-]; now rewrite set_tstate_verbose.
  - destruct (streams w !! sid); [|discriminate]. now intros [= <-].
Qed.

(** A step of anybody but worker [t] changes neither the [Thread] object [t]
    nor what worker [t] has printed. *)
Lemma other_step_frame t act w w' th :
  act <> Step_worker t -> threads w !! t = Some th -> step act w = Some w' ->
  threads w' !! t = Some th /\
  by_actor (Worker t) (trace w') = by_actor (Worker t) (trace w).
Proof.
  intros NA T. unfold step.
  destruct act as [s| | |s| |u|sid].
  - destruct (caller w); try discriminate. unfold monitor.
    destruct (is_monitoring w) as [r w0] eqn:M.
    assert (w0 = w) as -> by (pose proof (is_monitoring_pure w) as P; now rewrite M in P).
    destruct r as [v|e]; [|intros [= <-]; simpl; tauto].
    destruct (truthy v).
    { intros [= <-]. pose proof (self_print_frame Caller already_monitoring w) as F.
      cbv zeta in F. destruct F as (_ & _ & _ & _ & -> & _ & _ & ->).
      rewrite by_actor_app, by_actor_logged_other, app_nil_r by discriminate. tauto. }
    destruct s.
    2:{ intros [= <-]. pose proof (self_print_frame Caller stream_none w) as F.
      cbv zeta in F. destruct F as (_ & _ & _ & _ & -> & _ & _ & ->).
      rewrite by_actor_app, by_actor_logged_other, app_nil_r by discriminate. tauto. }
    intros [= <-]. simpl. split; [|reflexivity].
    rewrite lookup_app_l; [exact T|]. eapply lookup_lt_Some; eauto.
  - destruct (caller w); try discriminate. unfold stop.
    destruct (is_monitoring w) as [r w0] eqn:M.
    assert (w0 = w) as -> by (pose proof (is_monitoring_pure w) as P; now rewrite M in P).
    destruct r as [v|e]; [|intros [= <-]; simpl; tauto].
    destruct (truthy v).
    2:{ intros [= <-]. pose proof (self_print_frame Caller stop_but_not_monitoring w) as F.
      cbv zeta in F. destruct F as (_ & _ & _ & _ & -> & _ & _ & ->).
      rewrite by_actor_app, by_actor_logged_other, app_nil_r by discriminate. tauto. }
    destruct (_exit w), (_output_thread w); intros [= <-]; simpl; try tauto.
    split; [exact T|]. rewrite by_actor_app. simpl. apply app_nil_r.
  - destruct (caller w); try discriminate.
    destruct (is_alive _ w); [discriminate|]. intros [= <-]. simpl. tauto.
  - destruct (caller w); try discriminate. intros [= <-]. simpl. tauto.
  - destruct (caller w) as [| |s pc|]; try discriminate.
    destruct (__flush Caller s pc w) as [o w1] eqn:F.
    destruct (flush_trace _ _ _ _ _ _ F) as (evs & TR & _ & O).
    apply flush_frame in F. destruct F as (_ & _ & _ & _ & TH & _).
    assert (threads w1 !! t = Some th /\
            by_actor (Worker t) (trace w1) = by_actor (Worker t) (trace w)) as K.
    { rewrite TH, TR, by_actor_app, O, app_nil_r by discriminate. tauto. }
    intros [= <-]; exact K.
  - assert (u <> t) as N by congruence.
    destruct (threads w !! u) as [[d s [pc| |]]|] eqn:U; try discriminate.
    destruct (__flush (Worker u) s pc w) as [o w1] eqn:F.
    destruct (flush_trace _ _ _ _ _ _ F) as (evs & TR & _ & O).
    apply flush_frame in F. destruct F as (_ & _ & _ & _ & TH & _).
    assert (forall st, threads (set_tstate u st w1) !! t = Some th /\
            by_actor (Worker t) (trace (set_tstate u st w1))
            = by_actor (Worker t) (trace w)) as K.
    { intros st. rewrite lookup_set_tstate_ne, TH by done. split; [exact T|].
      pose proof (set_tstate_frame u st w1) as G. cbv zeta in G.
      destruct G as (_ & _ & _ & _ & _ & _ & _ & ->).
      rewrite TR, by_actor_app, O, app_nil_r; [reflexivity|congruence]. }
    intros [= <-]; apply K.
  - destruct (streams w !! sid); [|discriminate]. intros [= <-]. simpl. tauto.
Qed.

(** ** The worker seen on its own *)

Lemma worker_step t d s pc w o w1 :
  threads w !! t = Some (Thread d s (Running pc)) ->
  __flush (Worker t) s pc w = (o, w1) ->
  let w' := set_tstate t (thread_after o) w1 in
  step (Step_worker t) w = Some w' /\
  threads w' !! t = Some (Thread d s (thread_after o)) /\
  trace w' = trace w1 /\ streams w' = streams w1 /\
  verbose w' = verbose w /\ caller w' = caller w /\
  _exit w' = _exit w /\ events w' = events w /\
  _output_thread w' = _output_thread w.
Proof.
  intros T F. cbv zeta.
  pose proof (flush_frame _ _ _ _ _ _ F) as (F1 & F2 & F3 & F4 & F5 & F6).
  pose proof (set_tstate_frame t (thread_after o) w1) as G. cbv zeta in G.
  destruct G as (G1 & G2 & G3 & G4 & _ & G6 & G7 & G8).
  split; [unfold step; now rewrite T, F|].
  split; [erewrite lookup_set_tstate_eq by (rewrite F5; exact T); reflexivity|].
  repeat split; congruence.
Qed.

(** A finished worker stays finished and silent, whatever happens. *)
Lemma finished_run sched : forall w w' t d s,
  threads w !! t = Some (Thread d s Finished) ->
  run sched w = Some w' ->
  threads w' !! t = Some (Thread d s Finished) /\
  worker_events t w' = worker_events t w.
Proof.
  induction sched as [|act rest IH]; simpl; intros w w' t d s T.
  - intros [= <-]. tauto.
  - destruct (step act w) as [w1|] eqn:S; [|discriminate]. intros R.
    destruct (decide (act = Step_worker t)) as [->|N].
    { unfold step in S. rewrite T in S. discriminate. }
    destruct (other_step_frame t act w w1 _ N T S) as (T1 & E1).
    destruct (IH _ _ _ _ _ T1 R) as (T2 & E2).
    split; [exact T2|]. unfold worker_events in *. congruence.
Qed.

(** A worker that is not alive never runs or prints again, whatever
    happens. *)
Lemma dead_run sched : forall w w' t th,
  threads w !! t = Some th -> is_alive t w = false ->
  run sched w = Some w' ->
  threads w' !! t = Some th /\ worker_events t w' = worker_events t w.
Proof.
  induction sched as [|act rest IH]; simpl; intros w w' t th T D.
  - intros [= <-]. tauto.
  - destruct (step act w) as [w1|] eqn:S; [|discriminate]. intros R.
    destruct (decide (act = Step_worker t)) as [->|N].
    { unfold step in S. unfold is_alive in D. rewrite T in *.
      destruct th as [d s [pc| |]]; discriminate. }
    destruct (other_step_frame t act w w1 _ N T S) as (T1 & E1).
    assert (D1 : is_alive t w1 = false).
    { unfold is_alive in *. rewrite T1. rewrite T in D. exact D. }
    destruct (IH _ _ _ _ T1 D1 R) as (T2 & E2).
    split; [exact T2|]. unfold worker_events in *. congruence.
Qed.

(** A worker that reached the final [_cleanup()] logs [finished] with its
    next step, which ends it; until then it prints nothing. *)
Lemma at_cleanup_run sched : forall w w' t d s,
  threads w !! t = Some (Thread d s (Running AtCleanup)) ->
  run sched w = Some w' ->
  (threads w' !! t = Some (Thread d s (Running AtCleanup)) /\
   worker_events t w' = worker_events t w) \/
  (threads w' !! t = Some (Thread d s Finished) /\
   worker_events t w' = worker_events t w ++ logged (verbose w) (Worker t) [finished]).
Proof.
  induction sched as [|act rest IH]; simpl; intros w w' t d s T.
  - intros [= <-]. tauto.
  - destruct (step act w) as [w1|] eqn:S; [|discriminate]. intros R.
    pose proof (step_verbose _ _ _ S) as V.
    destruct (decide (act = Step_worker t)) as [->|N].
    + destruct (worker_step t d s AtCleanup w Return _ T eq_refl)
        as (S' & T1 & TR & _). cbv zeta in *.
      rewrite S in S'. injection S' as ->.
      destruct (finished_run _ _ _ _ _ _ T1 R) as (T2 & E2).
      right. split; [exact T2|]. rewrite E2. unfold worker_events. rewrite TR.
      unfold _cleanup. rewrite self_print_trace, by_actor_app.
      now rewrite by_actor_logged_same.
    + destruct (other_step_frame t act w w1 _ N T S) as (T1 & E1).
      fold (worker_events t w1) in E1. fold (worker_events t w) in E1.
      rewrite <- E1, <- V. eapply IH; eauto.
Qed.

(** ** C2: [stop] *)

Lemma stop_monitoring w v :
  wf w -> is_monitoring w = (Ok v, w) -> truthy v = true ->
  exists t e, _output_thread w = Some t /\ _exit w = Some e /\
    stop w = (Ok (StopJoins t),
              emit (Slept Caller) (set_events (<[e := true]> (events w)) w)).
Proof.
  intros W M TV.
  assert (exists t, _output_thread w = Some t) as (t & T).
  { unfold is_monitoring in M. destruct (_output_thread w); [eauto|].
    injection M as <-. discriminate. }
  destruct (wf_handle w W t T) as (_ & e & E & _).
  exists t, e. repeat split; try assumption.
  unfold stop. now rewrite M, TV, E, T.
Qed.

Lemma joined_quiescent w t :
  wf w -> caller w = InStopJoin t -> is_alive t w = false ->
  quiescent (set_caller Idle w).
Proof.
  intros W C A. destruct (wf_join w W t C) as (T & E).
  split; simpl; eauto.
  intros u. change (is_alive u w = false).
  destruct (is_alive u w) eqn:U; [|reflexivity].
  pose proof (wf_alive w W u U) as T'. rewrite T in T'. injection T' as ->. congruence.
Qed.

(** C2: a [stop] called while monitoring sets the exit signal and then waits
    in [join]: whatever the worker and the owner of the streams do meanwhile,
    the call cannot return while the worker is alive, mid-burst or not.  Once
    it returns, no thread of the instance is alive and [is_monitoring]
    answers [False]; the threads that exist at that point never run or print
    again, whatever is called afterwards; and as long as [monitor] is not
    called again, nobody prints a line of a stream. *)
Theorem stop_joins_worker (w w1 : world) (sched : list action) :
  reachable w -> caller w = Idle ->
  (exists v, is_monitoring w = (Ok v, w) /\ truthy v = true) ->
  forallb is_background sched = true ->
  run (Call_stop :: sched) w = Some w1 ->
  exists t e,
    _output_thread w = Some t /\ _exit w = Some e /\
    caller w1 = InStopJoin t /\ is_set e w1 = true /\
    (is_alive t w1 = true -> step Return_stop w1 = None) /\
    (forall w2, step Return_stop w1 = Some w2 ->
       caller w2 = Idle /\ (forall u, is_alive u w2 = false) /\
       is_monitoring w2 = (Ok (PyBool false), w2) /\
       (forall sched' w3 u, run sched' w2 = Some w3 ->
          (u < length (threads w2))%nat ->
          is_alive u w3 = false /\ worker_events u w3 = worker_events u w2) /\
       (forall sched' w3,
          forallb (fun a => negb (is_monitor_call a)) sched' = true ->
          run sched' w2 = Some w3 ->
          content_lines (trace w3) = content_lines (trace w2) /\
          is_monitoring w3 = (Ok (PyBool false), w3))).
Proof.
  intros R C (v & M & TV) B. pose proof (reachable_wf w R) as W.
  destruct (stop_monitoring w v W M TV) as (t & e & T & E & S).
  cbn [run]. destruct (step Call_stop w) as [w0|] eqn:S0; [|discriminate].
  intros Run. pose proof (step_wf _ _ _ W S0) as W0.
  unfold step in S0. rewrite C, S in S0. injection S0 as <-.
  destruct (background_run _ _ _ B Run) as (HT & HE & _ & HEv & HC & _).
  simpl in HT, HE, HEv, HC.
  pose proof (run_wf _ _ _ W0 Run) as W1.
  destruct (wf_handle w W t T) as (_ & e' & E' & Le).
  rewrite E in E'. injection E' as <-.
  exists t, e.
  split; [exact T|]. split; [exact E|]. split; [exact HC|].
  split; [unfold is_set; rewrite HEv; now rewrite list_lookup_insert_eq|].
  split; [intros A; unfold step; now rewrite HC, A|].
  intros w2 S2. unfold step in S2. rewrite HC in S2.
  destruct (is_alive t w1) eqn:A; [discriminate|]. injection S2 as <-.
  pose proof (joined_quiescent w1 t W1 HC A) as Q.
  split; [reflexivity|]. split; [apply (q_dead _ Q)|].
  split; [apply (quiescent_is_monitoring _ Q)|]. split.
  - intros sched' w3 u R3 Lu.
    destruct (lookup_lt_is_Some_2 _ _ Lu) as (th & TH).
    destruct (dead_run _ _ _ _ _ TH (q_dead _ Q u) R3) as (TH3 & E3).
    split; [|exact E3].
    pose proof (q_dead _ Q u) as D. unfold is_alive in *. rewrite TH3.
    rewrite TH in D. exact D.
  - intros sched' w3 NM R3.
    destruct (quiescent_run _ _ _ Q NM R3) as (Q3 & C3).
    split; [exact C3|apply (quiescent_is_monitoring _ Q3)].
Qed.

Lemma stop_joins_worker_witness :
  reachable midburst /\ caller midburst = Idle /\
  run (Call_stop :: repeat (Step_worker 0) 6) midburst = Some stopping /\
  exists t e,
    _output_thread midburst = Some t /\ _exit midburst = Some e /\
    caller stopping = InStopJoin t /\ is_set e stopping = true /\
    (is_alive t stopping = true -> step Return_stop stopping = None) /\
    (forall w2, step Return_stop stopping = Some w2 ->
       caller w2 = Idle /\ (forall u, is_alive u w2 = false) /\
       is_monitoring w2 = (Ok (PyBool false), w2) /\
       (forall sched' w3 u, run sched' w2 = Some w3 ->
          (u < length (threads w2))%nat ->
          is_alive u w3 = false /\ worker_events u w3 = worker_events u w2) /\
       (forall sched' w3,
          forallb (fun a => negb (is_monitor_call a)) sched' = true ->
          run sched' w2 = Some w3 ->
          content_lines (trace w3) = content_lines (trace w2) /\
          is_monitoring w3 = (Ok (PyBool false), w3))).
Proof.
  assert (R : reachable midburst).
  { exists [abcd], (Some 0%nat), true, [Step_worker 0; Step_worker 0; Step_worker 0].
    vm_compute. reflexivity. }
  assert (E : run (Call_stop :: repeat (Step_worker 0) 6) midburst = Some stopping)
    by (vm_compute; reflexivity).
  split; [exact R|]. split; [reflexivity|]. split; [exact E|].
  apply (stop_joins_worker midburst stopping (repeat (Step_worker 0) 6) R eq_refl);
    [|reflexivity|exact E].
  exists (PyBool true). split; vm_compute; reflexivity.
Defined.

Lemma logged_app verb a ms1 ms2 :
  logged verb a (ms1 ++ ms2) = logged verb a ms1 ++ logged verb a ms2.
Proof. unfold logged. destruct verb; [apply map_app|reflexivity]. Qed.

Lemma flush_for a sid bs w st :
  streams w !! sid = Some st ->
  __flush a (Some sid) (AtFor bs) w =
  let (r, st') := readline st in
  let w1 := set_streams (<[sid := st']> (streams w)) w in
  match r with
  | Line [] => (Goto AtWhile, w1)
  | Line line =>
    match Utf8.decode line with
    | Some text =>
      let w2 := emit (Printed a (Content text)) w1 in
      if bs mod 10 =? 0
      then (Goto (AtFor bs), emit (Slept a) w2)
      else (Goto (AtFor bs), w2)
    | None => (Goto AtCleanup, self_print a streamer_closed_early w1)
    end
  | ReadRaises e =>
    if isinstance_ValueError e
    then (Goto AtCleanup, self_print a streamer_closed_early w1)
    else (Uncaught e, w1)
  end.
Proof. intros S. unfold __flush. simpl. rewrite S. reflexivity. Qed.

(** ** C4: a read that raises [ValueError] *)

(** C4: when [readline] raises [ValueError] (or a subclass) in the read
    loop, the worker leaves the loop having logged "closed while being read
    from" once, logs "finished" with its next step and is then finished: it
    did not die of the exception, and the caller is where it was.  Under any
    interleaving with the caller and the environment the worker's own events
    are these two diagnostics, in this order, and nothing else.  (A log is a
    call of [Streamer.print]: it writes only when [verbose].) *)
Theorem read_error_ends_worker
    (w : world) (t sid : nat) (d : bool) (bs : Z) (st : stream)
    (e : exn) (rest : list read_result) :
  threads w !! t = Some (Thread d (Some sid) (Running (AtFor bs))) ->
  streams w !! sid = Some st ->
  feed st = ReadRaises e :: rest ->
  isinstance_ValueError e = true ->
  (exists w2, run [Step_worker t; Step_worker t] w = Some w2 /\
     threads w2 !! t = Some (Thread d (Some sid) Finished) /\
     trace w2 = trace w ++
       logged (verbose w) (Worker t) [streamer_closed_early; finished] /\
     caller w2 = caller w) /\
  forall sched w', run (Step_worker t :: sched) w = Some w' ->
    (threads w' !! t = Some (Thread d (Some sid) (Running AtCleanup)) /\
     worker_events t w' = worker_events t w ++
       logged (verbose w) (Worker t) [streamer_closed_early]) \/
    (threads w' !! t = Some (Thread d (Some sid) Finished) /\
     worker_events t w' = worker_events t w ++
       logged (verbose w) (Worker t) [streamer_closed_early; finished]).
Proof.
  intros T S FD VE.
  pose proof (flush_for (Worker t) sid bs w st S) as F.
  unfold readline in F. rewrite FD, VE in F. cbv zeta in F.
  destruct (worker_step t d (Some sid) (AtFor bs) w _ _ T F)
    as (S1 & T1 & TR1 & _ & V1 & C1 & _). cbv zeta in *.
  set (w1 := set_tstate t (thread_after (Goto AtCleanup)) _) in *.
  assert (E1 : worker_events t w1 = worker_events t w ++
                 logged (verbose w) (Worker t) [streamer_closed_early]).
  { unfold worker_events. rewrite TR1, self_print_trace, by_actor_app.
    now rewrite by_actor_logged_same. }
  split.
  - destruct (worker_step t d (Some sid) AtCleanup w1 Return _ T1 eq_refl)
      as (S2 & T2 & TR2 & _ & V2 & C2 & _). cbv zeta in *.
    eexists. cbn [run]. rewrite S1, S2. split; [reflexivity|].
    split; [exact T2|]. split; [|congruence].
    rewrite TR2. unfold _cleanup. rewrite self_print_trace, TR1, self_print_trace.
    rewrite V1. simpl. rewrite <- app_assoc, <- logged_app. reflexivity.
  - intros sched w'. cbn [run]. rewrite S1. intros R.
    destruct (at_cleanup_run _ _ _ _ _ _ T1 R) as [(T2 & E2)|(T2 & E2)].
    + left. split; [exact T2|]. now rewrite E2.
    + right. split; [exact T2|]. rewrite E2, E1, V1, <- app_assoc, <- logged_app.
      reflexivity.
Qed.

Lemma read_error_ends_worker_witness :
  exists w2, run [Step_worker 0; Step_worker 0] reading_raising = Some w2 /\
     threads w2 !! 0%nat = Some (Thread true (Some 0%nat) Finished) /\
     trace w2 = trace reading_raising ++
       logged (verbose reading_raising) (Worker 0)
              [streamer_closed_early; finished] /\
     caller w2 = caller reading_raising.
Proof.
  apply (read_error_ends_worker reading_raising 0 0 true 0 raising ValueError []);
    reflexivity.
Defined.

(** ** C5: the end-of-stream marker *)

Lemma while_cond_spec sid w :
  while_cond (Some sid) w = true <->
  exists e st, _exit w = Some e /\ is_set e w = false /\
               streams w !! sid = Some st /\ binaryio st = true /\ closed st = false.
Proof.
  unfold while_cond. split.
  - destruct (_exit w) as [e|]; [|discriminate].
    destruct (streams w !! sid) as [st|]; [|now rewrite andb_false_r].
    intros H. apply andb_prop in H as [H1 H2]. apply andb_prop in H2 as [H2 H3].
    exists e, st. rewrite negb_true_iff in H1, H3. auto.
  - intros (e & st & -> & -> & -> & -> & ->). reflexivity.
Qed.

(** Left to itself, the worker of an open [BinaryIO] stream at its end
    never terminates while the exit signal is unset: it alternates between
    the loop condition and an empty read, printing nothing. *)
Lemma eof_worker_spins n : forall w t d sid st e pc,
  pc = AtWhile \/ (exists bs, pc = AtFor bs) ->
  threads w !! t = Some (Thread d (Some sid) (Running pc)) ->
  streams w !! sid = Some st ->
  feed st = [] -> binaryio st = true -> closed st = false ->
  _exit w = Some e -> is_set e w = false ->
  exists w', run (repeat (Step_worker t) n) w = Some w' /\
             is_alive t w' = true /\ trace w' = trace w.
Proof.
  induction n as [|n IH]; intros w t d sid st e pc PC T S FD B CL E NS.
  - exists w. repeat split. unfold is_alive. now rewrite T.
  - cbn [repeat run]. destruct PC as [->|(bs & ->)].
    + assert (C : while_cond (Some sid) w = true)
        by (apply while_cond_spec; eauto 10).
      assert (F : __flush (Worker t) (Some sid) AtWhile w = (Goto (AtFor 0), w))
        by (simpl; now rewrite C).
      destruct (worker_step t d _ _ w _ _ T F)
        as (S1 & T1 & TR1 & ST1 & _ & _ & E1 & EV1 & _). cbv zeta in *.
      rewrite S1.
      match type of S1 with _ = Some ?x => set (w1 := x) in * end.
      assert (NS1 : is_set e w1 = false) by (unfold is_set in *; now rewrite EV1).
      assert (SS1 : streams w1 !! sid = Some st) by (now rewrite ST1).
      assert (EE1 : _exit w1 = Some e) by congruence.
      destruct (IH w1 t d sid st e (AtFor 0) (or_intror (ex_intro _ 0 eq_refl))
                   T1 SS1 FD B CL EE1 NS1)
        as (w' & R' & A' & TR').
      exists w'. repeat split; congruence.
    + pose proof (flush_for (Worker t) sid bs w st S) as F.
      unfold readline in F. rewrite FD in F. cbv zeta in F.
      rewrite (list_insert_id _ _ _ S) in F.
      destruct (worker_step t d _ _ w _ _ T F)
        as (S1 & T1 & TR1 & ST1 & _ & _ & E1 & EV1 & _). cbv zeta in *.
      rewrite S1.
      match type of S1 with _ = Some ?x => set (w1 := x) in * end.
      simpl in ST1, TR1.
      assert (NS1 : is_set e w1 = false) by (unfold is_set in *; now rewrite EV1).
      assert (SS1 : streams w1 !! sid = Some st) by (now rewrite ST1).
      assert (EE1 : _exit w1 = Some e) by congruence.
      destruct (IH w1 t d sid st e AtWhile (or_introl eq_refl) T1 SS1 FD B CL EE1 NS1)
        as (w' & R' & A' & TR').
      exists w'. repeat split; congruence.
Qed.

(** C5 (as amended): an empty read ends the current burst, not the worker:
    the worker prints nothing and is back at the condition of its [while].
    If there the exit signal is unset and the stream is a [BinaryIO] that
    reports not closed, it starts another burst and stays alive; otherwise it
    leaves the loop, logs "finished" and terminates. *)
Theorem end_marker_ends_burst
    (w : world) (t sid : nat) (d : bool) (bs : Z) (st : stream) :
  threads w !! t = Some (Thread d (Some sid) (Running (AtFor bs))) ->
  streams w !! sid = Some st ->
  (readline st).1 = Line [] ->
  exists w1,
    step (Step_worker t) w = Some w1 /\
    threads w1 !! t = Some (Thread d (Some sid) (Running AtWhile)) /\
    trace w1 = trace w /\
    forall w2, threads w2 !! t = Some (Thread d (Some sid) (Running AtWhile)) ->
      (while_cond (Some sid) w2 = true <->
       exists e st2, _exit w2 = Some e /\ is_set e w2 = false /\
         streams w2 !! sid = Some st2 /\ binaryio st2 = true /\ closed st2 = false) /\
      (while_cond (Some sid) w2 = true ->
       exists w3, step (Step_worker t) w2 = Some w3 /\
         threads w3 !! t = Some (Thread d (Some sid) (Running (AtFor 0))) /\
         is_alive t w3 = true /\ trace w3 = trace w2) /\
      (while_cond (Some sid) w2 = false ->
       exists w3, run [Step_worker t; Step_worker t] w2 = Some w3 /\
         threads w3 !! t = Some (Thread d (Some sid) Finished) /\
         is_alive t w3 = false /\
         trace w3 = trace w2 ++ logged (verbose w2) (Worker t) [finished]).
Proof.
  intros T S RL.
  pose proof (flush_for (Worker t) sid bs w st S) as F.
  destruct (readline st) as [r st'] eqn:R. simpl in RL. subst r. cbv zeta in F.
  destruct (worker_step t d (Some sid) (AtFor bs) w _ _ T F)
    as (S1 & T1 & TR1 & _). cbv zeta in *.
  eexists. split; [exact S1|]. split; [exact T1|]. split; [exact TR1|].
  intros w2 T2. split; [apply while_cond_spec|]. split; intros C.
  - assert (F2 : __flush (Worker t) (Some sid) AtWhile w2 = (Goto (AtFor 0), w2))
      by (simpl; now rewrite C).
    destruct (worker_step t d (Some sid) AtWhile w2 _ _ T2 F2)
      as (S2 & T3 & TR3 & _). cbv zeta in *.
    eexists. split; [exact S2|]. split; [exact T3|]. split; [|exact TR3].
    unfold is_alive. now rewrite T3.
  - assert (F2 : __flush (Worker t) (Some sid) AtWhile w2 = (Goto AtCleanup, w2))
      by (simpl; now rewrite C).
    destruct (worker_step t d (Some sid) AtWhile w2 _ _ T2 F2)
      as (S2 & T3 & TR3 & _ & V3 & _). cbv zeta in *.
    destruct (worker_step t d (Some sid) AtCleanup _ Return _ T3 eq_refl)
      as (S3 & T4 & TR4 & _). cbv zeta in *.
    eexists. cbn [run]. rewrite S2, S3. split; [reflexivity|].
    split; [exact T4|]. split; [unfold is_alive; now rewrite T4|].
    rewrite TR4. unfold _cleanup. now rewrite self_print_trace, TR3, V3.
Qed.

Lemma end_marker_ends_burst_witness :
  exists w1,
    step (Step_worker 0) reading_eof = Some w1 /\
    threads w1 !! 0%nat = Some (Thread true (Some 0%nat) (Running AtWhile)) /\
    trace w1 = trace reading_eof /\
    forall w2, threads w2 !! 0%nat = Some (Thread true (Some 0%nat) (Running AtWhile)) ->
      (while_cond (Some 0%nat) w2 = true <->
       exists e st2, _exit w2 = Some e /\ is_set e w2 = false /\
         streams w2 !! 0%nat = Some st2 /\ binaryio st2 = true /\ closed st2 = false) /\
      (while_cond (Some 0%nat) w2 = true ->
       exists w3, step (Step_worker 0) w2 = Some w3 /\
         threads w3 !! 0%nat = Some (Thread true (Some 0%nat) (Running (AtFor 0))) /\
         is_alive 0 w3 = true /\ trace w3 = trace w2) /\
      (while_cond (Some 0%nat) w2 = false ->
       exists w3, run [Step_worker 0; Step_worker 0] w2 = Some w3 /\
         threads w3 !! 0%nat = Some (Thread true (Some 0%nat) Finished) /\
         is_alive 0 w3 = false /\
         trace w3 = trace w2 ++ logged (verbose w2) (Worker 0) [finished]).
Proof.
  apply (end_marker_ends_burst reading_eof 0 0 true 0 at_eof);
    vm_compute; reflexivity.
Defined.

(** C5 (as stated) fails: with the exit signal unset and the stream open, the
    worker that has read the end-of-stream marker is back in its loop; forty
    steps (twenty empty reads) later it is still alive and has logged
    nothing. *)
Lemma end_marker_does_not_end_worker :
  (readline at_eof).1 = Line [] /\
  threads reading_eof !! 0%nat = Some (Thread true (Some 0%nat) (Running (AtFor 0))) /\
  is_set 0 reading_eof = false /\
  exists w1 w2,
    step (Step_worker 0) reading_eof = Some w1 /\
    threads w1 !! 0%nat = Some (Thread true (Some 0%nat) (Running AtWhile)) /\
    run (repeat (Step_worker 0) 40) w1 = Some w2 /\
    is_alive 0 w2 = true /\ trace w2 = [] /\
    (closed <$> streams w2 !! 0%nat) = Some false.
Proof.
  do 3 (split; [vm_compute; reflexivity|]).
  do 2 eexists.
  do 3 (split; [vm_compute; reflexivity|]).
  repeat split.
Qed.

(** ** Further invariants: streams, the handle, the burst counter *)

Lemma readline_binaryio st : binaryio (readline st).2 = binaryio st.
Proof. unfold readline. now destruct (feed st). Qed.

Lemma insert_keeps_binaryio (ss : list stream) i st0 st0' sid st :
  ss !! i = Some st0 -> binaryio st0' = binaryio st0 ->
  ss !! sid = Some st ->
  exists st', <[i := st0']> ss !! sid = Some st' /\ binaryio st' = binaryio st.
Proof.
  intros I B S. destruct (decide (i = sid)) as [->|N].
  - rewrite list_lookup_insert_eq by (eapply lookup_lt_Some; eauto).
    exists st0'. split; [reflexivity|]. congruence.
  - rewrite list_lookup_insert_ne by done. eauto.
Qed.

(** No step makes a stream object appear, vanish or change its class. *)
Lemma flush_stream a s pc w o w' sid st :
  __flush a s pc w = (o, w') -> streams w !! sid = Some st ->
  exists st', streams w' !! sid = Some st' /\ binaryio st' = binaryio st.
Proof.
  intros F S. destruct pc as [| |bs|].
  - simpl in F. destruct (_output_thread w); injection F as <- <-; [eauto|].
    pose proof (self_print_frame a output_thread_is_none w) as G. cbv zeta in G.
    destruct G as (_ & _ & _ & _ & _ & -> & _). eauto.
  - simpl in F. destruct (while_cond s w); injection F as <- <-; eauto.
  - destruct s as [i|]; [|simpl in F; injection F as <- <-; eauto].
    destruct (streams w !! i) as [st0|] eqn:I.
    2:{ unfold __flush in F. simpl in F. rewrite I in F. simpl in F.
        injection F as <- <-. eauto. }
    rewrite (flush_for a i bs w st0 I) in F.
    pose proof (readline_binaryio st0) as B.
    destruct (readline st0) as [r st0']. simpl in B. cbv zeta in F.
    pose proof (insert_keeps_binaryio _ _ _ _ _ _ I B S) as K.
    repeat match type of F with
    | (match ?x with _ => _ end) = _ => destruct x
    | (if ?x then _ else _) = _ => destruct x
    end; injection F as <- <-; simpl; try exact K;
    match goal with |- context [self_print ?a ?m ?w] =>
      let G := fresh in
      pose proof (self_print_frame a m w) as G; cbv zeta in G;
      destruct G as (_ & _ & _ & _ & _ & -> & _) end; exact K.
  - simpl in F. injection F as <- <-. unfold _cleanup.
    pose proof (self_print_frame a finished w) as G. cbv zeta in G.
    destruct G as (_ & _ & _ & _ & _ & -> & _). eauto.
Qed.

Lemma step_stream act w w' sid st :
  step act w = Some w' -> streams w !! sid = Some st ->
  exists st', streams w' !! sid = Some st' /\ binaryio st' = binaryio st.
Proof.
  unfold step. intros H S. destruct act as [s| | |s| |t|i].
  - destruct (caller w); try discriminate.
    destruct (monitor s w) as [r w1] eqn:M.
    assert (streams w1 = streams w) as E.
    { apply monitor_cases in M as [(e & _ & ->)|[(_ & ->)|[(_ & _ & ->)|(_ & _ & ->)]]];
        try reflexivity; apply self_print_frame. }
    destruct r; injection H as <-; simpl; rewrite E; eauto.
  - destruct (caller w); try discriminate.
    destruct (stop w) as [r w1] eqn:M.
    assert (streams w1 = streams w) as E.
    { apply stop_cases in M as [(e & _ & ->)|[(_ & ->)|(t & e & _ & _ & _ & ->)]];
        try reflexivity; apply self_print_frame. }
    destruct r as [[|t]|e]; injection H as <-; simpl; rewrite E; eauto.
  - destruct (caller w); try discriminate.
    destruct (is_alive _ w); [discriminate|]. injection H as <-. eauto.
  - destruct (caller w); try discriminate. injection H as <-. eauto.
  - destruct (caller w) as [| |s pc|]; try discriminate.
    destruct (__flush Caller s pc w) as [o w1] eqn:F. injection H as <-.
    apply (flush_stream _ _ _ _ _ _ _ _ F S).
  - destruct (threads w !! t) as [[d s [pc| |]]|]; try discriminate.
    destruct (__flush (Worker t) s pc w) as [o w1] eqn:F. injection H as <-.
    pose proof (set_tstate_frame t (thread_after o) w1) as G. cbv zeta in G.
    destruct G as (_ & _ & _ & _ & _ & -> & _).
    apply (flush_stream _ _ _ _ _ _ _ _ F S).
  - destruct (streams w !! i) as [st0|] eqn:I; [|discriminate]. injection H as <-.
    simpl. eapply insert_keeps_binaryio; eauto.
Qed.

(** The worker handle is never cleared. *)
Lemma step_handle act w w' :
  step act w = Some w' -> _output_thread w <> None -> _output_thread w' <> None.
Proof.
  unfold step. intros H. destruct act as [s| | |s| |t|i].
  - destruct (caller w); try discriminate.
    destruct (monitor s w) as [r w1] eqn:M.
    assert (_output_thread w <> None -> _output_thread w1 <> None) as E.
    { apply monitor_cases in M as [(e & _ & ->)|[(_ & ->)|[(_ & _ & ->)|(_ & _ & ->)]]];
        try done; intros N;
        match goal with |- context [self_print ?a ?m ?w] =>
          let G := fresh in
          pose proof (self_print_frame a m w) as G; cbv zeta in G;
          destruct G as (-> & _) end; exact N. }
    destruct r; injection H as <-; exact E.
  - destruct (caller w); try discriminate.
    destruct (stop w) as [r w1] eqn:M.
    assert (_output_thread w <> None -> _output_thread w1 <> None) as E.
    { apply stop_cases in M as [(e & _ & ->)|[(_ & ->)|(t & e & _ & _ & _ & ->)]];
        try done. intros N.
        pose proof (self_print_frame Caller stop_but_not_monitoring w) as G.
        cbv zeta in G. destruct G as (-> & _). exact N. }
    destruct r as [[|t]|e]; injection H as <-; exact E.
  - destruct (caller w); try discriminate.
    destruct (is_alive _ w); [discriminate|]. now injection H as <-.
  - destruct (caller w); try discriminate. now injection H as <-.
  - destruct (caller w) as [| |s pc|]; try discriminate.
    destruct (__flush Caller s pc w) as [o w1] eqn:F. injection H as <-.
    apply flush_frame in F. destruct F as (F & _). simpl. now rewrite F.
  - destruct (threads w !! t) as [[d s [pc| |]]|]; try discriminate.
    destruct (__flush (Worker t) s pc w) as [o w1] eqn:F. injection H as <-.
    apply flush_frame in F. destruct F as (F & _).
    pose proof (set_tstate_frame t (thread_after o) w1) as G. cbv zeta in G.
    destruct G as (-> & _). now rewrite F.
  - destruct (streams w !! i); [|discriminate]. now injection H as <-.
Qed.

Lemma run_handle sched : forall w w',
  run sched w = Some w' -> _output_thread w <> None -> _output_thread w' <> None.
Proof.
  induction sched as [|act rest IH]; simpl; intros w w'.
  - now intros [= <-].
  - destruct (step act w) as [w1|] eqn:S; [|discriminate].
    intros R N. eapply IH; eauto using step_handle.
Qed.

(** ** C10: a stream that is not a [BinaryIO] *)

Lemma while_cond_not_binaryio sid w st :
  streams w !! sid = Some st -> binaryio st = false ->
  while_cond (Some sid) w = false.
Proof.
  intros S B. unfold while_cond. rewrite S, B.
  destruct (_exit w); [apply andb_false_r|reflexivity].
Qed.

Lemma not_binaryio_run sched : forall w w' t sid d st pc,
  pc = AtGuard \/ pc = AtWhile ->
  threads w !! t = Some (Thread d (Some sid) (Running pc)) ->
  _output_thread w <> None ->
  streams w !! sid = Some st -> binaryio st = false ->
  run sched w = Some w' ->
  (exists pc', threads w' !! t = Some (Thread d (Some sid) (Running pc')) /\
     (forall bs, pc' <> AtFor bs) /\ worker_events t w' = worker_events t w) \/
  (threads w' !! t = Some (Thread d (Some sid) Finished) /\
   worker_events t w' = worker_events t w ++ logged (verbose w) (Worker t) [finished]).
Proof.
  induction sched as [|act rest IH]; simpl; intros w w' t sid d st pc PC T H S B.
  - intros [= <-]. left. exists pc. split; [exact T|]. split; [|reflexivity].
    intros bs. destruct PC; subst; discriminate.
  - destruct (step act w) as [w1|] eqn:ST; [|discriminate]. intros R.
    pose proof (step_verbose _ _ _ ST) as V.
    pose proof (step_handle _ _ _ ST H) as H1.
    destruct (step_stream _ _ _ sid st ST S) as (st1 & S1 & B1). rewrite B in B1.
    destruct (decide (act = Step_worker t)) as [->|N].
    + destruct PC as [->| ->].
      * assert (F : __flush (Worker t) (Some sid) AtGuard w = (Goto AtWhile, w))
          by (simpl; destruct (_output_thread w); [reflexivity|contradiction]).
        destruct (worker_step t d _ _ w _ _ T F) as (ST' & T1 & TR & _).
        cbv zeta in *. rewrite ST in ST'. injection ST' as ->.
        assert (E : worker_events t (set_tstate t (thread_after (Goto AtWhile)) w)
                    = worker_events t w) by (unfold worker_events; now rewrite TR).
        rewrite <- E, <- V. eapply IH; eauto.
      * assert (F : __flush (Worker t) (Some sid) AtWhile w = (Goto AtCleanup, w))
          by (simpl; now rewrite (while_cond_not_binaryio sid w st S B)).
        destruct (worker_step t d _ _ w _ _ T F) as (ST' & T1 & TR & _).
        cbv zeta in *. rewrite ST in ST'. injection ST' as ->.
        assert (E : worker_events t (set_tstate t (thread_after (Goto AtCleanup)) w)
                    = worker_events t w) by (unfold worker_events; now rewrite TR).
        rewrite <- E, <- V.
        destruct (at_cleanup_run _ _ _ _ _ _ T1 R) as [(T2 & E2)|(T2 & E2)].
        -- left. exists AtCleanup. repeat split; [exact T2|discriminate|exact E2].
        -- right. split; [exact T2|exact E2].
    + destruct (other_step_frame t act w w1 _ N T ST) as (T1 & E1).
      fold (worker_events t w1) in E1. fold (worker_events t w) in E1.
      rewrite <- E1, <- V. eapply IH; eauto.
Qed.

(** C10: the worker of a stream that is not an instance of [BinaryIO] never
    enters the read loop.  Left alone it is finished after three steps (the
    guard, the loop condition, the cleanup) having logged "finished" and
    touched no stream; under any interleaving it is never at the [for], so it
    calls no [readline], and its only event ever is that log. *)
Theorem non_binaryio_stream_is_not_read
    (w : world) (t sid : nat) (d : bool) (st : stream) :
  threads w !! t = Some (Thread d (Some sid) (Running AtGuard)) ->
  _output_thread w <> None ->
  streams w !! sid = Some st ->
  binaryio st = false ->
  (exists w3, run [Step_worker t; Step_worker t; Step_worker t] w = Some w3 /\
     threads w3 !! t = Some (Thread d (Some sid) Finished) /\
     streams w3 = streams w /\
     trace w3 = trace w ++ logged (verbose w) (Worker t) [finished]) /\
  forall sched w', run sched w = Some w' ->
    (exists pc, threads w' !! t = Some (Thread d (Some sid) (Running pc)) /\
       (forall bs, pc <> AtFor bs) /\ worker_events t w' = worker_events t w) \/
    (threads w' !! t = Some (Thread d (Some sid) Finished) /\
     worker_events t w' = worker_events t w ++ logged (verbose w) (Worker t) [finished]).
Proof.
  intros T H S B. split.
  - assert (F1 : __flush (Worker t) (Some sid) AtGuard w = (Goto AtWhile, w))
      by (simpl; destruct (_output_thread w); [reflexivity|contradiction]).
    destruct (worker_step t d _ _ w _ _ T F1)
      as (S1 & T1 & TR1 & ST1 & V1 & _). cbv zeta in *.
    set (w1 := set_tstate t (thread_after (Goto AtWhile)) w) in *.
    assert (F2 : __flush (Worker t) (Some sid) AtWhile w1 = (Goto AtCleanup, w1)).
    { simpl. rewrite (while_cond_not_binaryio sid w1 st); [reflexivity| |exact B].
      now rewrite ST1. }
    destruct (worker_step t d _ _ w1 _ _ T1 F2)
      as (S2 & T2 & TR2 & ST2 & V2 & _). cbv zeta in *.
    set (w2 := set_tstate t (thread_after (Goto AtCleanup)) w1) in *.
    destruct (worker_step t d _ AtCleanup w2 Return _ T2 eq_refl)
      as (S3 & T3 & TR3 & ST3 & V3 & _). cbv zeta in *.
    eexists. cbn [run]. rewrite S1, S2, S3. split; [reflexivity|].
    split; [exact T3|]. split.
    + rewrite ST3. unfold _cleanup.
      pose proof (self_print_frame (Worker t) finished w2) as G. cbv zeta in G.
      destruct G as (_ & _ & _ & _ & _ & -> & _). congruence.
    + rewrite TR3. unfold _cleanup. rewrite self_print_trace. congruence.
  - intros sched w' R.
    exact (not_binaryio_run sched w w' t sid d st AtGuard (or_introl eq_refl) T H S B R).
Qed.

Lemma non_binaryio_stream_is_not_read_witness :
  exists w3,
    run [Step_worker 0; Step_worker 0; Step_worker 0] started_on_pipe = Some w3 /\
    threads w3 !! 0%nat = Some (Thread true (Some 0%nat) Finished) /\
    streams w3 = streams started_on_pipe /\
    trace w3 = trace started_on_pipe ++
               logged (verbose started_on_pipe) (Worker 0) [finished].
Proof.
  apply (non_binaryio_stream_is_not_read started_on_pipe 0 0 true pipe);
    vm_compute; (reflexivity || discriminate).
Defined.

(** ** C8: the counter of the periodic yield *)

Lemma flush_counter a s pc w o w' :
  __flush a s pc w = (o, w') ->
  (forall bs, pc = AtFor bs -> bs = 0) ->
  forall bs, o = Goto (AtFor bs) -> bs = 0.
Proof.
  intros F Z bs ->. destruct pc as [| |bs0|].
  - simpl in F. destruct (_output_thread w); discriminate.
  - simpl in F. destruct (while_cond s w); [|discriminate]. now injection F as <-.
  - unfold __flush in F.
    repeat match type of F with
    | (match ?x with _ => _ end) = _ => destruct x
    | (if ?x then _ else _) = _ => destruct x
    | (let (_, _) := ?x in _) = _ => destruct x
    end; try discriminate; injection F as <- _; now apply Z.
  - discriminate.
Qed.

Lemma step_counters act w w' :
  counters_zero w -> step act w = Some w' -> counters_zero w'.
Proof.
  intros [ZT ZC]. unfold step. intros H. destruct act as [s| | |s| |t|i].
  - destruct (caller w) eqn:C; try discriminate.
    destruct (monitor s w) as [r w1] eqn:M.
    assert (counters_zero w1) as [ZT1 ZC1].
    { apply monitor_cases in M as [(e & _ & ->)|[(_ & ->)|[(_ & _ & ->)|(_ & _ & ->)]]];
        try (split; [exact ZT|rewrite C; discriminate]);
        try (match goal with |- context [self_print ?a ?m ?w] =>
               let G := fresh in
               pose proof (self_print_frame a m w) as G; cbv zeta in G;
               destruct G as (_ & _ & _ & _ & G1 & _ & G2 & _) end;
             split; [rewrite G1; exact ZT|rewrite G2, C; discriminate]).
      split; simpl; [|rewrite C; discriminate].
      intros t d s' bs L. apply lookup_app_Some in L as [L|[_ L]]; [eauto|].
      destruct (t - length (threads w))%nat as [|[|n]]; discriminate. }
    destruct r; injection H as <-; split; auto; discriminate.
  - destruct (caller w) eqn:C; try discriminate.
    destruct (stop w) as [r w1] eqn:M.
    assert (counters_zero w1) as [ZT1 ZC1].
    { apply stop_cases in M as [(e & _ & ->)|[(_ & ->)|(t & e & _ & _ & _ & ->)]];
        try (split; [exact ZT|simpl; rewrite C; discriminate]).
      pose proof (self_print_frame Caller stop_but_not_monitoring w) as G.
      cbv zeta in G. destruct G as (_ & _ & _ & _ & G1 & _ & G2 & _).
      split; [rewrite G1; exact ZT|rewrite G2, C; discriminate]. }
    destruct r as [[|t]|e]; injection H as <-; split; auto; discriminate.
  - destruct (caller w); try discriminate.
    destruct (is_alive _ w); [discriminate|]. injection H as <-.
    split; [exact ZT|discriminate].
  - destruct (caller w); try discriminate. injection H as <-.
    split; [exact ZT|discriminate].
  - destruct (caller w) as [| |s pc|] eqn:C; try discriminate.
    destruct (__flush Caller s pc w) as [o w1] eqn:F. injection H as <-.
    pose proof (flush_counter _ _ _ _ _ _ F) as K.
    apply flush_frame in F. destruct F as (_ & _ & _ & _ & TH & _).
    split; simpl; [rewrite TH; exact ZT|].
    intros s' bs E. destruct o; try discriminate. injection E as -> ->.
    apply K; [|reflexivity]. intros bs' ->. eapply ZC; reflexivity.
  - destruct (threads w !! t) as [[d s [pc| |]]|] eqn:T; try discriminate.
    destruct (__flush (Worker t) s pc w) as [o w1] eqn:F. injection H as <-.
    pose proof (flush_counter _ _ _ _ _ _ F) as K.
    pose proof (set_tstate_frame t (thread_after o) w1) as G. cbv zeta in G.
    destruct G as (_ & _ & _ & _ & _ & _ & GC & _).
    apply flush_frame in F. destruct F as (_ & _ & _ & _ & TH & FC).
    split; [|rewrite GC, FC; exact ZC].
    intros u d' s' bs L. destruct (decide (t = u)) as [<-|N].
    + rewrite (lookup_set_tstate_eq t _ w1 (Thread d s (Running pc))) in L
        by (now rewrite TH).
      injection L as _ _ L. destruct o; try discriminate. injection L as ->.
      apply K; [|reflexivity]. intros bs' ->. eapply ZT; eauto.
    + rewrite lookup_set_tstate_ne, TH in L by done. eauto.
  - destruct (streams w !! i); [|discriminate]. injection H as <-.
    split; [exact ZT|exact ZC].
Qed.

Lemma reachable_counters w : reachable w -> counters_zero w.
Proof.
  intros (env & s & verb & sched & R).
  assert (counters_zero (__init__ env s verb).2) as Z0.
  { unfold __init__. destruct s as [sid|]; simpl.
    - split; simpl; [|discriminate]. intros [|[|t]] d s bs; discriminate.
    - split; simpl; [|discriminate]. intros t d s bs. now rewrite lookup_nil. }
  revert R Z0. generalize (__init__ env s verb).2. clear.
  induction sched as [|act rest IH]; simpl; intros w0.
  - now intros [= <-].
  - destruct (step act w0) as [w1|] eqn:S; [|discriminate].
    intros R Z. eapply IH; eauto using step_counters.
Qed.

(** C8 (as amended): inside a burst the counter never advances: it is 0 at
    every line, the condition [buffer_size % 10 == 0] of the yield therefore
    holds at every line, and the worker yields after every line it prints. *)
Theorem burst_counter_stays_zero
    (w : world) (t sid : nat) (d : bool) (bs : Z) (st : stream)
    (line : list byte) (rest : list read_result) (text : string) :
  reachable w ->
  threads w !! t = Some (Thread d (Some sid) (Running (AtFor bs))) ->
  streams w !! sid = Some st ->
  feed st = Line line :: rest ->
  line <> [] ->
  Utf8.decode line = Some text ->
  bs = 0 /\
  exists w',
    step (Step_worker t) w = Some w' /\
    threads w' !! t = Some (Thread d (Some sid) (Running (AtFor 0))) /\
    trace w' = trace w ++ [Printed (Worker t) (Content text); Slept (Worker t)].
Proof.
  intros R T S FD NE DC.
  destruct (reachable_counters w R) as [ZT _].
  pose proof (ZT _ _ _ _ T) as ->. split; [reflexivity|].
  pose proof (flush_for (Worker t) sid 0 w st S) as F.
  unfold readline in F. rewrite FD in F. cbv zeta in F.
  destruct line as [|b l]; [contradiction|]. rewrite DC in F.
  change (0 mod 10 =? 0) with true in F. cbv iota in F.
  destruct (worker_step t d _ _ w _ _ T F) as (S1 & T1 & TR1 & _). cbv zeta in *.
  eexists. split; [exact S1|]. split; [exact T1|].
  rewrite TR1. simpl. now rewrite <- app_assoc.
Qed.

Lemma burst_counter_stays_zero_witness :
  0 = 0 /\
  exists w',
    step (Step_worker 0) midburst = Some w' /\
    threads w' !! 0%nat = Some (Thread true (Some 0%nat) (Running (AtFor 0))) /\
    trace w' = trace midburst ++ [Printed (Worker 0) (Content "b"); Slept (Worker 0)].
Proof.
  apply (burst_counter_stays_zero midburst 0 0 true 0
           (Stream true false [ascii_line "b"; ascii_line "c"; ascii_line "d"; Line []])
           (list_byte_of_string "b")
           [ascii_line "c"; ascii_line "d"; Line []] "b").
  - exists [abcd], (Some 0%nat), true, [Step_worker 0; Step_worker 0; Step_worker 0].
    vm_compute. reflexivity.
  - vm_compute. reflexivity.
  - vm_compute. reflexivity.
  - reflexivity.
  - discriminate.
  - vm_compute. reflexivity.
Defined.

(** C8 (as stated) fails: the worker yields in the middle of a burst, right
    after the first line. *)
Lemma yield_triggers_in_burst :
  threads midburst !! 0%nat = Some (Thread true (Some 0%nat) (Running (AtFor 0))) /\
  trace midburst = [Printed (Worker 0) (Content "a"); Slept (Worker 0)].
Proof. split; vm_compute; reflexivity. Qed.

(** ** C1: a burst of lines *)

Lemma world_eta w :
  World (_output_thread w) (_exit w) (verbose w) (events w) (threads w)
        (streams w) (caller w) (trace w) = w.
Proof. now destruct w. Qed.

Lemma line_step w t d sid st l tail :
  threads w !! t = Some (Thread d (Some sid) (Running (AtFor 0))) ->
  streams w !! sid = Some st ->
  feed st = Line l :: tail ->
  printable l ->
  step (Step_worker t) w =
  Some (World (_output_thread w) (_exit w) (verbose w) (events w) (threads w)
              (<[sid := Stream (binaryio st) (closed st) tail]> (streams w))
              (caller w)
              (trace w ++ burst_events t [l])).
Proof.
  intros T S FD [NE WF]. unfold step. rewrite T.
  rewrite (flush_for (Worker t) sid 0 w st S). unfold readline. rewrite FD.
  cbv zeta. destruct l as [|b l]; [contradiction|].
  unfold Utf8.decode. rewrite WF. change (0 mod 10 =? 0) with true. cbv iota.
  unfold set_tstate. simpl. rewrite T. simpl.
  rewrite (list_insert_id _ _ _ T). unfold set_threads, emit. simpl.
  now rewrite <- app_assoc.
Qed.

Lemma burst_run ls : forall w t d sid st tail,
  threads w !! t = Some (Thread d (Some sid) (Running (AtFor 0))) ->
  streams w !! sid = Some st ->
  feed st = map Line ls ++ tail ->
  Forall printable ls ->
  run (repeat (Step_worker t) (length ls)) w =
  Some (World (_output_thread w) (_exit w) (verbose w) (events w) (threads w)
              (<[sid := Stream (binaryio st) (closed st) tail]> (streams w))
              (caller w)
              (trace w ++ burst_events t ls)).
Proof.
  induction ls as [|l ls IH]; intros w t d sid st tail T S FD P.
  - simpl in *. rewrite app_nil_r. subst tail.
    replace (Stream (binaryio st) (closed st) (feed st)) with st by now destruct st.
    now rewrite (list_insert_id _ _ _ S), world_eta.
  - apply Forall_cons in P as [Pl Pls]. simpl in FD.
    cbn [length repeat run].
    rewrite (line_step w t d sid st l _ T S FD Pl).
    match goal with |- run _ ?w1 = _ =>
      rewrite (IH w1 t d sid
                  (Stream (binaryio st) (closed st) (map Line ls ++ tail)) tail)
    end; [|exact T| |reflexivity|exact Pls].
    2:{ simpl. apply list_lookup_insert_eq. eapply lookup_lt_Some; eauto. }
    simpl. now rewrite list_insert_insert_eq, <- app_assoc.
Qed.

Lemma stdout_burst_events t ls :
  stdout_lines (burst_events t ls) = map (fun l => Content (string_of_list_byte l)) ls.
Proof. induction ls as [|l ls IH]; simpl; [reflexivity|]. now rewrite <- IH. Qed.

Lemma render_burst_events t ls :
  map render (stdout_lines (burst_events t ls)) =
  map (fun l => (string_of_list_byte l ++ newline)%string) ls.
Proof. rewrite stdout_burst_events, map_map. reflexivity. Qed.

(** ** Order and absence of duplicates under every interleaving *)

Lemma content_lines_worker_logged t w verb ms :
  content_lines (by_actor (Worker t) (trace w) ++ logged verb (Worker t) ms)
  = content_lines (worker_events t w).
Proof.
  rewrite content_lines_app, content_lines_logged. apply app_nil_r.
Qed.

(** The calls of the caller other than a direct [__flush] leave the streams
    alone and do not put the caller inside [__flush]. *)
Lemma call_frame act w w' :
  match act with Call_monitor _ | Call_stop | Return_stop => True | _ => False end ->
  step act w = Some w' ->
  streams w' = streams w /\
  match caller w' with InFlush _ _ => False | _ => True end.
Proof.
  unfold step. intros A H. destruct act as [s| | |s| |t|i]; try contradiction.
  - destruct (caller w) eqn:C; try discriminate.
    destruct (monitor s w) as [r w1] eqn:M.
    assert (streams w1 = streams w /\ caller w1 = caller w) as [E1 E2].
    { apply monitor_cases in M as [(e & _ & ->)|[(_ & ->)|[(_ & _ & ->)|(_ & _ & ->)]]];
        try (split; reflexivity);
        match goal with |- context [self_print ?a ?m ?w] =>
          pose proof (self_print_frame a m w) as G; cbv zeta in G end; tauto. }
    destruct r; injection H as <-; simpl; rewrite ?E2, ?C; tauto.
  - destruct (caller w) eqn:C; try discriminate.
    destruct (stop w) as [r w1] eqn:M.
    assert (streams w1 = streams w /\ caller w1 = caller w) as [E1 E2].
    { apply stop_cases in M as [(e & _ & ->)|[(_ & ->)|(t & e & _ & _ & _ & ->)]];
        try (split; reflexivity).
      pose proof (self_print_frame Caller stop_but_not_monitoring w) as G.
      cbv zeta in G. tauto. }
    destruct r as [[|t]|e]; injection H as <-; simpl; rewrite ?E2, ?C; tauto.
  - destruct (caller w); try discriminate.
    destruct (is_alive _ w); [discriminate|]. injection H as <-. simpl. tauto.
Qed.

Lemma content_after_print t w text evs :
  evs = [Printed (Worker t) (Content text); Slept (Worker t)] \/
  evs = [Printed (Worker t) (Content text)] ->
  content_lines (by_actor (Worker t) (trace w ++ evs))
  = content_lines (worker_events t w) ++ [text].
Proof.
  intros E. unfold worker_events. rewrite by_actor_app, content_lines_app.
  f_equal. destruct E as [-> | ->]; unfold by_actor; simpl;
    rewrite Nat.eqb_refl; reflexivity.
Qed.

(** While worker [t] is alive, nobody else touches the feed of a stream:
    no other worker is alive, and the caller is not inside [__flush]. *)
Lemma feed_untouched t act w w' sid st :
  wf w -> match caller w with InFlush _ _ => False | _ => True end ->
  is_alive t w = true -> act <> Step_worker t -> is_direct_flush act = false ->
  step act w = Some w' -> streams w !! sid = Some st ->
  exists st', streams w' !! sid = Some st' /\ feed st' = feed st.
Proof.
  intros W NC A N ND S L. destruct act as [s| | |s| |u|i]; try discriminate.
  - destruct (call_frame (Call_monitor s) _ _ I S) as (-> & _). eauto.
  - destruct (call_frame Call_stop _ _ I S) as (-> & _). eauto.
  - destruct (call_frame Return_stop _ _ I S) as (-> & _). eauto.
  - exfalso. unfold step in S.
    destruct (threads w !! u) as [[du su [pc| |]]|] eqn:U; try discriminate.
    assert (AU : is_alive u w = true) by (unfold is_alive; now rewrite U).
    pose proof (wf_alive w W u AU) as HU. pose proof (wf_alive w W t A) as HT.
    rewrite HU in HT. injection HT as ->. now apply N.
  - unfold step in S. destruct (streams w !! i) as [sti|] eqn:Li; [|discriminate].
    injection S as <-. simpl. destruct (decide (i = sid)) as [->|Ni].
    + rewrite list_lookup_insert_eq by (eapply lookup_lt_Some; eauto).
      rewrite L in Li. injection Li as <-. eauto.
    + rewrite list_lookup_insert_ne by done. eauto.
Qed.

Lemma not_in_flush act w w' :
  match caller w with InFlush _ _ => False | _ => True end ->
  is_direct_flush act = false -> step act w = Some w' ->
  match caller w' with InFlush _ _ => False | _ => True end.
Proof.
  intros NC ND S. destruct act as [s| | |s| |u|i]; try discriminate.
  - apply (call_frame (Call_monitor s) _ _ I S).
  - apply (call_frame Call_stop _ _ I S).
  - apply (call_frame Return_stop _ _ I S).
  - destruct (background_frame (Step_worker u) _ _ eq_refl S)
      as (_ & _ & _ & _ & -> & _). exact NC.
  - destruct (background_frame (Env_close i) _ _ eq_refl S)
      as (_ & _ & _ & _ & -> & _). exact NC.
Qed.

Lemma sole_reader_step t sid total act w w' :
  sole_reader t sid total w -> is_direct_flush act = false ->
  step act w = Some w' -> sole_reader t sid total w'.
Proof.
  intros (W & NC & d & ts & T & Inv) ND S.
  pose proof (step_wf _ _ _ W S) as W'.
  pose proof (not_in_flush _ _ _ NC ND S) as NC'.
  split; [exact W'|]. split; [exact NC'|].
  destruct (decide (act = Step_worker t)) as [->|N].
  - destruct ts as [pc| |]; [|unfold step in S; rewrite T in S; discriminate ..].
    destruct (__flush (Worker t) (Some sid) pc w) as [o w1] eqn:F.
    destruct (worker_step t d _ _ w o w1 T F) as (S1 & T1 & TR1 & ST1 & _).
    cbv zeta in *. rewrite S in S1. injection S1 as ->.
    exists d, (thread_after o). split; [exact T1|].
    unfold worker_events. rewrite TR1, ST1. fold (worker_events t w).
    destruct pc as [| |bs|].
    + destruct Inv as (st & L & E). simpl in F.
      destruct (_output_thread w); injection F as <- <-; cbn [thread_after].
      * exists st. auto.
      * rewrite self_print_trace, by_actor_app, by_actor_logged_same.
        rewrite content_lines_worker_logged. eauto.
    + destruct Inv as (st & L & E). simpl in F.
      destruct (while_cond (Some sid) w); injection F as <- <-; simpl; eauto.
    + destruct Inv as (st & L & E).
      rewrite (flush_for _ _ _ _ _ L) in F. unfold readline in F.
      assert (LI : forall x, <[sid := x]> (streams w) !! sid = Some x)
        by (intros x; apply list_lookup_insert_eq; eapply lookup_lt_Some; eauto).
      destruct (feed st) as [|[line|e] rest] eqn:FD; cbv zeta in F.
      * injection F as <- <-. simpl. exists st. rewrite LI, FD. auto.
      * destruct line as [|b l].
        { injection F as <- <-. simpl. eexists. rewrite LI. split; [reflexivity|].
          exact E. }
        cbn [feed_texts] in E.
        destruct (Utf8.decode (b :: l)) as [text|].
        -- assert (content_lines (by_actor (Worker t) (trace w1))
                   = content_lines (worker_events t w) ++ [text]) as C1.
           { destruct (bs mod 10 =? 0); injection F as _ <-; simpl;
               rewrite <- ?app_assoc; apply content_after_print; auto. }
           assert (o = Goto (AtFor bs) /\ streams w1 !! sid
                   = Some (Stream (binaryio st) (closed st) rest)) as [-> L1].
           { destruct (bs mod 10 =? 0); injection F as <- <-; simpl;
               rewrite LI; auto. }
           simpl. eexists. split; [exact L1|]. rewrite C1, <- app_assoc. exact E.
        -- injection F as <- <-. cbn [thread_after].
           rewrite self_print_trace, by_actor_app, by_actor_logged_same.
           change (trace (set_streams ?x w)) with (trace w).
           rewrite content_lines_worker_logged. exists []. exact E.
      * cbn [feed_texts] in E.
        destruct (isinstance_ValueError e); injection F as <- <-; cbn [thread_after].
        -- rewrite self_print_trace, by_actor_app, by_actor_logged_same.
           change (trace (set_streams ?x w)) with (trace w).
           rewrite content_lines_worker_logged. exists []. exact E.
        -- exists []. exact E.
    + destruct Inv as (suffix & E). simpl in F. injection F as <- <-.
      cbn [thread_after]. unfold _cleanup. rewrite self_print_trace, by_actor_app, by_actor_logged_same.
      rewrite content_lines_worker_logged. eauto.
  - destruct (other_step_frame t act w w' _ N T S) as (T' & E').
    fold (worker_events t w') in E'. fold (worker_events t w) in E'.
    exists d, ts. split; [exact T'|]. rewrite E'.
    assert (forall pc, ts = Running pc ->
            forall st, streams w !! sid = Some st ->
            exists st', streams w' !! sid = Some st' /\ feed st' = feed st) as K.
    { intros pc -> st L.
      assert (A : is_alive t w = true) by (unfold is_alive; now rewrite T).
      exact (feed_untouched t act w w' sid st W NC A N ND S L). }
    destruct ts as [[| |bs|]| |]; try exact Inv;
      destruct Inv as (st & L & E);
      destruct (K _ eq_refl st L) as (st' & L' & FD');
      exists st'; rewrite FD'; auto.
Qed.

(** A step extends the trace by events of its own actor, and no [Thread]
    object disappears. *)
Lemma step_trace act w w' :
  step act w = Some w' ->
  (length (threads w) <= length (threads w'))%nat /\
  exists evs, trace w' = trace w ++ evs /\
              forall b, actor_of act <> b -> by_actor b evs = [].
Proof.
  assert (N : forall w0 : world, exists evs, trace w0 = trace w0 ++ evs /\
                forall b, actor_of act <> b -> by_actor b evs = [])
    by (intros w0; exists []; split; [now rewrite app_nil_r|reflexivity]).
  assert (P : forall m w0, exists evs,
                trace (self_print Caller m w0) = trace w0 ++ evs /\
                forall b, Caller <> b -> by_actor b evs = []).
  { intros m w0. eexists. split; [apply self_print_trace|].
    intros b Hb. now apply by_actor_logged_other. }
  unfold step. intros H. destruct act as [s| | |s| |t|i].
  - destruct (caller w); try discriminate.
    destruct (monitor s w) as [r w1] eqn:M.
    assert ((length (threads w) <= length (threads w1))%nat /\
            exists evs, trace w1 = trace w ++ evs /\
                        forall b, Caller <> b -> by_actor b evs = []) as K.
    { apply monitor_cases in M as [(e & _ & ->)|[(_ & ->)|[(_ & _ & ->)|(_ & _ & ->)]]];
        try (split; [reflexivity|apply N]);
        try (split; [|apply P];
             match goal with |- context [self_print ?a ?m ?w] =>
               pose proof (self_print_frame a m w) as G; cbv zeta in G end;
             destruct G as (_ & _ & _ & _ & -> & _); reflexivity).
      simpl. rewrite length_app. split; [lia|apply N]. }
    destruct r; injection H as <-; exact K.
  - destruct (caller w); try discriminate.
    destruct (stop w) as [r w1] eqn:M.
    assert ((length (threads w) <= length (threads w1))%nat /\
            exists evs, trace w1 = trace w ++ evs /\
                        forall b, Caller <> b -> by_actor b evs = []) as K.
    { apply stop_cases in M as [(e & _ & ->)|[(_ & ->)|(t & e & _ & _ & _ & ->)]].
      - split; [reflexivity|apply N].
      - split; [|apply P].
        pose proof (self_print_frame Caller stop_but_not_monitoring w) as G.
        cbv zeta in G. destruct G as (_ & _ & _ & _ & -> & _). reflexivity.
      - simpl. split; [reflexivity|]. eexists. split; [reflexivity|].
        intros b Hb. destruct b as [|u]; [now destruct Hb|reflexivity]. }
    destruct r as [[|t]|e]; injection H as <-; exact K.
  - destruct (caller w); try discriminate.
    destruct (is_alive _ w); [discriminate|]. injection H as <-.
    split; [reflexivity|exact (N w)].
  - destruct (caller w); try discriminate. injection H as <-.
    split; [reflexivity|exact (N w)].
  - destruct (caller w) as [| |s pc|]; try discriminate.
    destruct (__flush Caller s pc w) as [o w1] eqn:F. injection H as <-.
    destruct (flush_trace _ _ _ _ _ _ F) as (evs & TR & _ & O).
    apply flush_frame in F. destruct F as (_ & _ & _ & _ & TH & _).
    simpl. rewrite TH. split; [reflexivity|]. eauto.
  - destruct (threads w !! t) as [[d s [pc| |]]|] eqn:T; try discriminate.
    destruct (__flush (Worker t) s pc w) as [o w1] eqn:F. injection H as <-.
    destruct (flush_trace _ _ _ _ _ _ F) as (evs & TR & _ & O).
    apply flush_frame in F. destruct F as (_ & _ & _ & _ & TH & _).
    pose proof (set_tstate_frame t (thread_after o) w1) as G. cbv zeta in G.
    destruct G as (_ & _ & _ & _ & -> & _ & _ & ->).
    rewrite TH. split; [reflexivity|]. eauto.
  - destruct (streams w !! i); [|discriminate]. injection H as <-.
    split; [reflexivity|exact (N w)].
Qed.

(** No event is attributed to a thread that does not exist (yet). *)
Lemma reachable_silent w u :
  reachable w -> (length (threads w) <= u)%nat -> worker_events u w = [].
Proof.
  intros (env & s & verb & sched & R).
  assert (forall u, (length (threads (__init__ env s verb).2) <= u)%nat ->
                    worker_events u (__init__ env s verb).2 = []) as Z0
    by (intros u' _; unfold __init__; destruct s; reflexivity).
  revert u R Z0. generalize (__init__ env s verb).2. clear.
  induction sched as [|act rest IH]; simpl; intros w0 u.
  - intros [= <-] Z. apply Z.
  - destruct (step act w0) as [w1|] eqn:S; [|discriminate].
    intros R Z. apply (IH w1 u R). intros v Lv.
    destruct (step_trace _ _ _ S) as (Len & evs & TR & O).
    unfold worker_events. rewrite TR, by_actor_app.
    fold (worker_events v w0). rewrite (Z v) by lia. simpl. apply O.
    destruct act as [| | | | |t|]; try discriminate.
    intros [= ->]. unfold step in S.
    destruct (threads w0 !! v) eqn:T; [|discriminate].
    apply lookup_lt_Some in T. lia.
Qed.

Lemma sole_reader_run t sid total sched : forall w w',
  sole_reader t sid total w ->
  forallb (fun a => negb (is_direct_flush a)) sched = true ->
  run sched w = Some w' -> sole_reader t sid total w'.
Proof.
  induction sched as [|act rest IH]; simpl; intros w w' I ND.
  - now intros [= <-].
  - apply andb_prop in ND as [N1 N2]. apply negb_true_iff in N1.
    destruct (step act w) as [w1|] eqn:S; [|discriminate].
    apply IH; [|exact N2]. eapply sole_reader_step; eauto.
Qed.

Lemma sole_reader_prefix t sid total w :
  sole_reader t sid total w ->
  exists suffix, content_lines (worker_events t w) ++ suffix = total.
Proof.
  intros (_ & _ & d & ts & _ & I).
  destruct ts as [[| |bs|]| |]; try exact I; destruct I as (st & _ & E); eauto.
Qed.

Lemma feed_texts_burst ls rest :
  Forall printable ls ->
  feed_texts (map Line ls ++ Line [] :: rest)
  = map string_of_list_byte ls ++ feed_texts rest.
Proof.
  induction 1 as [|l ls [NE WF] _ IH]; [reflexivity|].
  destruct l as [|b l]; [contradiction|].
  cbn [map app feed_texts]. unfold Utf8.decode. rewrite WF.
  cbn [map app]. now rewrite <- IH.
Qed.

(** The constructor given a stream is the constructor given none followed
    by [monitor]. *)
Lemma init_with_stream env sid verb :
  __init__ env (Some sid) verb = monitor (Some sid) (__init__ env None verb).2.
Proof. reflexivity. Qed.

(** C1 (the code at the failing input): the class docstring shows a
    Streamer constructed on [subprocess.Popen(...).stdout].  That object is a
    buffered reader: it has [readline] and [closed], it is open, but its class
    does not derive from [typing.BinaryIO].  On such a stream holding the
    lines "a" and "b" and the end marker, started through the constructor
    (which is [monitor] after an empty constructor), the worker passes the
    guard, finds the loop condition false, logs "finished" and ends: the
    instance is stopped, the stream is as it was, and standard output has
    received neither line.  No interleaving changes this: under every
    schedule the worker is never at the [for], so it never calls [readline],
    and it never prints a line. *)
Theorem popen_stdout_is_never_read :
  binaryio pipe = false /\ closed pipe = false /\
  feed pipe = map Line (map list_byte_of_string ["a"; "b"]%string) ++ [Line []] /\
  Forall printable (map list_byte_of_string ["a"; "b"]%string) /\
  started_on_pipe = (monitor (Some 0%nat) (__init__ [pipe] None true).2).2 /\
  (exists w',
     run (repeat (Step_worker 0) 3) started_on_pipe = Some w' /\
     threads w' !! 0%nat = Some (Thread true (Some 0%nat) Finished) /\
     is_monitoring w' = (Ok (PyBool false), w') /\
     trace w' = [Printed (Worker 0) (Diag finished)] /\
     content_lines (trace w') = [] /\
     streams w' = [pipe]) /\
  forall sched w', run sched started_on_pipe = Some w' ->
    content_lines (worker_events 0 w') = [] /\
    forall bs,
      threads w' !! 0%nat <> Some (Thread true (Some 0%nat) (Running (AtFor bs))).
Proof.
  split; [reflexivity|]. split; [reflexivity|]. split; [reflexivity|].
  split; [repeat constructor; discriminate|]. split; [reflexivity|]. split.
  - eexists. split; [vm_compute; reflexivity|]. repeat split.
  - intros sched w' R.
    destruct (not_binaryio_run sched started_on_pipe w' 0 0 true pipe AtGuard)
      as [(pc & T & N & E)|(T & E)];
      try (reflexivity || discriminate || exact R || (left; reflexivity)).
    + split; [now rewrite E|].
      intros bs. rewrite T. intros [= ->]. now apply (N bs).
    + split; [now rewrite E|]. rewrite T. discriminate.
Qed.

Lemma popen_stdout_is_never_read_witness :
  content_lines (worker_events 0 (after (repeat (Step_worker 0) 3) started_on_pipe))
  = [].
Proof.
  apply (proj2 (proj2 (proj2 (proj2 (proj2 (proj2 popen_stdout_is_never_read)))))
           (repeat (Step_worker 0) 3)).
  vm_compute. reflexivity.
Defined.

(** ** C3: misuse *)

Lemma self_print_only_logs m w : only_logs [m] w (self_print Caller m w).
Proof. apply (self_print_frame Caller m w). Qed.

(** C3 (as amended): on a reachable instance whose caller is between two
    calls, [monitor(None)], a [stop] while nothing is monitored and a direct
    [__flush] without a worker or without a stream all return without
    raising and change nothing of the instance, its threads or the streams.
    [monitor] and [stop] log one diagnostic, [__flush] without a stream logs
    "finished", and [__flush] without a worker logs two: "nothing is being
    monitored" and then, from [_cleanup], "finished".  All of them are
    written only when [verbose]. *)
Theorem misuse_only_logs (w : world) :
  reachable w ->
  caller w = Idle ->
  (exists m w', monitor None w = (Ok tt, w') /\
     step (Call_monitor None) w = Some w' /\ only_logs [m] w w') /\
  (forall v, is_monitoring w = (Ok v, w) -> truthy v = false ->
     exists w', stop w = (Ok StopReturned, w') /\
       step Call_stop w = Some w' /\ only_logs [stop_but_not_monitoring] w w') /\
  (_output_thread w = None -> forall s,
     exists w', run [Call_flush s; Step_caller; Step_caller] w = Some w' /\
       only_logs [output_thread_is_none; finished] w w') /\
  (_output_thread w <> None ->
     exists w', run [Call_flush None; Step_caller; Step_caller; Step_caller] w = Some w' /\
       only_logs [finished] w w').
Proof.
  intros R C. pose proof (reachable_wf w R) as W.
  destruct (is_monitoring_wf w W) as (v & M).
  repeat split.
  - unfold step, monitor. rewrite C, M.
    destruct (truthy v); eexists _, _;
      (split; [reflexivity|split; [reflexivity|apply self_print_only_logs]]).
  - intros v' M' TV. unfold step, stop. rewrite C, M', TV.
    eexists. split; [reflexivity|split; [reflexivity|apply self_print_only_logs]].
  - intros H s. destruct w as [ot ex vb ev th ss cl tr]. simpl in *. subst.
    unfold step, _cleanup, self_print, only_logs, logged. simpl.
    destruct vb; simpl; eexists; (split; [reflexivity|]); simpl;
      rewrite <- ?app_assoc, ?app_nil_r; repeat split.
  - intros H. destruct w as [ot ex vb ev th ss cl tr]. simpl in *. subst.
    destruct ot as [t|]; [|contradiction].
    unfold step, _cleanup, self_print, only_logs, logged, while_cond. simpl.
    assert (forall b, b && false = false) as A by (intros; apply andb_false_r).
    destruct ex as [e|]; unfold while_cond; simpl; rewrite ?A;
      destruct vb; simpl; eexists; (split; [reflexivity|]); simpl;
      rewrite ?app_nil_r; repeat split.
Qed.

Lemma misuse_only_logs_witness :
  reachable unstarted /\ caller unstarted = Idle /\
  (exists m w', monitor None unstarted = (Ok tt, w') /\
     step (Call_monitor None) unstarted = Some w' /\ only_logs [m] unstarted w') /\
  (forall v, is_monitoring unstarted = (Ok v, unstarted) -> truthy v = false ->
     exists w', stop unstarted = (Ok StopReturned, w') /\
       step Call_stop unstarted = Some w' /\
       only_logs [stop_but_not_monitoring] unstarted w') /\
  (_output_thread unstarted = None -> forall s,
     exists w', run [Call_flush s; Step_caller; Step_caller] unstarted = Some w' /\
       only_logs [output_thread_is_none; finished] unstarted w') /\
  (_output_thread unstarted <> None ->
     exists w',
       run [Call_flush None; Step_caller; Step_caller; Step_caller] unstarted = Some w' /\
       only_logs [finished] unstarted w').
Proof.
  assert (R : reachable unstarted) by (exists [abcd], None, true, []; reflexivity).
  split; [exact R|]. split; [reflexivity|].
  exact (misuse_only_logs unstarted R eq_refl).
Defined.

(** C3 (as stated) fails: [__flush] called on an instance that has no worker
    prints two diagnostics, not at most one. *)
Lemma flush_without_worker_logs_twice :
  _output_thread unstarted = None /\
  exists w',
    run [Call_flush None; Step_caller; Step_caller] unstarted = Some w' /\
    caller w' = Idle /\
    stdout_lines (trace w') = [Diag output_thread_is_none; Diag finished].
Proof. split; [reflexivity|]. eexists. repeat split. Qed.

(** ** C6: the worker handle *)

Lemma truthy_handle w v :
  is_monitoring w = (Ok v, w) -> truthy v = true -> _output_thread w <> None.
Proof.
  unfold is_monitoring. destruct (_output_thread w); [discriminate|].
  intros [= <-]. discriminate.
Qed.

Lemma step_handle_same act w w' :
  (forall sid, act <> Call_monitor (Some sid)) ->
  step act w = Some w' -> _output_thread w' = _output_thread w.
Proof.
  intros NM. unfold step. intros H. destruct act as [s| | |s| |t|i].
  - destruct s as [sid|]; [now destruct (NM sid)|].
    destruct (caller w); try discriminate.
    destruct (monitor None w) as [r w1] eqn:M.
    assert (_output_thread w1 = _output_thread w) as E.
    { apply monitor_cases in M as [(e & _ & ->)|[(_ & ->)|[(_ & _ & ->)|(_ & N & _)]]];
        try reflexivity; try apply self_print_frame. contradiction. }
    destruct r; injection H as <-; exact E.
  - destruct (caller w); try discriminate.
    destruct (stop w) as [r w1] eqn:M.
    assert (_output_thread w1 = _output_thread w) as E.
    { apply stop_cases in M as [(e & _ & ->)|[(_ & ->)|(t & e & _ & _ & _ & ->)]];
        try reflexivity. apply self_print_frame. }
    destruct r as [[|t]|e]; injection H as <-; exact E.
  - destruct (caller w); try discriminate.
    destruct (is_alive _ w); [discriminate|]. now injection H as <-.
  - destruct (caller w); try discriminate. now injection H as <-.
  - destruct (caller w) as [| |s pc|]; try discriminate.
    destruct (__flush Caller s pc w) as [o w1] eqn:F. injection H as <-.
    apply flush_frame in F. apply F.
  - destruct (threads w !! t) as [[d s [pc| |]]|]; try discriminate.
    destruct (__flush (Worker t) s pc w) as [o w1] eqn:F. injection H as <-.
    apply flush_frame in F. destruct F as (F & _).
    pose proof (set_tstate_frame t (thread_after o) w1) as G. cbv zeta in G.
    destruct G as (-> & _). exact F.
  - destruct (streams w !! i); [|discriminate]. now injection H as <-.
Qed.

Lemma monitor_stream_sets_handle sid w w' :
  wf w -> step (Call_monitor (Some sid)) w = Some w' -> _output_thread w' <> None.
Proof.
  intros W. unfold step. destruct (caller w) eqn:C; try discriminate.
  unfold monitor. destruct (is_monitoring_wf w W) as (v & M). rewrite M.
  destruct (truthy v) eqn:TV; intros [= <-].
  - pose proof (self_print_frame Caller already_monitoring w) as G. cbv zeta in G.
    destruct G as (-> & _). eapply truthy_handle; eauto.
  - discriminate.
Qed.

Lemma run_handle_iff sched : forall w w',
  wf w -> run sched w = Some w' ->
  (_output_thread w' <> None <->
   _output_thread w <> None \/ exists sid, In (Call_monitor (Some sid)) sched).
Proof.
  induction sched as [|act rest IH]; simpl; intros w w' W.
  - intros [= <-]. split; [auto|]. intros [?|(? & [])]. assumption.
  - destruct (step act w) as [w1|] eqn:S; [|discriminate]. intros R.
    pose proof (step_wf _ _ _ W S) as W1.
    rewrite (IH _ _ W1 R). split.
    + intros [H|(sid & I)]; [|right; eauto].
      destruct act as [[sid|]| | | | | |]; try (right; eauto; fail);
        left; erewrite <- step_handle_same; eauto; discriminate.
    + intros [H|(sid & [->|I])]; [| |right; eauto].
      * left. exact (step_handle act w w1 S H).
      * left. exact (monitor_stream_sets_handle sid w w1 W S).
Qed.

(** C6 (as amended): a worker handle is present if and only if [monitor] has
    been given a stream at least once (by the constructor or by a call); once
    set it is never cleared, only replaced.  The instance is not single-use:
    [monitor] with a stream is refused (with the "already monitoring"
    diagnostic) exactly while [is_monitoring] is truthy, and otherwise it
    starts a new worker on the given stream and makes it the handle. *)
Theorem worker_handle_history
    (env : list stream) (s : option nat) (verb : bool)
    (sched : list action) (w : world) :
  run sched (__init__ env s verb).2 = Some w ->
  (_output_thread w <> None <->
   s <> None \/ exists sid, In (Call_monitor (Some sid)) sched) /\
  (forall sched' w', run sched' w = Some w' ->
     _output_thread w <> None -> _output_thread w' <> None) /\
  (caller w = Idle -> forall sid,
     exists v, is_monitoring w = (Ok v, w) /\
       (truthy v = true ->
        step (Call_monitor (Some sid)) w
        = Some (self_print Caller already_monitoring w)) /\
       (truthy v = false ->
        exists w', step (Call_monitor (Some sid)) w = Some w' /\
          _output_thread w' = Some (length (threads w)) /\
          threads w' = threads w ++ [Thread true (Some sid) (Running AtGuard)])).
Proof.
  intros R.
  assert (W0 : wf (__init__ env s verb).2).
  { apply reachable_wf. exists env, s, verb, []. reflexivity. }
  assert (W : wf w) by (eapply run_wf; eauto).
  split; [|split].
  - rewrite (run_handle_iff _ _ _ W0 R).
    assert (_output_thread (__init__ env s verb).2 <> None <-> s <> None) as ->;
      [|reflexivity].
    unfold __init__. destruct s as [sid|]; simpl; split; congruence.
  - intros sched' w'. apply run_handle.
  - intros C sid. destruct (is_monitoring_wf w W) as (v & M).
    exists v. split; [exact M|]. unfold step, monitor. rewrite C, M.
    split; intros ->; [reflexivity|].
    eexists. split; [reflexivity|]. split; reflexivity.
Qed.

Lemma worker_handle_history_witness :
  run [Step_worker 0; Step_worker 0; Step_worker 0]
      (__init__ [abcd] (Some 0%nat) true).2 = Some midburst /\
  (_output_thread midburst <> None <->
   Some 0%nat <> None \/
   exists sid, In (Call_monitor (Some sid))
                  [Step_worker 0; Step_worker 0; Step_worker 0]) /\
  (forall sched' w', run sched' midburst = Some w' ->
     _output_thread midburst <> None -> _output_thread w' <> None) /\
  (caller midburst = Idle -> forall sid,
     exists v, is_monitoring midburst = (Ok v, midburst) /\
       (truthy v = true ->
        step (Call_monitor (Some sid)) midburst
        = Some (self_print Caller already_monitoring midburst)) /\
       (truthy v = false ->
        exists w', step (Call_monitor (Some sid)) midburst = Some w' /\
          _output_thread w' = Some (length (threads midburst)) /\
          threads w' = threads midburst ++ [Thread true (Some sid) (Running AtGuard)])).
Proof.
  assert (R : run [Step_worker 0; Step_worker 0; Step_worker 0]
                  (__init__ [abcd] (Some 0%nat) true).2 = Some midburst)
    by (vm_compute; reflexivity).
  split; [exact R|].
  exact (worker_handle_history [abcd] (Some 0%nat) true _ midburst R).
Defined.

(** C6 (as stated) fails twice.  After a call [monitor(None)] there is still
    no worker handle; and an instance whose worker has finished accepts a
    second stream: the call starts a new worker and replaces the handle. *)
Lemma handle_not_single_use :
  (exists w', run [Call_monitor None] unstarted = Some w' /\
              _output_thread w' = None) /\
  (_output_thread first_done = Some 0%nat /\ is_alive 0 first_done = false /\
   exists w', run [Call_monitor (Some 1%nat)] first_done = Some w' /\
     _output_thread w' = Some 1%nat /\
     threads w' !! 1%nat = Some (Thread true (Some 1%nat) (Running AtGuard)) /\
     (is_monitoring w').1 = Ok (PyBool true)).
Proof.
  split; [eexists; split; vm_compute; reflexivity|].
  do 2 (split; [vm_compute; reflexivity|]).
  eexists. split; [vm_compute; reflexivity|]. repeat split.
Qed.

(** * Further properties of the code *)

(** ** Induction over reachable worlds *)

Lemma init_world env s verb :
  (__init__ env s verb).2 =
  match s with
  | Some sid => World (Some 0%nat) (Some 0%nat) verb [false]
                      [Thread true (Some sid) (Running AtGuard)] env Idle []
  | None => World None None verb [] [] env Idle []
  end.
Proof. destruct s; reflexivity. Qed.

Lemma reachable_induction (P : world -> Prop) :
  (forall env s verb, P (__init__ env s verb).2) ->
  (forall act w w', reachable w -> P w -> step act w = Some w' -> P w') ->
  forall w, reachable w -> P w.
Proof.
  intros H0 HS w (env & s & verb & sched & R). revert w R.
  induction sched as [|act sched IH] using rev_ind; intros w R.
  - injection R as <-. apply H0.
  - rewrite run_app in R.
    destruct (run sched (__init__ env s verb).2) as [w1|] eqn:R1; [|discriminate].
    cbn [run] in R. destruct (step act w1) as [w2|] eqn:S; [|discriminate].
    injection R as <-. apply (HS act w1 w2); auto.
    exists env, s, verb, sched. exact R1.
Qed.

Lemma midburst_reachable : reachable midburst.
Proof.
  exists [abcd], (Some 0%nat), true, [Step_worker 0; Step_worker 0; Step_worker 0].
  vm_compute. reflexivity.
Qed.

(** ** One live worker *)

(** X1: at every moment at most one worker of the instance is alive, and it
    is the one [_output_thread] refers to: [monitor] starts a thread only when
    [is_monitoring] is falsy, which in a reachable state means that no thread
    is alive. *)
Theorem one_live_worker (w : world) (t u : nat) :
  reachable w -> is_alive t w = true -> is_alive u w = true ->
  t = u /\ _output_thread w = Some t.
Proof.
  intros R A B. pose proof (reachable_wf w R) as W.
  pose proof (wf_alive w W t A) as HT. pose proof (wf_alive w W u B) as HU.
  split; [congruence|exact HT].
Qed.

Lemma one_live_worker_witness :
  is_alive 0 midburst = true /\
  (0%nat = 0%nat /\ _output_thread midburst = Some 0%nat).
Proof.
  split; [reflexivity|].
  apply (one_live_worker midburst 0 0 midburst_reachable); reflexivity.
Defined.

(** ** What [stop] and [monitor] compose to *)

Lemma step_threads act w w' :
  step act w = Some w' ->
  threads w' = threads w \/
  (exists sid, act = Call_monitor (Some sid) /\
     threads w' = threads w ++ [Thread true (Some sid) (Running AtGuard)]) \/
  (exists t th ts, act = Step_worker t /\ threads w !! t = Some th /\
     threads w' = <[t := Thread (daemon th) (args th) ts]> (threads w)).
Proof.
  unfold step. intros H. destruct act as [s| | |s| |t|i].
  - destruct (caller w); try discriminate.
    destruct (monitor s w) as [r w1] eqn:M.
    assert (threads w1 = threads w \/
            exists sid, s = Some sid /\
              threads w1 = threads w ++ [Thread true (Some sid) (Running AtGuard)]) as K.
    { apply monitor_cases in M as [(e & _ & ->)|[(_ & ->)|[(_ & _ & ->)|(_ & N & ->)]]];
        try (left; reflexivity); try (left; apply self_print_frame).
      right. destruct s as [sid|]; [|contradiction]. eauto. }
    destruct r; injection H as <-; simpl;
      (destruct K as [K|(sid & -> & K)]; [left; exact K|right; left; eauto]).
  - destruct (caller w); try discriminate.
    destruct (stop w) as [r w1] eqn:M.
    assert (threads w1 = threads w) as K.
    { apply stop_cases in M as [(e & _ & ->)|[(_ & ->)|(t & e & _ & _ & _ & ->)]];
        try reflexivity. apply self_print_frame. }
    destruct r as [[|t]|e]; injection H as <-; left; exact K.
  - destruct (caller w); try discriminate.
    destruct (is_alive _ w); [discriminate|]. injection H as <-. now left.
  - destruct (caller w); try discriminate. injection H as <-. now left.
  - destruct (caller w) as [| |s pc|]; try discriminate.
    destruct (__flush Caller s pc w) as [o w1] eqn:F. injection H as <-.
    apply flush_frame in F. left. simpl. tauto.
  - destruct (threads w !! t) as [[d s [pc| |]]|] eqn:T; try discriminate.
    destruct (__flush (Worker t) s pc w) as [o w1] eqn:F. injection H as <-.
    apply flush_frame in F. destruct F as (_ & _ & _ & _ & TH & _).
    right. right. exists t, (Thread d s (Running pc)), (thread_after o).
    split; [reflexivity|]. split; [exact T|].
    unfold set_tstate. rewrite TH, T. reflexivity.
  - destruct (streams w !! i); [|discriminate]. injection H as <-. now left.
Qed.

(** X2: every [Thread] the instance ever created is a daemon thread and was
    given a stream: [monitor] returns before creating one when the stream is
    [None]. *)
Theorem workers_are_daemons (w : world) (t : nat) (th : thread) :
  reachable w -> threads w !! t = Some th ->
  daemon th = true /\ exists sid, args th = Some sid.
Proof.
  intros R. revert t th. pattern w. revert w R. apply reachable_induction.
  - intros env s verb t th. rewrite init_world. destruct s as [sid|]; simpl.
    + destruct t as [|t]; [|discriminate]. intros [= <-]. simpl. eauto.
    + discriminate.
  - intros act w w' _ IH S t th L.
    destruct (step_threads _ _ _ S) as [E|[(sid & _ & E)|(u & th0 & ts & _ & U & E)]];
      rewrite E in L.
    + eauto.
    + apply lookup_app_Some in L as [L|[_ L]]; [eauto|].
      destruct (t - length (threads w))%nat as [|n]; [|discriminate].
      injection L as <-. simpl. eauto.
    + destruct (decide (u = t)) as [->|N].
      * rewrite list_lookup_insert_eq in L by (eapply lookup_lt_Some; eauto).
        injection L as <-. simpl. eauto.
      * rewrite list_lookup_insert_ne in L by done. eauto.
Qed.

Lemma workers_are_daemons_witness :
  let th := Thread true (Some 0%nat) (Running (AtFor 0)) in
  threads midburst !! 0%nat = Some th /\
  (daemon th = true /\ exists sid, args th = Some sid).
Proof.
  intros th. split; [reflexivity|].
  apply (workers_are_daemons midburst 0 th midburst_reachable). reflexivity.
Defined.

(** ** The exit signal *)

Lemma step_events act w w' :
  step act w = Some w' ->
  events w' = events w \/ events w' = events w ++ [false] \/
  (act = Call_stop /\ exists e, events w' = <[e := true]> (events w)).
Proof.
  unfold step. intros H. destruct act as [s| | |s| |t|i].
  - destruct (caller w); try discriminate.
    destruct (monitor s w) as [r w1] eqn:M.
    assert (events w1 = events w \/ events w1 = events w ++ [false]) as K.
    { apply monitor_cases in M as [(e & _ & ->)|[(_ & ->)|[(_ & _ & ->)|(_ & N & ->)]]];
        try (left; reflexivity); try (left; apply self_print_frame).
      right. reflexivity. }
    destruct r; injection H as <-; simpl; tauto.
  - destruct (caller w); try discriminate.
    destruct (stop w) as [r w1] eqn:M.
    assert (events w1 = events w \/ exists e, events w1 = <[e := true]> (events w)) as K.
    { apply stop_cases in M as [(e & _ & ->)|[(_ & ->)|(t & e & _ & _ & _ & ->)]];
        try (left; reflexivity); try (left; apply self_print_frame).
      right. exists e. reflexivity. }
    destruct r as [[|t]|e]; injection H as <-; simpl;
      (destruct K as [K|K]; [left; exact K|right; right; split; [reflexivity|exact K]]).
  - destruct (caller w); try discriminate.
    destruct (is_alive _ w); [discriminate|]. injection H as <-. now left.
  - destruct (caller w); try discriminate. injection H as <-. now left.
  - destruct (caller w) as [| |s pc|]; try discriminate.
    destruct (__flush Caller s pc w) as [o w1] eqn:F. injection H as <-.
    apply flush_frame in F. left. simpl. tauto.
  - destruct (background_frame (Step_worker t) w w' eq_refl H) as (_ & _ & _ & E & _).
    now left.
  - destruct (background_frame (Env_close i) w w' eq_refl H) as (_ & _ & _ & E & _).
    now left.
Qed.

Lemma unset_run sched : forall w w',
  run sched w = Some w' -> ~ In Call_stop sched ->
  Forall (fun flag => flag = false) (events w) ->
  Forall (fun flag => flag = false) (events w').
Proof.
  induction sched as [|act rest IH]; simpl; intros w w'.
  - now intros [= <-].
  - destruct (step act w) as [w1|] eqn:S; [|discriminate]. intros R N F.
    apply (IH w1 w' R); [tauto|].
    destruct (step_events _ _ _ S) as [E|[E|(E & _)]].
    + now rewrite E.
    + rewrite E. apply Forall_app. split; [exact F|]. now constructor.
    + subst act. tauto.
Qed.

(** X3: only [stop] sets an exit signal: in an execution without a call of
    [stop], no [Event] of the instance is ever set, whatever the workers and
    the environment do. *)
Theorem exit_set_only_by_stop
    (env : list stream) (s : option nat) (verb : bool)
    (sched : list action) (w : world) (e : nat) :
  run sched (__init__ env s verb).2 = Some w ->
  ~ In Call_stop sched ->
  is_set e w = false.
Proof.
  intros R N.
  assert (F : Forall (fun flag => flag = false) (events w)).
  { apply (unset_run sched _ w R N). rewrite init_world.
    destruct s; simpl; repeat constructor. }
  unfold is_set. destruct (events w !! e) as [flag|] eqn:L; [|reflexivity].
  rewrite Forall_forall in F. apply F.
  apply list_elem_of_lookup. eauto.
Qed.

Lemma exit_set_only_by_stop_witness : is_set 0 midburst = false.
Proof.
  apply (exit_set_only_by_stop [abcd] (Some 0%nat) true
           [Step_worker 0; Step_worker 0; Step_worker 0] midburst 0).
  - vm_compute. reflexivity.
  - intros [H|[H|[H|[]]]]; discriminate.
Defined.

(** ** Diagnostics are gated by [verbose] *)

Lemma logged_quiet a ms : logged false a ms = [].
Proof. reflexivity. Qed.

Lemma flush_quiet a s pc w o w' :
  verbose w = false -> __flush a s pc w = (o, w') ->
  exists evs, trace w' = trace w ++ evs /\ Forall (fun e => is_diag e = false) evs.
Proof.
  intros V. unfold __flush, _cleanup, self_print. rewrite V. intros H.
  repeat match type of H with
  | (match ?x with _ => _ end) = _ => destruct x eqn:?
  | (if ?x then _ else _) = _ => destruct x eqn:?
  | (let (_, _) := ?x in _) = _ => destruct x eqn:?
  end;
  inversion H; subst; clear H; simpl; rewrite ?V; simpl;
  try (exists []; split; [now rewrite app_nil_r|constructor]).
  - eexists. split; [rewrite <- app_assoc; reflexivity|]. repeat constructor.
  - eexists. split; [reflexivity|]. repeat constructor.
Qed.

Lemma step_quiet act w w' :
  verbose w = false -> step act w = Some w' ->
  exists evs, trace w' = trace w ++ evs /\ Forall (fun e => is_diag e = false) evs.
Proof.
  intros V.
  assert (N : exists evs, trace w = trace w ++ evs /\
                          Forall (fun e => is_diag e = false) evs)
    by (exists []; split; [now rewrite app_nil_r|constructor]).
  assert (P : forall m, self_print Caller m w = w)
    by (intros m; unfold self_print; now rewrite V).
  unfold step. intros H. destruct act as [s| | |s| |t|i].
  - destruct (caller w); try discriminate.
    destruct (monitor s w) as [r w1] eqn:M.
    assert (trace w1 = trace w) as K.
    { apply monitor_cases in M as [(e & _ & ->)|[(_ & ->)|[(_ & _ & ->)|(_ & _ & ->)]]];
        rewrite ?P; reflexivity. }
    destruct r; injection H as <-; simpl; rewrite K; exact N.
  - destruct (caller w); try discriminate.
    destruct (stop w) as [r w1] eqn:M.
    assert (trace w1 = trace w \/ trace w1 = trace w ++ [Slept Caller]) as K.
    { apply stop_cases in M as [(e & _ & ->)|[(_ & ->)|(t & e & _ & _ & _ & ->)]];
        rewrite ?P; auto. }
    destruct r as [[|t]|e]; injection H as <-; simpl;
      (destruct K as [-> | ->]; [exact N|]);
      (eexists; split; [reflexivity|repeat constructor]).
  - destruct (caller w); try discriminate.
    destruct (is_alive _ w); [discriminate|]. injection H as <-. exact N.
  - destruct (caller w); try discriminate. injection H as <-. exact N.
  - destruct (caller w) as [| |s pc|]; try discriminate.
    destruct (__flush Caller s pc w) as [o w1] eqn:F. injection H as <-.
    apply (flush_quiet _ _ _ _ _ _ V F).
  - destruct (threads w !! t) as [[d s [pc| |]]|] eqn:T; try discriminate.
    destruct (__flush (Worker t) s pc w) as [o w1] eqn:F. injection H as <-.
    pose proof (set_tstate_frame t (thread_after o) w1) as G. cbv zeta in G.
    destruct G as (_ & _ & _ & _ & _ & _ & _ & ->).
    apply (flush_quiet _ _ _ _ _ _ V F).
  - destruct (streams w !! i); [|discriminate]. injection H as <-. exact N.
Qed.

Lemma quiet_run sched : forall w w',
  verbose w = false -> run sched w = Some w' ->
  Forall (fun e => is_diag e = false) (trace w) ->
  Forall (fun e => is_diag e = false) (trace w').
Proof.
  induction sched as [|act rest IH]; simpl; intros w w' V.
  - now intros [= <-].
  - destruct (step act w) as [w1|] eqn:S; [|discriminate]. intros R F.
    destruct (step_quiet _ _ _ V S) as (evs & TR & Q).
    apply (IH w1 w'); [now rewrite (step_verbose _ _ _ S)|exact R|].
    rewrite TR. apply Forall_app. tauto.
Qed.

(** X4: an instance constructed with [verbose=False] never prints a
    diagnostic, in any execution: everything it writes to standard output is
    a decoded line of a stream. *)
Theorem quiet_unless_verbose
    (env : list stream) (s : option nat) (sched : list action) (w : world) :
  run sched (__init__ env s false).2 = Some w ->
  Forall (fun e => is_diag e = false) (trace w) /\
  stdout_lines (trace w) = map Content (content_lines (trace w)).
Proof.
  intros R.
  assert (Q : Forall (fun e => is_diag e = false) (trace w)).
  { apply (quiet_run sched (__init__ env s false).2 w);
      [rewrite init_world; now destruct s|exact R|].
    rewrite init_world. destruct s; constructor. }
  split; [exact Q|].
  induction Q as [|e tr D _ IH]; [reflexivity|].
  destruct e as [a [text|m]|a]; simpl in *; try discriminate;
    unfold stdout_lines, content_lines in *; simpl; now rewrite ?IH.
Qed.

Lemma quiet_unless_verbose_witness :
  Forall (fun e => is_diag e = false) (trace quiet_midburst) /\
  stdout_lines (trace quiet_midburst)
  = map Content (content_lines (trace quiet_midburst)).
Proof.
  apply (quiet_unless_verbose [abcd] (Some 0%nat)
           [Step_worker 0; Step_worker 0; Step_worker 0] quiet_midburst).
  vm_compute. reflexivity.
Defined.

(** ** The calls never raise *)

(** X5: on a reachable instance neither [monitor], whatever its argument,
    nor [stop] raises: [self._exit] is never [None] when [is_monitoring] or
    [stop] dereference it. *)
Theorem calls_never_raise (w : world) :
  reachable w ->
  (forall s, exists w', monitor s w = (Ok tt, w')) /\
  (exists p w', stop w = (Ok p, w')).
Proof.
  intros R. pose proof (reachable_wf w R) as W.
  destruct (is_monitoring_wf w W) as (v & M). split.
  - intros s. unfold monitor. rewrite M.
    destruct (truthy v); [eauto|]. destruct s; eauto.
  - destruct (truthy v) eqn:TV.
    + destruct (stop_monitoring w v W M TV) as (t & e & _ & _ & S). eauto.
    + unfold stop. rewrite M, TV. eauto.
Qed.

Lemma calls_never_raise_witness :
  (forall s, exists w', monitor s midburst = (Ok tt, w')) /\
  (exists p w', stop midburst = (Ok p, w')).
Proof. exact (calls_never_raise midburst midburst_reachable). Defined.

(** ** Reads that fail *)

(** X6: when [readline] raises something that is neither a [ValueError]
    nor [StopIteration], the exception is not caught: the worker dies of it
    at once, without the "closed" or the "finished" diagnostic and without
    touching the caller; the read is consumed, and the dead worker never
    prints again.  A [StopIteration] out of [readline] is no such error: the
    iterator of the [for] absorbs it, so it only ends the burst, and the
    worker is back at the loop condition, alive, having printed nothing. *)
Theorem other_error_kills_worker
    (w : world) (t sid : nat) (d : bool) (bs : Z) (st : stream)
    (rest : list read_result) :
  threads w !! t = Some (Thread d (Some sid) (Running (AtFor bs))) ->
  streams w !! sid = Some st ->
  (forall e, feed st = ReadRaises e :: rest ->
     isinstance_ValueError e = false ->
     exists w1,
       step (Step_worker t) w = Some w1 /\
       threads w1 !! t = Some (Thread d (Some sid) (Died e)) /\
       is_alive t w1 = false /\
       trace w1 = trace w /\ caller w1 = caller w /\
       streams w1 !! sid = Some (Stream (binaryio st) (closed st) rest) /\
       forall sched w', run sched w1 = Some w' ->
         threads w' !! t = Some (Thread d (Some sid) (Died e)) /\
         worker_events t w' = worker_events t w) /\
  (feed st = MockStream.as_read MockStream.StopIteration :: rest ->
     exists w1,
       step (Step_worker t) w = Some w1 /\
       threads w1 !! t = Some (Thread d (Some sid) (Running AtWhile)) /\
       is_alive t w1 = true /\
       trace w1 = trace w /\ caller w1 = caller w /\
       streams w1 !! sid = Some (Stream (binaryio st) (closed st) rest)).
Proof.
  intros T S.
  pose proof (flush_for (Worker t) sid bs w st S) as F.
  unfold readline in F. split.
  - intros e FD VE. rewrite FD, VE in F. cbv zeta in F.
    destruct (worker_step t d (Some sid) (AtFor bs) w _ _ T F)
      as (S1 & T1 & TR1 & ST1 & _ & C1 & _). cbv zeta in *.
    match type of S1 with _ = Some ?x => set (w1 := x) in * end.
    assert (D1 : is_alive t w1 = false) by (unfold is_alive; now rewrite T1).
    exists w1. split; [exact S1|]. split; [exact T1|]. split; [exact D1|].
    split; [exact TR1|]. split; [exact C1|]. split.
    + rewrite ST1. simpl. apply list_lookup_insert_eq. eapply lookup_lt_Some; eauto.
    + intros sched w' R. destruct (dead_run _ _ _ _ _ T1 D1 R) as (T2 & E2).
      split; [exact T2|]. rewrite E2. unfold worker_events. now rewrite TR1.
  - intros FD. cbn [MockStream.as_read] in FD. rewrite FD in F. cbv zeta in F.
    destruct (worker_step t d (Some sid) (AtFor bs) w _ _ T F)
      as (S1 & T1 & TR1 & ST1 & _ & C1 & _). cbv zeta in *.
    match type of S1 with _ = Some ?x => set (w1 := x) in * end.
    exists w1. split; [exact S1|]. split; [exact T1|].
    split; [unfold is_alive; now rewrite T1|].
    split; [exact TR1|]. split; [exact C1|].
    rewrite ST1. simpl. apply list_lookup_insert_eq. eapply lookup_lt_Some; eauto.
Qed.

Lemma other_error_kills_worker_witness :
  (exists w1,
     step (Step_worker 0) reading_broken = Some w1 /\
     threads w1 !! 0%nat = Some (Thread true (Some 0%nat) (Died OtherError)) /\
     is_alive 0 w1 = false /\
     trace w1 = trace reading_broken /\ caller w1 = caller reading_broken /\
     streams w1 !! 0%nat
     = Some (Stream (binaryio broken) (closed broken) [ascii_line "a"; Line []]) /\
     forall sched w', run sched w1 = Some w' ->
       threads w' !! 0%nat = Some (Thread true (Some 0%nat) (Died OtherError)) /\
       worker_events 0 w' = worker_events 0 reading_broken) /\
  (exists w1,
     step (Step_worker 0) (after (repeat (Step_worker 0) 6) started) = Some w1 /\
     threads w1 !! 0%nat = Some (Thread true (Some 0%nat) (Running AtWhile)) /\
     is_alive 0 w1 = true /\
     trace w1 = trace (after (repeat (Step_worker 0) 6) started) /\
     caller w1 = caller (after (repeat (Step_worker 0) 6) started) /\
     streams w1 !! 0%nat = Some (Stream true false [])).
Proof.
  split.
  - apply (proj1 (other_error_kills_worker reading_broken 0 0 true 0 broken
                    [ascii_line "a"; Line []] eq_refl eq_refl) OtherError);
      reflexivity.
  - apply (proj2 (other_error_kills_worker
                    (after (repeat (Step_worker 0) 6) started) 0 0 true 0
                    (Stream true false [Line []]) [] eq_refl eq_refl)).
    reflexivity.
Defined.



(** ** Bursts *)

Lemma repeat_snoc {A} (a : A) n : repeat a (S n) = repeat a n ++ [a].
Proof. induction n as [|n IH]; [reflexivity|]. simpl in *. now rewrite <- IH. Qed.

(** One burst, from the loop condition back to the loop condition. *)
Lemma one_burst w t d sid st e b rest :
  threads w !! t = Some (Thread d (Some sid) (Running AtWhile)) ->
  streams w !! sid = Some st -> binaryio st = true -> closed st = false ->
  _exit w = Some e -> is_set e w = false ->
  feed st = map Line b ++ Line [] :: rest -> Forall printable b ->
  exists w1,
    run (repeat (Step_worker t) (S (S (length b)))) w = Some w1 /\
    threads w1 !! t = Some (Thread d (Some sid) (Running AtWhile)) /\
    streams w1 !! sid = Some (Stream true false rest) /\
    _exit w1 = Some e /\ is_set e w1 = false /\
    verbose w1 = verbose w /\ caller w1 = caller w /\
    trace w1 = trace w ++ burst_events t b.
Proof.
  intros T L B CL E NS FD P.
  assert (C : while_cond (Some sid) w = true) by (apply while_cond_spec; eauto 10).
  assert (Fa : __flush (Worker t) (Some sid) AtWhile w = (Goto (AtFor 0), w))
    by (simpl; now rewrite C).
  destruct (worker_step t d _ _ w _ _ T Fa)
    as (Sa & Ta & TRa & STa & Va & Ca & Ea & EVa & _). cbv zeta in *.
  match type of Sa with _ = Some ?x => set (wa := x) in * end.
  assert (Sa' : streams wa !! sid = Some st) by (now rewrite STa).
  pose proof (burst_run b wa t d sid st (Line [] :: rest) Ta Sa' FD P) as Rb.
  rewrite B, CL in Rb.
  match type of Rb with _ = Some ?x => set (wb := x) in * end.
  assert (Tb : threads wb !! t = Some (Thread d (Some sid) (Running (AtFor 0))))
    by exact Ta.
  assert (Sb : streams wb !! sid = Some (Stream true false (Line [] :: rest))).
  { simpl. apply list_lookup_insert_eq. eapply lookup_lt_Some; eauto. }
  pose proof (flush_for (Worker t) sid 0 wb _ Sb) as Fc.
  unfold readline in Fc. cbn [feed binaryio closed] in Fc. cbv zeta in Fc.
  destruct (worker_step t d _ _ wb _ _ Tb Fc)
    as (Sc & Tc & TRc & STc & Vc & Cc & Ec & EVc & _). cbv zeta in *.
  match type of Sc with _ = Some ?x => set (w1 := x) in * end.
  exists w1. split.
  { rewrite (repeat_snoc _ (S (length b))). cbn [repeat app run].
    rewrite Sa, run_app, Rb. cbn [run]. now rewrite Sc. }
  split; [exact Tc|]. split.
  { rewrite STc. simpl. rewrite list_insert_insert_eq.
    apply list_lookup_insert_eq. eapply lookup_lt_Some; eauto. }
  split; [rewrite Ec; simpl; congruence|].
  split; [unfold is_set in *; rewrite EVc; simpl; now rewrite EVa|].
  split; [rewrite Vc; simpl; exact Va|].
  split; [rewrite Cc; simpl; exact Ca|].
  rewrite TRc. simpl. now rewrite TRa.
Qed.

Lemma burst_events_app t ls1 ls2 :
  burst_events t (ls1 ++ ls2) = burst_events t ls1 ++ burst_events t ls2.
Proof. unfold burst_events. apply flat_map_app. Qed.

(** X8: a worker at its loop condition, with the exit signal unset and an
    open [BinaryIO] stream whose reads deliver the bursts [bs] (each a
    sequence of printable lines closed by an empty read), prints the lines of
    all the bursts in order, yielding after each, and is back at the loop
    condition, having consumed exactly those reads. *)
Theorem bursts_are_printed
    (w : world) (t sid : nat) (d : bool) (st : stream) (e : nat)
    (bs : list (list (list byte))) (rest : list read_result) :
  threads w !! t = Some (Thread d (Some sid) (Running AtWhile)) ->
  streams w !! sid = Some st ->
  binaryio st = true ->
  closed st = false ->
  _exit w = Some e ->
  is_set e w = false ->
  feed st = burst_feed bs ++ rest ->
  Forall (Forall printable) bs ->
  exists w1,
    run (repeat (Step_worker t) (burst_steps bs)) w = Some w1 /\
    threads w1 !! t = Some (Thread d (Some sid) (Running AtWhile)) /\
    streams w1 !! sid = Some (Stream true false rest) /\
    trace w1 = trace w ++ burst_events t (concat bs) /\
    content_lines (trace w1)
    = content_lines (trace w) ++ map string_of_list_byte (concat bs).
Proof.
  intros T S B CL E NS FD P.
  cut (exists w1,
    run (repeat (Step_worker t) (burst_steps bs)) w = Some w1 /\
    threads w1 !! t = Some (Thread d (Some sid) (Running AtWhile)) /\
    streams w1 !! sid = Some (Stream true false rest) /\
    trace w1 = trace w ++ burst_events t (concat bs)).
  { intros (w1 & R1 & T1 & S1 & TR1). exists w1. repeat split; try assumption.
    rewrite TR1, content_lines_app. f_equal.
    generalize (concat bs). intros ls.
    induction ls as [|l ls IH]; [reflexivity|]. simpl in *. now rewrite <- IH. }
  revert w st T S B CL E NS FD.
  induction P as [|b bs Pb _ IH]; intros w st T S B CL E NS FD.
  - exists w. simpl in *. rewrite app_nil_r. repeat split; try assumption.
    rewrite S. f_equal. destruct st; simpl in *. congruence.
  - unfold burst_feed in FD. cbn [map concat] in FD.
    rewrite <- !app_assoc in FD. cbn [app] in FD.
    destruct (one_burst w t d sid st e b _ T S B CL E NS FD Pb)
      as (w1 & R1 & T1 & S1 & E1 & NS1 & _ & _ & TR1).
    destruct (IH w1 (Stream true false (burst_feed bs ++ rest)) T1 S1
                 eq_refl eq_refl E1 NS1 eq_refl)
      as (w2 & R2 & T2 & S2 & TR2).
    exists w2. split.
    { unfold burst_steps. cbn [sum_list_with].
      rewrite repeat_app, run_app. fold (burst_steps bs). now rewrite R1. }
    split; [exact T2|]. split; [exact S2|].
    rewrite TR2, TR1. cbn [concat]. now rewrite burst_events_app, app_assoc.
Qed.

Lemma bursts_are_printed_witness :
  exists w1,
    run (repeat (Step_worker 0) (burst_steps two_bursts)) at_loop_head = Some w1 /\
    threads w1 !! 0%nat = Some (Thread true (Some 0%nat) (Running AtWhile)) /\
    streams w1 !! 0%nat = Some (Stream true false []) /\
    trace w1 = trace at_loop_head ++ burst_events 0 (concat two_bursts) /\
    content_lines (trace w1)
    = content_lines (trace at_loop_head)
      ++ map string_of_list_byte (concat two_bursts).
Proof.
  apply (bursts_are_printed at_loop_head 0 0 true
           (Stream true false (burst_feed two_bursts)) 0 two_bursts []);
    try reflexivity.
  repeat constructor; discriminate.
Defined.

(** X9: the exit signal is consulted only between bursts: a worker that is
    inside a burst when the signal is set still prints every remaining line of
    the burst, and only then leaves the loop and logs "finished". *)
Theorem burst_outlives_stop
    (w : world) (t sid : nat) (d : bool) (st : stream) (e : nat)
    (ls : list (list byte)) (rest : list read_result) :
  threads w !! t = Some (Thread d (Some sid) (Running (AtFor 0))) ->
  streams w !! sid = Some st ->
  feed st = map Line ls ++ Line [] :: rest ->
  Forall printable ls ->
  _exit w = Some e ->
  is_set e w = true ->
  exists w1,
    run (repeat (Step_worker t) (length ls) ++
         [Step_worker t; Step_worker t; Step_worker t]) w = Some w1 /\
    threads w1 !! t = Some (Thread d (Some sid) Finished) /\
    streams w1 !! sid = Some (Stream (binaryio st) (closed st) rest) /\
    trace w1 = trace w ++ burst_events t ls ++
               logged (verbose w) (Worker t) [finished].
Proof.
  intros T S FD P E IS.
  pose proof (burst_run ls w t d sid st (Line [] :: rest) T S FD P) as Rb.
  match type of Rb with _ = Some ?x => set (wb := x) in * end.
  assert (Tb : threads wb !! t = Some (Thread d (Some sid) (Running (AtFor 0))))
    by exact T.
  assert (Sb : streams wb !! sid
               = Some (Stream (binaryio st) (closed st) (Line [] :: rest))).
  { simpl. apply list_lookup_insert_eq. eapply lookup_lt_Some; eauto. }
  pose proof (flush_for (Worker t) sid 0 wb _ Sb) as Fc.
  unfold readline in Fc. cbn [feed binaryio closed] in Fc. cbv zeta in Fc.
  destruct (worker_step t d _ _ wb _ _ Tb Fc)
    as (Sc & Tc & TRc & STc & Vc & Cc & Ec & EVc & _). cbv zeta in *.
  match type of Sc with _ = Some ?x => set (wc := x) in * end.
  assert (Wc : while_cond (Some sid) wc = false).
  { unfold while_cond. rewrite Ec. change (_exit wb) with (_exit w). rewrite E.
    unfold is_set in *. rewrite EVc. change (events wb) with (events w).
    destruct (events w !! e) as [flag|]; [|discriminate]. now subst flag. }
  assert (Fd : __flush (Worker t) (Some sid) AtWhile wc = (Goto AtCleanup, wc))
    by (simpl; now rewrite Wc).
  destruct (worker_step t d _ _ wc _ _ Tc Fd)
    as (Sd & Td & TRd & STd & Vd & _). cbv zeta in *.
  match type of Sd with _ = Some ?x => set (wd := x) in * end.
  destruct (worker_step t d _ AtCleanup wd Return _ Td eq_refl)
    as (Se & Te & TRe & STe & Ve & _). cbv zeta in *.
  eexists. rewrite run_app, Rb. cbn [run]. rewrite Sc, Sd, Se.
  split; [reflexivity|]. split; [exact Te|]. split.
  - rewrite STe. unfold _cleanup.
    pose proof (self_print_frame (Worker t) finished wd) as G. cbv zeta in G.
    destruct G as (_ & _ & _ & _ & _ & -> & _). rewrite STd, STc. simpl.
    rewrite list_insert_insert_eq.
    apply list_lookup_insert_eq. eapply lookup_lt_Some; eauto.
  - rewrite TRe. unfold _cleanup. rewrite self_print_trace, TRd, TRc. simpl.
    rewrite <- app_assoc. do 2 f_equal. now rewrite Vd, Vc.
Qed.

Lemma burst_outlives_stop_witness :
  let ls := map list_byte_of_string ["b"; "c"; "d"]%string in
  is_set 0 stop_requested = true /\
  exists w1,
    run (repeat (Step_worker 0) (length ls) ++
         [Step_worker 0; Step_worker 0; Step_worker 0]) stop_requested = Some w1 /\
    threads w1 !! 0%nat = Some (Thread true (Some 0%nat) Finished) /\
    streams w1 !! 0%nat = Some (Stream true false []) /\
    trace w1 = trace stop_requested ++ burst_events 0 ls ++
               logged (verbose stop_requested) (Worker 0) [finished].
Proof.
  intros ls. split; [reflexivity|].
  apply (burst_outlives_stop stop_requested 0 0 true
           (Stream true false (map Line ls ++ [Line []])) 0 ls []);
    try reflexivity.
  repeat constructor; discriminate.
Defined.

(** ** What the instance does to the streams *)

Lemma readline_feed st : feed (readline st).2 = drop 1 (feed st).
Proof. unfold readline. destruct (feed st) eqn:E; simpl; now rewrite ?E. Qed.

Lemma readline_closed st : closed (readline st).2 = closed st.
Proof. unfold readline. now destruct (feed st). Qed.

Lemma flush_consumes a s pc w o w' sid st :
  __flush a s pc w = (o, w') -> streams w !! sid = Some st ->
  exists st' k, streams w' !! sid = Some st' /\ binaryio st' = binaryio st /\
    closed st' = closed st /\ feed st' = drop k (feed st).
Proof.
  intros F L.
  assert (N : exists st' k, streams w !! sid = Some st' /\
                binaryio st' = binaryio st /\ closed st' = closed st /\
                feed st' = drop k (feed st))
    by (exists st, 0%nat; repeat split; assumption).
  assert (P : forall m w0, streams (self_print a m w0) = streams w0)
    by (intros; apply self_print_frame).
  destruct pc as [| |bs|].
  - simpl in F. destruct (_output_thread w); injection F as <- <-;
      rewrite ?P; exact N.
  - simpl in F. destruct (while_cond s w); injection F as <- <-; exact N.
  - destruct s as [i|]; [|simpl in F; injection F as <- <-; exact N].
    destruct (streams w !! i) as [st0|] eqn:I.
    2:{ unfold __flush in F. simpl in F. rewrite I in F. simpl in F.
        injection F as <- <-. exact N. }
    rewrite (flush_for a i bs w st0 I) in F.
    pose proof (readline_binaryio st0) as B.
    pose proof (readline_closed st0) as C.
    pose proof (readline_feed st0) as D.
    destruct (readline st0) as [r st0']. simpl in B, C, D. cbv zeta in F.
    assert (K : exists st' k, <[i := st0']> (streams w) !! sid = Some st' /\
                  binaryio st' = binaryio st /\ closed st' = closed st /\
                  feed st' = drop k (feed st)).
    { destruct (decide (i = sid)) as [->|Ni].
      - rewrite list_lookup_insert_eq by (eapply lookup_lt_Some; eauto).
        rewrite L in I. injection I as <-. exists st0', 1%nat.
        repeat split; assumption.
      - rewrite list_lookup_insert_ne by done. exact N. }
    repeat match type of F with
    | (match ?x with _ => _ end) = _ => destruct x
    | (if ?x then _ else _) = _ => destruct x
    end; injection F as <- <-; rewrite ?P; exact K.
  - simpl in F. injection F as <- <-. unfold _cleanup. rewrite P. exact N.
Qed.

Lemma step_consumes act w w' sid st :
  step act w = Some w' -> streams w !! sid = Some st ->
  exists st' k, streams w' !! sid = Some st' /\ binaryio st' = binaryio st /\
    feed st' = drop k (feed st) /\
    (closed st' = closed st \/ (act = Env_close sid /\ closed st' = true)).
Proof.
  intros H L.
  assert (N : forall ss, ss = streams w ->
              exists st' k, ss !! sid = Some st' /\ binaryio st' = binaryio st /\
                feed st' = drop k (feed st) /\
                (closed st' = closed st \/ (act = Env_close sid /\ closed st' = true)))
    by (intros ss ->; exists st, 0%nat;
        split; [exact L|]; split; [reflexivity|]; split; [reflexivity|now left]).
  destruct act as [s| | |s| |t|i].
  - apply N. apply (call_frame (Call_monitor s) _ _ I H).
  - apply N. apply (call_frame Call_stop _ _ I H).
  - apply N. apply (call_frame Return_stop _ _ I H).
  - unfold step in H. destruct (caller w); try discriminate. injection H as <-.
    now apply N.
  - unfold step in H. destruct (caller w) as [| |s pc|]; try discriminate.
    destruct (__flush Caller s pc w) as [o w1] eqn:F. injection H as <-.
    destruct (flush_consumes _ _ _ _ _ _ _ _ F L) as (st' & k & ? & ? & ? & ?).
    exists st', k. auto.
  - unfold step in H.
    destruct (threads w !! t) as [[d s [pc| |]]|]; try discriminate.
    destruct (__flush (Worker t) s pc w) as [o w1] eqn:F. injection H as <-.
    pose proof (set_tstate_frame t (thread_after o) w1) as G. cbv zeta in G.
    destruct G as (_ & _ & _ & _ & _ & -> & _).
    destruct (flush_consumes _ _ _ _ _ _ _ _ F L) as (st' & k & ? & ? & ? & ?).
    exists st', k. auto.
  - unfold step in H. destruct (streams w !! i) as [sti|] eqn:Li; [|discriminate].
    injection H as <-. simpl. destruct (decide (i = sid)) as [->|Ni].
    + rewrite list_lookup_insert_eq by (eapply lookup_lt_Some; eauto).
      rewrite L in Li. injection Li as <-. exists (close st), 0%nat.
      split; [reflexivity|]. split; [reflexivity|]. split; [reflexivity|].
      right. split; reflexivity.
    + rewrite list_lookup_insert_ne by done. now apply N.
Qed.

(** X10: the instance only reads: in any execution a stream object stays in
    place and keeps its class, what is left of its feed is a suffix of what
    there was, a closed stream stays closed, and its [closed] flag changes
    only if its owner closes it. *)
Theorem streams_only_consumed
    (sched : list action) (w w' : world) (sid : nat) (st : stream) :
  run sched w = Some w' ->
  streams w !! sid = Some st ->
  exists st' k,
    streams w' !! sid = Some st' /\
    binaryio st' = binaryio st /\
    feed st' = drop k (feed st) /\
    (closed st = true -> closed st' = true) /\
    (~ In (Env_close sid) sched -> closed st' = closed st).
Proof.
  revert w st. induction sched as [|act rest IH]; simpl; intros w st.
  - intros [= <-] L. exists st, 0%nat. repeat split; auto.
  - destruct (step act w) as [w1|] eqn:S; [|discriminate]. intros R L.
    destruct (step_consumes _ _ _ _ _ S L) as (st1 & k1 & L1 & B1 & F1 & C1).
    destruct (IH _ _ R L1) as (st2 & k2 & L2 & B2 & F2 & C2 & C2').
    exists st2, (k1 + k2)%nat. split; [exact L2|]. split; [congruence|].
    split; [rewrite F2, F1; apply drop_drop|]. split.
    + intros C. apply C2. destruct C1 as [->|(_ & ->)]; auto.
    + intros N. rewrite C2' by tauto.
      destruct C1 as [->|(-> & _)]; [reflexivity|tauto].
Qed.

Lemma streams_only_consumed_witness :
  let sched := [Step_worker 0; Step_worker 0; Step_worker 0] in
  exists st' k,
    streams midburst !! 0%nat = Some st' /\
    binaryio st' = binaryio abcd /\
    feed st' = drop k (feed abcd) /\
    (closed abcd = true -> closed st' = true) /\
    (~ In (Env_close 0) sched -> closed st' = closed abcd).
Proof.
  intros sched.
  apply (streams_only_consumed sched started midburst 0 abcd); reflexivity.
Defined.

(** ** A burst, from the call of [monitor] *)

(** X17: let the stream be an open [BinaryIO] whose reads yield
    [N] non-empty UTF-8 lines and then the end marker.  When [monitor] is
    called on an instance that is not monitoring and the worker then runs
    (the guard, the loop condition, [N+1] reads), standard output has received
    exactly those [N] lines, decoded, each newline-terminated, in the order
    read, and the worker is back at the loop condition, still alive.  If
    the stream is closed at that point, the worker's next two steps end it:
    it logs "finished" and the instance is stopped, no further line having
    been printed.  And whatever the interleaving of the worker with
    the caller and the environment (direct calls of [__flush] apart), the
    lines the worker has printed are at every moment a prefix of the lines
    of the feed: in order, none twice, none skipped. *)
Theorem monitored_burst_is_printed
    (w : world) (sid : nat) (st : stream) (ls : list (list byte))
    (rest : list read_result) :
  reachable w ->
  caller w = Idle ->
  (exists v, is_monitoring w = (Ok v, w) /\ truthy v = false) ->
  streams w !! sid = Some st ->
  binaryio st = true ->
  closed st = false ->
  feed st = map Line ls ++ Line [] :: rest ->
  Forall printable ls ->
  let t := length (threads w) in
  (exists w1,
    run (Call_monitor (Some sid) :: Step_worker t :: Step_worker t ::
         repeat (Step_worker t) (length ls) ++ [Step_worker t]) w = Some w1 /\
    trace w1 = trace w ++ burst_events t ls /\
    stdout_lines (burst_events t ls) =
      map (fun l => Content (string_of_list_byte l)) ls /\
    map render (stdout_lines (burst_events t ls)) =
      map (fun l => (string_of_list_byte l ++ newline)%string) ls /\
    threads w1 !! t = Some (Thread true (Some sid) (Running AtWhile)) /\
    streams w1 !! sid = Some (Stream true false rest) /\
    exists w2,
      run [Env_close sid; Step_worker t; Step_worker t] w1 = Some w2 /\
      threads w2 !! t = Some (Thread true (Some sid) Finished) /\
      is_monitoring w2 = (Ok (PyBool false), w2) /\
      trace w2 = trace w1 ++ logged (verbose w) (Worker t) [finished]) /\
  (forall sched w',
     forallb (fun a => negb (is_direct_flush a)) sched = true ->
     run (Call_monitor (Some sid) :: sched) w = Some w' ->
     exists suffix,
       content_lines (worker_events t w') ++ suffix
       = map string_of_list_byte ls ++ feed_texts rest).
Proof.
  intros R C (v & M & TV) S B CL FD P t.
  (* the call of monitor *)
  set (w0 := World (Some t) (Some (length (events w))) (verbose w)
                   (events w ++ [false])
                   (threads w ++ [Thread true (Some sid) (Running AtGuard)])
                   (streams w) (caller w) (trace w)).
  assert (S0 : step (Call_monitor (Some sid)) w = Some w0)
    by (unfold step, monitor; rewrite C, M, TV; subst w0; now rewrite C).
  assert (T0 : threads w0 !! t = Some (Thread true (Some sid) (Running AtGuard))).
  { simpl. rewrite lookup_app_r by (subst t; lia). subst t.
    now rewrite Nat.sub_diag. }
  split.
  2:{ (* every interleaving: the worker is the only reader of the stream *)
      intros sched w' ND. cbn [run]. rewrite S0. intros R'.
      assert (I0 : sole_reader t sid
                     (map string_of_list_byte ls ++ feed_texts rest) w0).
      { split; [exact (step_wf _ _ _ (reachable_wf w R) S0)|].
        split; [simpl; now rewrite C|].
        exists true, (Running AtGuard). split; [exact T0|].
        exists st. split; [exact S|].
        change (worker_events t w0) with (worker_events t w).
        rewrite (reachable_silent w t R) by (subst t; lia).
        rewrite FD. simpl. apply feed_texts_burst, P. }
      exact (sole_reader_prefix _ _ _ _ (sole_reader_run _ _ _ _ _ _ I0 ND R')). }
  (* the guard *)
  destruct (worker_step t true _ AtGuard w0 (Goto AtWhile) w0 T0 eq_refl)
    as (Sa & Ta & TRa & STa & Va & Ca & Ea & EVa & Ha). cbv zeta in *.
  match type of Sa with _ = Some ?x => set (wa := x) in * end.
  (* the loop condition *)
  assert (Wa : while_cond (Some sid) wa = true).
  { apply while_cond_spec. exists (length (events w)), st.
    rewrite Ea, STa. repeat split; try assumption.
    unfold is_set. rewrite EVa. simpl. rewrite lookup_app_r by lia.
    now rewrite Nat.sub_diag. }
  assert (Fb : __flush (Worker t) (Some sid) AtWhile wa = (Goto (AtFor 0), wa))
    by (simpl; now rewrite Wa).
  destruct (worker_step t true _ _ wa _ _ Ta Fb)
    as (Sb & Tb & TRb & STb & Vb & Cb & Eb & EVb & Hb). cbv zeta in *.
  match type of Sb with _ = Some ?x => set (wb := x) in * end.
  (* the lines *)
  assert (Sb' : streams wb !! sid = Some st) by (now rewrite STb, STa).
  pose proof (burst_run ls wb t true sid st (Line [] :: rest) Tb Sb' FD P) as Rc.
  rewrite B, CL in Rc.
  set (wc := World _ _ _ _ _ _ _ _) in Rc.
  assert (Tc : threads wc !! t = Some (Thread true (Some sid) (Running (AtFor 0))))
    by exact Tb.
  assert (Sc : streams wc !! sid = Some (Stream true false (Line [] :: rest))).
  { simpl. apply list_lookup_insert_eq. eapply lookup_lt_Some; eauto. }
  (* the end marker *)
  pose proof (flush_for (Worker t) sid 0 wc _ Sc) as Fd.
  unfold readline in Fd. cbn [feed binaryio closed] in Fd. cbv zeta in Fd.
  destruct (worker_step t true _ _ wc _ _ Tc Fd)
    as (Sd & Td & TRd & STd & Vd & Cd & Ed & EVd & Hd). cbv zeta in *.
  match type of Sd with _ = Some ?x => set (w1 := x) in * end.
  assert (TR1 : trace w1 = trace w ++ burst_events t ls).
  { rewrite TRd. simpl. now rewrite TRb, TRa. }
  assert (S1 : streams w1 !! sid = Some (Stream true false rest)).
  { rewrite STd. simpl. rewrite list_insert_insert_eq.
    apply list_lookup_insert_eq. eapply lookup_lt_Some; eauto. }
  exists w1. split.
  { cbn [run]. rewrite S0. cbn [run]. rewrite Sa. cbn [run]. rewrite Sb.
    now rewrite run_app, Rc; cbn [run]; rewrite Sd. }
  split; [exact TR1|]. split; [apply stdout_burst_events|].
  split; [apply render_burst_events|]. split; [exact Td|]. split; [exact S1|].
  (* the stream is closed; the loop condition fails; cleanup *)
  set (we := set_streams (<[sid := close (Stream true false rest)]> (streams w1)) w1).
  assert (Se : step (Env_close sid) w1 = Some we)
    by (unfold step; rewrite S1; now destruct (caller w1)).
  assert (Te : threads we !! t = Some (Thread true (Some sid) (Running AtWhile)))
    by exact Td.
  assert (We : while_cond (Some sid) we = false).
  { unfold while_cond. simpl.
    rewrite list_lookup_insert_eq by (eapply lookup_lt_Some; eauto). simpl.
    destruct (_exit w1); [apply andb_false_r|reflexivity]. }
  assert (Ff : __flush (Worker t) (Some sid) AtWhile we = (Goto AtCleanup, we))
    by (simpl; now rewrite We).
  destruct (worker_step t true _ _ we _ _ Te Ff)
    as (Sf & Tf & TRf & STf & Vf & Cf & Ef & EVf & Hf). cbv zeta in *.
  match type of Sf with _ = Some ?x => set (wf := x) in * end.
  destruct (worker_step t true _ AtCleanup wf Return _ Tf eq_refl)
    as (Sg & Tg & TRg & STg & Vg & Cg & Eg & EVg & Hg). cbv zeta in *.
  match type of Sg with _ = Some ?x => set (w2 := x) in * end.
  exists w2. split; [cbn [run]; now rewrite Se, Sf, Sg|].
  split; [exact Tg|]. split.
  - unfold is_monitoring.
    assert (_output_thread w2 = Some t) as ->.
    { rewrite Hg, Hf. change (_output_thread we) with (_output_thread w1).
      rewrite Hd. change (_output_thread wc) with (_output_thread wb).
      now rewrite Hb, Ha. }
    unfold is_alive. now rewrite Tg.
  - rewrite TRg. unfold _cleanup. rewrite self_print_trace, TRf. simpl.
    do 2 f_equal. rewrite Vf. change (verbose we) with (verbose w1).
    rewrite Vd. change (verbose wc) with (verbose wb). now rewrite Vb, Va.
Qed.

Lemma monitored_burst_is_printed_witness :
  let ls := map list_byte_of_string ["a"; "b"; "c"; "d"]%string in
  reachable unstarted /\
  exists w1,
    run (Call_monitor (Some 0%nat) :: Step_worker 0 :: Step_worker 0 ::
         repeat (Step_worker 0) 4 ++ [Step_worker 0]) unstarted = Some w1 /\
    trace w1 = trace unstarted ++ burst_events 0 ls /\
    stdout_lines (burst_events 0 ls) =
      map (fun l => Content (string_of_list_byte l)) ls /\
    map render (stdout_lines (burst_events 0 ls)) =
      map (fun l => (string_of_list_byte l ++ newline)%string) ls /\
    threads w1 !! 0%nat = Some (Thread true (Some 0%nat) (Running AtWhile)) /\
    streams w1 !! 0%nat = Some (Stream true false []) /\
    exists w2,
      run [Env_close 0; Step_worker 0; Step_worker 0] w1 = Some w2 /\
      threads w2 !! 0%nat = Some (Thread true (Some 0%nat) Finished) /\
      is_monitoring w2 = (Ok (PyBool false), w2) /\
      trace w2 = trace w1 ++ logged (verbose unstarted) (Worker 0) [finished].
Proof.
  assert (R : reachable unstarted) by (exists [abcd], None, true, []; reflexivity).
  split; [exact R|].
  apply (monitored_burst_is_printed unstarted 0 abcd
           (map list_byte_of_string ["a"; "b"; "c"; "d"]%string) []).
  - exact R.
  - reflexivity.
  - exists PyNone. split; reflexivity.
  - reflexivity.
  - reflexivity.
  - reflexivity.
  - reflexivity.
  - repeat constructor; discriminate.
Defined.

(** ** Calling [monitor] twice *)

(** X11: a second call of [monitor] is refused exactly while the worker of
    the first is still running.  Let the first call start a worker on an
    instance that is not monitoring, and let the worker and the owner of the
    streams take any steps before the second call.  The instance then has
    that one worker, and [is_monitoring] says whether it is alive.  If it is,
    the second call, whatever its argument, only logs "already monitoring":
    no thread is added, and the worker, the exit signal and the streams stay
    as they are.  If the worker has ended in between (its stream was no
    [BinaryIO], was closed, or a read raised), the second call with a stream
    starts a second worker and logs nothing. *)
Theorem second_monitor_refused_while_alive
    (w w1 w2 : world) (sid : nat) (sched : list action) :
  caller w = Idle ->
  (exists v, is_monitoring w = (Ok v, w) /\ truthy v = false) ->
  step (Call_monitor (Some sid)) w = Some w1 ->
  forallb is_background sched = true ->
  run sched w1 = Some w2 ->
  let t := length (threads w) in
  threads w1 = threads w ++ [Thread true (Some sid) (Running AtGuard)] /\
  is_monitoring w1 = (Ok (PyBool true), w1) /\
  _output_thread w2 = Some t /\ length (threads w2) = S t /\
  is_monitoring w2 = (Ok (PyBool (is_alive t w2)), w2) /\
  (is_alive t w2 = true -> forall s2, exists w3,
     step (Call_monitor s2) w2 = Some w3 /\
     threads w3 = threads w2 /\ _output_thread w3 = Some t /\
     _exit w3 = _exit w1 /\ events w3 = events w1 /\ streams w3 = streams w2 /\
     trace w3 = trace w2 ++ logged (verbose w) Caller [already_monitoring]) /\
  (is_alive t w2 = false -> forall sid2, exists w3,
     step (Call_monitor (Some sid2)) w2 = Some w3 /\
     threads w3 = threads w2 ++ [Thread true (Some sid2) (Running AtGuard)] /\
     _output_thread w3 = Some (S t) /\
     is_monitoring w3 = (Ok (PyBool true), w3) /\
     streams w3 = streams w2 /\ trace w3 = trace w2).
Proof.
  intros C (v & M & TV) S1 B R t.
  assert (E1 : w1 = World (Some t) (Some (length (events w))) (verbose w)
                          (events w ++ [false])
                          (threads w ++ [Thread true (Some sid) (Running AtGuard)])
                          (streams w) (caller w) (trace w)).
  { revert S1. unfold step, monitor. rewrite C, M, TV. rewrite C.
    now intros [= <-]. }
  destruct (background_run sched w1 w2 B R) as (H2 & X2 & V2 & EV2 & C2 & L2).
  assert (M1 : is_monitoring w1 = (Ok (PyBool true), w1)).
  { rewrite E1. unfold is_monitoring, is_alive, is_set. simpl.
    rewrite !lookup_app_r by (subst t; lia). subst t. now rewrite !Nat.sub_diag. }
  assert (H2' : _output_thread w2 = Some t) by (rewrite H2, E1; reflexivity).
  assert (X2' : _exit w2 = Some (length (events w))) by (rewrite X2, E1; reflexivity).
  assert (EV2' : events w2 = events w ++ [false]) by (rewrite EV2, E1; reflexivity).
  assert (V2' : verbose w2 = verbose w) by (rewrite V2, E1; reflexivity).
  assert (C2' : caller w2 = Idle) by (rewrite C2, E1; exact C).
  assert (L2' : length (threads w2) = S t).
  { rewrite L2, E1. simpl. rewrite length_app. simpl. subst t. lia. }
  assert (U2 : is_set (length (events w)) w2 = false).
  { unfold is_set. rewrite EV2'. rewrite lookup_app_r by lia.
    now rewrite Nat.sub_diag. }
  assert (M2 : is_monitoring w2 = (Ok (PyBool (is_alive t w2)), w2)).
  { unfold is_monitoring. rewrite H2', X2', U2. now destruct (is_alive t w2). }
  split; [rewrite E1; reflexivity|]. split; [exact M1|]. split; [exact H2'|].
  split; [exact L2'|]. split; [exact M2|]. split.
  - intros A s2. exists (self_print Caller already_monitoring w2).
    split; [unfold step, monitor; rewrite C2', M2, A; reflexivity|].
    pose proof (self_print_frame Caller already_monitoring w2) as G.
    cbv zeta in G. destruct G as (G1 & G2 & _ & G4 & G5 & G6 & _ & G8).
    split; [exact G5|]. split; [now rewrite G1|]. split; [now rewrite G2|].
    split; [now rewrite G4|]. split; [exact G6|]. now rewrite G8, V2'.
  - intros A sid2. eexists. split.
    { unfold step, monitor. rewrite C2', M2, A. simpl. reflexivity. }
    simpl. split; [reflexivity|]. split; [now rewrite L2'|].
    split; [|split; reflexivity].
    unfold is_monitoring, is_alive, is_set. simpl.
    rewrite !lookup_app_r by lia. now rewrite !Nat.sub_diag.
Qed.

Lemma second_monitor_refused_while_alive_witness :
  (exists w3,
     step (Call_monitor (Some 0%nat)) midburst = Some w3 /\
     threads w3 = threads midburst /\ _output_thread w3 = Some 0%nat /\
     _exit w3 = _exit started /\ events w3 = events started /\
     streams w3 = streams midburst /\
     trace w3 = trace midburst ++ logged true Caller [already_monitoring]) /\
  (exists w3,
     step (Call_monitor (Some 0%nat))
          (after (repeat (Step_worker 0) 3) started_on_pipe) = Some w3 /\
     threads w3 = threads (after (repeat (Step_worker 0) 3) started_on_pipe)
                  ++ [Thread true (Some 0%nat) (Running AtGuard)] /\
     _output_thread w3 = Some 1%nat /\
     is_monitoring w3 = (Ok (PyBool true), w3) /\
     streams w3 = streams (after (repeat (Step_worker 0) 3) started_on_pipe) /\
     trace w3 = trace (after (repeat (Step_worker 0) 3) started_on_pipe)).
Proof.
  split.
  - assert (P := second_monitor_refused_while_alive
                   unstarted started midburst 0
                   [Step_worker 0; Step_worker 0; Step_worker 0]
                   eq_refl
                   (ex_intro _ PyNone (conj eq_refl eq_refl))
                   eq_refl eq_refl eq_refl).
    cbv zeta in P. destruct P as (_ & _ & _ & _ & _ & A & _).
    apply (A eq_refl (Some 0%nat)).
  - assert (P := second_monitor_refused_while_alive
                   (__init__ [pipe] None true).2 started_on_pipe
                   (after (repeat (Step_worker 0) 3) started_on_pipe) 0
                   (repeat (Step_worker 0) 3)
                   eq_refl
                   (ex_intro _ PyNone (conj eq_refl eq_refl))
                   eq_refl eq_refl eq_refl).
    cbv zeta in P. destruct P as (_ & _ & _ & _ & _ & _ & D).
    apply (D eq_refl 0%nat).
Defined.

(** ** The mock stream *)

Lemma proper_burst_nonempty b : MockStream.proper_burst b -> b <> [].
Proof. intros (ls & -> & _). now destruct ls. Qed.

Lemma mock_init_ready data :
  data <> [] -> Forall MockStream.proper_burst data ->
  MockStream.ready (MockStream.__init__ (Some data)) /\
  MockStream.remaining (MockStream.__init__ (Some data)) = concat data.
Proof.
  intros NE P. destruct data as [|b data]; [contradiction|].
  apply Forall_cons in P as [Pb P].
  pose proof (proper_burst_nonempty b Pb) as Nb.
  unfold MockStream.__init__, MockStream.set_data, MockStream.__next__,
    MockStream.remaining. simpl. split; [|reflexivity].
  split; simpl; eauto.
  - unfold MockStream.remaining. simpl. split; [discriminate|].
    intros E. apply app_eq_nil in E as [E _]. contradiction.
Qed.

(** One call of [readline] on a mock built from proper bursts: it delivers
    the next chunk, or raises [StopIteration] when there is none left. *)
Lemma mock_readline_ready m :
  MockStream.ready m ->
  match MockStream.remaining m with
  | [] => MockStream.readline m = (MockStream.StopIteration, m)
  | x :: r => exists m', MockStream.readline m = (MockStream.Returns x, m') /\
                         MockStream.ready m' /\ MockStream.remaining m' = r
  end.
Proof.
  intros [D (cur & C & NC) (it & I & PI) L CL].
  assert (D' : (0 <? length (MockStream.mock_data m))%nat = true).
  { apply Nat.ltb_lt. destruct (MockStream.mock_data m); [contradiction|simpl; lia]. }
  assert (C' : (0 <? length cur)%nat = true).
  { apply Nat.ltb_lt. destruct cur; [contradiction|simpl; lia]. }
  unfold MockStream.readline. rewrite D', C, C', I.
  unfold MockStream.remaining in *. rewrite I in *. simpl in *.
  destruct PI as [(ls & -> & NEls)|(-> & GE)].
  - destruct ls as [|x ls]; simpl.
    + (* the end marker of the burst *)
      eexists. split; [reflexivity|].
      unfold MockStream.__next__. simpl.
      destruct (MockStream.mock_data m !! MockStream.mock_data_index m)
        as [b|] eqn:Lk.
      * pose proof (drop_S _ _ _ Lk) as DS. rewrite DS in L |- *.
        apply Forall_cons in L as [Pb L].
        pose proof (proper_burst_nonempty b Pb) as Nb.
        split; [|reflexivity].
        split; simpl; eauto.
        unfold MockStream.remaining. simpl. split.
        -- intros SC. apply CL in SC. discriminate.
        -- intros E. apply app_eq_nil in E as [E _]. contradiction.
      * apply lookup_ge_None in Lk.
        assert (DG : drop (MockStream.mock_data_index m) (MockStream.mock_data m) = [])
          by (apply drop_ge; lia).
        rewrite DG. split; [|unfold MockStream.remaining; simpl; now rewrite DG].
        split; simpl.
        -- exact D.
        -- eauto.
        -- exists []. split; [reflexivity|]. right. split; [reflexivity|lia].
        -- rewrite DG. constructor.
        -- unfold MockStream.remaining. simpl. now rewrite DG.
    + apply Forall_cons in NEls as [Nx NEls].
      destruct x as [|b0 x]; [contradiction|].
      eexists. split; [reflexivity|]. split; [|reflexivity].
      split; simpl; eauto.
      * exists (ls ++ [[]]). split; [reflexivity|]. left. exists ls. auto.
      * unfold MockStream.remaining. simpl. split.
        -- intros SC. apply CL in SC. discriminate.
        -- intros E. apply app_eq_nil in E as [E _].
           apply app_eq_nil in E as [_ E]. discriminate.
  - rewrite drop_ge by lia. reflexivity.
Qed.

Lemma mock_readlines_ready n : forall m,
  MockStream.ready m ->
  exists m',
    MockStream.readlines n m =
      (map MockStream.Returns (take n (MockStream.remaining m)) ++
       repeat MockStream.StopIteration (n - length (MockStream.remaining m)),
       m') /\
    MockStream.ready m' /\
    MockStream.remaining m' = drop n (MockStream.remaining m).
Proof.
  induction n as [|n IH]; intros m R.
  - exists m. simpl. rewrite drop_0. auto.
  - pose proof (mock_readline_ready m R) as K. cbn [MockStream.readlines].
    destruct (MockStream.remaining m) as [|x r] eqn:E.
    + rewrite K. destruct (IH m R) as (m' & RL & R' & E').
      rewrite RL, E in *. exists m'. simpl in *. rewrite Nat.sub_0_r in *.
      rewrite take_nil, drop_nil in *. simpl in *. auto.
    + destruct K as (m1 & -> & R1 & E1).
      destruct (IH m1 R1) as (m' & RL & R' & E').
      rewrite RL, E1 in *. exists m'. simpl. auto.
Qed.

(** X12: a mock built from non-empty data whose bursts are non-empty chunks
    closed by [b""] delivers the chunks of all the bursts in order, one per
    [readline]; every call after the last chunk raises [StopIteration]; and
    [should_close] is set exactly once the last chunk has been read. *)
Theorem mock_delivers_bursts (data : list (list (list byte))) (n : nat) :
  data <> [] ->
  Forall MockStream.proper_burst data ->
  exists m',
    MockStream.readlines n (MockStream.__init__ (Some data)) =
      (map MockStream.Returns (take n (concat data)) ++
       repeat MockStream.StopIteration (n - length (concat data)), m') /\
    (MockStream.should_close m' = true <-> (length (concat data) <= n)%nat).
Proof.
  intros NE P. destruct (mock_init_ready data NE P) as (R & E).
  destruct (mock_readlines_ready n _ R) as (m' & RL & R' & E').
  rewrite E in *. exists m'. split; [exact RL|].
  rewrite (MockStream.ready_close m' R'), E'. split.
  - intros D. apply (f_equal length) in D. rewrite length_drop in D.
    simpl in D. lia.
  - intros L. apply drop_ge. exact L.
Qed.

Lemma mock_delivers_bursts_witness :
  let data := [map list_byte_of_string ["a"; ""]%string] in
  exists m',
    MockStream.readlines 3 (MockStream.__init__ (Some data)) =
      (map MockStream.Returns (take 3 (concat data)) ++
       repeat MockStream.StopIteration (3 - length (concat data)), m') /\
    (MockStream.should_close m' = true <-> (length (concat data) <= 3)%nat).
Proof.
  intros data. apply (mock_delivers_bursts data 3); [discriminate|].
  repeat constructor. exists [list_byte_of_string "a"].
  split; [reflexivity|]. repeat constructor. discriminate.
Defined.

(** X13: the stream objects of the worlds simulate the mock: on a mock built
    from proper bursts, a [readline] of the mock and a [readline] of the
    stream whose feed is the chunks the mock has left give the same read (a
    [StopIteration] being an empty read past the feed) and corresponding
    states. *)
Theorem mock_refines_stream (m : MockStream.t) (c : bool) :
  MockStream.ready m ->
  readline (MockStream.to_stream c m) =
    (MockStream.as_read (MockStream.readline m).1,
     MockStream.to_stream c (MockStream.readline m).2) /\
  MockStream.ready (MockStream.readline m).2.
Proof.
  intros R. pose proof (mock_readline_ready m R) as K.
  unfold MockStream.to_stream, readline. simpl.
  destruct (MockStream.remaining m) as [|x r] eqn:E.
  - rewrite K. simpl. rewrite E. auto.
  - destruct K as (m' & -> & R' & E'). simpl. rewrite E'. auto.
Qed.

Lemma mock_refines_stream_witness :
  let m := MockStream.__init__ (Some [map list_byte_of_string ["a"; ""]%string]) in
  readline (MockStream.to_stream false m) =
    (MockStream.as_read (MockStream.readline m).1,
     MockStream.to_stream false (MockStream.readline m).2) /\
  MockStream.ready (MockStream.readline m).2.
Proof.
  intros m. apply (mock_refines_stream m false).
  apply mock_init_ready; [discriminate|].
  repeat constructor. exists [list_byte_of_string "a"].
  split; [reflexivity|]. repeat constructor. discriminate.
Defined.

(** X14: a mock without data, with empty data, or whose first burst is
    empty raises [ValueError] at every [readline] and never changes. *)
Theorem empty_mock_raises (data : option (list (list (list byte)))) (n : nat) :
  data = None \/ data = Some [] \/ (exists rest, data = Some ([] :: rest)) ->
  MockStream.readlines n (MockStream.__init__ data) =
  (repeat (MockStream.Raises ValueError) n, MockStream.__init__ data).
Proof.
  intros H.
  assert (K : MockStream.readline (MockStream.__init__ data)
              = (MockStream.Raises ValueError, MockStream.__init__ data))
    by (destruct H as [->|[->|(rest & ->)]]; reflexivity).
  induction n as [|n IH]; [reflexivity|].
  cbn [MockStream.readlines repeat]. now rewrite K, IH.
Qed.

Lemma empty_mock_raises_witness :
  MockStream.readlines 2 (MockStream.__init__ None) =
  (repeat (MockStream.Raises ValueError) 2, MockStream.__init__ None).
Proof. apply (empty_mock_raises None 2). left. reflexivity. Defined.

Lemma mock_unterminated it : forall m cur k,
  MockStream.mock_data m <> [] ->
  MockStream.mock_current_data m = Some cur -> cur <> [] ->
  MockStream.mock_current_data_iter m = Some it ->
  Forall (fun l => l <> []) it ->
  MockStream.readlines (length it + k) m =
  (map MockStream.Returns it ++ repeat MockStream.StopIteration k,
   MockStream.Mock (MockStream.mock_data m) (MockStream.mock_data_index m)
                   (MockStream.readline_index m) (MockStream.should_close m)
                   (MockStream.mock_current_data m) (Some [])).
Proof.
  assert (G : forall m cur,
            MockStream.mock_data m <> [] ->
            MockStream.mock_current_data m = Some cur -> cur <> [] ->
            (0 <? length (MockStream.mock_data m))%nat = true /\
            (0 <? length cur)%nat = true).
  { intros m cur D C NC. split; apply Nat.ltb_lt.
    - destruct (MockStream.mock_data m); [contradiction|simpl; lia].
    - destruct cur; [contradiction|simpl; lia]. }
  induction it as [|x it IH]; intros m cur k D C NC I NE.
  - simpl. destruct (G m cur D C NC) as (D' & C').
    induction k as [|k IHk].
    + simpl. destruct m; simpl in *. now subst.
    + cbn [MockStream.readlines repeat]. unfold MockStream.readline at 1.
      rewrite D', C, C', I, IHk. now rewrite C.
  - apply Forall_cons in NE as [Nx NE]. destruct x as [|b0 x]; [contradiction|].
    destruct (G m cur D C NC) as (D' & C').
    cbn [length Nat.add MockStream.readlines]. unfold MockStream.readline at 1.
    rewrite D', C, C', I.
    erewrite (IH _ cur k); simpl; eauto.
Qed.

(** X15: a first burst that lacks the closing [b""] blocks the mock: after
    its chunks every [readline] raises [StopIteration], the later bursts are
    never delivered and [should_close] is never set. *)
Theorem unterminated_burst_blocks
    (b : list (list byte)) (later : list (list (list byte))) (k : nat) :
  b <> [] ->
  Forall (fun l => l <> []) b ->
  exists m',
    MockStream.readlines (length b + k) (MockStream.__init__ (Some (b :: later)))
    = (map MockStream.Returns b ++ repeat MockStream.StopIteration k, m') /\
    MockStream.should_close m' = false /\
    MockStream.mock_data_index m' = 1%nat.
Proof.
  intros NB NE. eexists. split.
  - apply (mock_unterminated b _ b k); try reflexivity; try assumption.
    discriminate.
  - split; reflexivity.
Qed.

Lemma unterminated_burst_blocks_witness :
  let b := map list_byte_of_string ["a"]%string in
  let later := [map list_byte_of_string ["b"; ""]%string] in
  exists m',
    MockStream.readlines (length b + 2) (MockStream.__init__ (Some (b :: later)))
    = (map MockStream.Returns b ++ repeat MockStream.StopIteration 2, m') /\
    MockStream.should_close m' = false /\
    MockStream.mock_data_index m' = 1%nat.
Proof.
  intros b later. apply (unterminated_burst_blocks b later 2); [discriminate|].
  repeat constructor. discriminate.
Defined.

(** ** The instance over the mock stream *)

Lemma mock_data_proper (bs : list (list (list byte))) :
  Forall (Forall printable) bs ->
  Forall MockStream.proper_burst (map (fun b => b ++ [[]]) bs).
Proof.
  intros P. apply Forall_map. eapply Forall_impl; [exact P|].
  intros b Pb. exists b. split; [reflexivity|].
  eapply Forall_impl; [exact Pb|]. now intros l [NE _].
Qed.

Lemma mock_data_feed (bs : list (list (list byte))) :
  map Line (concat (map (fun b => b ++ [[]]) bs)) = burst_feed bs.
Proof.
  unfold burst_feed. induction bs as [|b bs IH]; [reflexivity|].
  cbn [map concat]. now rewrite !map_app, IH.
Qed.

Lemma stdout_lines_app tr1 tr2 :
  stdout_lines (tr1 ++ tr2) = stdout_lines tr1 ++ stdout_lines tr2.
Proof. apply omap_app. Qed.

Lemma stdout_lines_logged verb a ms :
  stdout_lines (logged verb a ms) = if verb then map Diag ms else [].
Proof.
  unfold logged. destruct verb; [|reflexivity].
  induction ms as [|m ms IH]; [reflexivity|]. simpl in *.
  unfold stdout_lines in *. simpl. now rewrite IH.
Qed.

(** X16: what [test_content] and [test_content_silent] check, for any data:
    an instance constructed on a mock holding the bursts [bs] of printable
    lines, whose worker runs through the bursts before the stream is closed,
    has written exactly the lines of all bursts in order, followed by
    "finished" if it is verbose and by nothing otherwise, and is no longer
    monitoring. *)
Theorem streamer_on_mock (bs : list (list (list byte))) (verb : bool) :
  bs <> [] ->
  Forall (Forall printable) bs ->
  let data := map (fun b => b ++ [[]]) bs in
  let env := [MockStream.to_stream false (MockStream.__init__ (Some data))] in
  exists w,
    run (Step_worker 0 :: repeat (Step_worker 0) (burst_steps bs) ++
         [Env_close 0; Step_worker 0; Step_worker 0])
        (__init__ env (Some 0%nat) verb).2 = Some w /\
    stdout_lines (trace w) =
      map (fun l => Content (string_of_list_byte l)) (concat bs) ++
      (if verb then [Diag finished] else []) /\
    is_monitoring w = (Ok (PyBool false), w).
Proof.
  intros NE P data env.
  assert (ND : data <> []) by (subst data; now destruct bs).
  destruct (mock_init_ready data ND (mock_data_proper bs P)) as (_ & RM).
  assert (EV : env = [Stream true false (burst_feed bs)]).
  { subst env. unfold MockStream.to_stream. rewrite RM. subst data.
    now rewrite mock_data_feed. }
  rewrite EV. clear EV RM ND env data.
  set (w0 := (__init__ [Stream true false (burst_feed bs)] (Some 0%nat) verb).2).
  assert (T0 : threads w0 !! 0%nat = Some (Thread true (Some 0%nat) (Running AtGuard)))
    by reflexivity.
  destruct (worker_step 0 true _ AtGuard w0 (Goto AtWhile) w0 T0 eq_refl)
    as (Sa & Ta & TRa & STa & Va & Ca & Ea & EVa & Ha). cbv zeta in *.
  match type of Sa with _ = Some ?x => set (wa := x) in * end.
  assert (La : streams wa !! 0%nat = Some (Stream true false (burst_feed bs)))
    by (now rewrite STa).
  assert (NSa : is_set 0 wa = false) by (unfold is_set; now rewrite EVa).
  destruct (bursts_are_printed wa 0 0 true _ 0 bs [] Ta La eq_refl eq_refl
              Ea NSa (eq_sym (app_nil_r _)) P)
    as (wb & Rb & Tb & Lb & TRb & _).
  set (wc := set_streams (<[0%nat := close (Stream true false [])]> (streams wb)) wb).
  assert (Sc : step (Env_close 0) wb = Some wc)
    by (unfold step; rewrite Lb; now destruct (caller wb)).
  assert (Tc : threads wc !! 0%nat = Some (Thread true (Some 0%nat) (Running AtWhile)))
    by exact Tb.
  assert (Wc : while_cond (Some 0%nat) wc = false).
  { unfold while_cond. simpl.
    rewrite list_lookup_insert_eq by (eapply lookup_lt_Some; eauto). simpl.
    destruct (_exit wb); [apply andb_false_r|reflexivity]. }
  assert (Fd : __flush (Worker 0) (Some 0%nat) AtWhile wc = (Goto AtCleanup, wc))
    by (simpl; now rewrite Wc).
  destruct (worker_step 0 true _ _ wc _ _ Tc Fd)
    as (Sd & Td & TRd & STd & Vd & Cd & Ed & EVd & Hd). cbv zeta in *.
  match type of Sd with _ = Some ?x => set (wd := x) in * end.
  destruct (worker_step 0 true _ AtCleanup wd Return _ Td eq_refl)
    as (Se & Te & TRe & STe & Ve & Ce & Ee & EVe & He). cbv zeta in *.
  match type of Se with _ = Some ?x => set (w := x) in * end.
  exists w. split.
  { cbn [run]. rewrite Sa, run_app, Rb. cbn [run]. now rewrite Sc, Sd, Se. }
  assert (Vb : verbose wb = verb).
  { assert (forall sched w1 w2, run sched w1 = Some w2 -> verbose w2 = verbose w1) as K.
    { induction sched as [|a r IH]; simpl; intros w1 w2.
      - now intros [= <-].
      - destruct (step a w1) as [w3|] eqn:S3; [|discriminate]. intros R.
        rewrite (IH _ _ R). exact (step_verbose _ _ _ S3). }
    rewrite (K _ _ _ Rb), Va. reflexivity. }
  split.
  - rewrite TRe. unfold _cleanup. rewrite self_print_trace, TRd.
    change (trace wc) with (trace wb). rewrite TRb, TRa.
    change (trace w0) with (@nil event). rewrite app_nil_l.
    rewrite stdout_lines_app, stdout_burst_events, stdout_lines_logged.
    rewrite Vd. change (verbose wc) with (verbose wb). now rewrite Vb.
  - unfold is_monitoring.
    assert (_output_thread w = Some 0%nat) as ->.
    { rewrite He, Hd. change (_output_thread wc) with (_output_thread wb).
      destruct (background_run (repeat (Step_worker 0) (burst_steps bs)) wa wb)
        as (HT & _); [|exact Rb|].
      - clear. induction (burst_steps bs); [reflexivity|assumption].
      - now rewrite HT, Ha. }
    unfold is_alive. now rewrite Te.
Qed.

Lemma streamer_on_mock_witness :
  let data := map (fun b => b ++ [[]]) two_bursts in
  let env := [MockStream.to_stream false (MockStream.__init__ (Some data))] in
  exists w,
    run (Step_worker 0 :: repeat (Step_worker 0) (burst_steps two_bursts) ++
         [Env_close 0; Step_worker 0; Step_worker 0])
        (__init__ env (Some 0%nat) true).2 = Some w /\
    stdout_lines (trace w) =
      map (fun l => Content (string_of_list_byte l)) (concat two_bursts) ++
      [Diag finished] /\
    is_monitoring w = (Ok (PyBool false), w).
Proof.
  apply (streamer_on_mock two_bursts true); [discriminate|].
  repeat constructor; discriminate.
Defined.
